(** * Verification of the news-recommendation training / evaluation harness

    Shallow embedding of [recommenders/models/newsrec/models/base_model.py]
    (class [BaseModel]) and theorems about its evaluation and training loops.

    Conventions of the embedding.
    - Python integers (impression / news indices, epochs, patience) are [Z].
    - Metric values, vector components and learning rates are exact
      rationals [Q]; floating-point rounding is not modelled for them.
    - The step losses keep the arithmetic of the training step: their type
      and the operations [0], [+=] and [/] that [fit] and [custom_fit] apply
      to them are given by a class [LossArith], with an exact instance
      (rationals) and the instance of Python floats (IEEE binary64).
    - A Python [dict] is a [gmap]; an exception is an explicit [Raise].
    - The external collaborators (batch iterators, encoders, scorer, metric
      engine) are Section variables.
    - Printed lines and progress descriptions are recorded as a list of
      [event]s; wall-clock times, the checkpoint write and the assignment
      to [hparams.current_epoch] (which nothing in the class reads) are
      left out. *)

From Stdlib Require Import Floats.
From Stdlib Require Import QArith Qminmax Lqa.
From stdpp Require Import gmap list sorting strings.

Local Open Scope Z_scope.
#[local] Set Warnings "-clear-no-such-hyp,-inexact-float".

(** ** Exceptions *)

Inductive exn : Set :=
| KeyError | ValueError | IndexError | ZeroDivisionError | UnboundLocalError.

Inductive res (A : Type) : Type :=
| Ok (a : A)
| Raise (e : exn).
Arguments Ok {A} a.
Arguments Raise {A} e.

#[global] Instance res_ret : MRet res := λ A, Ok.
#[global] Instance res_bind : MBind res :=
  λ A B f m, match m with Ok a => f a | Raise e => Raise e end.
#[global] Instance res_fmap : FMap res :=
  λ A B f m, match m with Ok a => Ok (f a) | Raise e => Raise e end.

(** [d[k]] on a dict. *)
Definition getitem `{Countable K} {A : Type} (d : gmap K A) (k : K) : res A :=
  match d !! k with Some v => Ok v | None => Raise KeyError end.

(** [dict(zip(ks, vs))]: pairs are inserted from left to right, so a later
    pair overwrites an earlier one with the same key. *)
Definition dict_zip `{Countable K} {A : Type} (ks : list K) (vs : list A) : gmap K A :=
  foldl (λ d kv, <[kv.1 := kv.2]> d) ∅ (zip ks vs).

(** ** Grouping: [BaseModel.group_labels] *)

Module Grouping.

Section group_labels.
Context {L P : Type}.

(** [all_keys = list(set(group_keys)); all_keys.sort()] *)
Definition all_keys_of (group_keys : list Z) : list Z :=
  merge_sort Z.le (elements (list_to_set group_keys : gset Z)).

(** [{k: [] for k in all_keys}] *)
Definition empty_groups {A : Type} (all_keys : list Z) : gmap Z (list A) :=
  foldl (λ d k, <[k := []]> d) ∅ all_keys.

(** [d[k].append(x)] *)
Definition append_at {A : Type} (d : gmap Z (list A)) (k : Z) (x : A)
  : res (gmap Z (list A)) :=
  l ← getitem d k; Ok (<[k := l ++ [x]]> d).

(** The loop [for label, p, k in zip(labels, preds, group_keys)]. *)
Fixpoint group_loop (rows : list (L * P * Z))
    (group_labels : gmap Z (list L)) (group_preds : gmap Z (list P))
  : res (gmap Z (list L) * gmap Z (list P)) :=
  match rows with
  | [] => Ok (group_labels, group_preds)
  | (label, p, k) :: rows' =>
      gl ← append_at group_labels k label;
      gp ← append_at group_preds k p;
      group_loop rows' gl gp
  end.

(** The loop [for k in all_keys: all_x.append(d[k])]. *)
Definition collect {A : Type} (d : gmap Z (list A)) (all_keys : list Z)
  : res (list (list A)) :=
  mapM (getitem d) all_keys.

Definition group_labels (labels : list L) (preds : list P) (group_keys : list Z)
  : res (list Z * list (list L) * list (list P)) :=
  let all_keys := all_keys_of group_keys in
  '(gl, gp) ← group_loop (zip (zip labels preds) group_keys)
                (empty_groups all_keys) (empty_groups all_keys);
  all_labels ← collect gl all_keys;
  all_preds ← collect gp all_keys;
  Ok (all_keys, all_labels, all_preds).

(** The rows of the input that carry key [k], in encounter order. *)
Definition bucket (rows : list (L * P * Z)) (k : Z) : list (L * P * Z) :=
  filter (λ r, r.2 = k) rows.

End group_labels.

End Grouping.

(** ** Evaluation: [run_news], [run_user], [run_slow_eval], [run_fast_eval],
       [run_eval] *)

Module Eval.
Import Grouping.

(** A dense vector (one row of an encoder output). *)
Abbreviation vec := (list Q).

Definition dot (u v : vec) : Q := foldr Qplus 0%Q (zip_with Qmult u v).

(** [np.stack(rows, axis=0)]: needs at least one row, all of one shape.
    The result is kept as its list of rows. *)
Definition np_stack (rows : list vec) : res (list vec) :=
  match rows with
  | [] => Raise ValueError
  | r :: rows' =>
      if forallb (λ r', Nat.eqb (length r') (length r)) rows'
      then Ok rows else Raise ValueError
  end.

(** [np.dot(m, u)] for a matrix [m] (given by its rows, as [np_stack]
    returns it) and a vector [u]: the inner dimensions must agree. *)
Definition np_dot (m : list vec) (u : vec) : res (list Q) :=
  if forallb (λ r, Nat.eqb (length r) (length u)) m
  then Ok (map (λ r, dot r u) m) else Raise ValueError.

(** One record of [load_impression_from_file]:
    [(impr_index, news_index, user_index, label)]. *)
Definition impression : Type := Z * list Z * Z * list Q.

Section eval.
Context {NewsBatch UserBatch DataBatch : Type}.

(** [self.news(batch)]: the flattened [news_index_batch] and the rows of
    the news encoder's output; [None] when the model has no attribute
    [newsencoder]. *)
Variable news : option (NewsBatch → list Z * list vec).
(** [self.user(batch)], likewise for [userencoder]. *)
Variable user : option (UserBatch → list Z * list vec).
(** [self.eval(batch)]: flattened scorer predictions, labels and
    impression indices of one batch. *)
Variable eval : DataBatch → list Q * list Q * list Z.

(** The streams of [self.test_iterator]. *)
Variable load_news_from_file : list NewsBatch.
Variable load_user_from_file : list UserBatch.
Variable load_data_from_file : list DataBatch.
Variable load_impression_from_file : list impression.

(** The two running lists of [run_news] / [run_user] after the loop. *)
Definition extend_all {B : Type} (f : B → list Z * list vec) (stream : list B)
  : list Z * list vec :=
  foldl (λ acc b, (acc.1 ++ (f b).1, acc.2 ++ (f b).2)) ([], []) stream.

Definition run_news : res (gmap Z vec) :=
  match news with
  | None => Raise ValueError
  | Some f =>
      let '(news_indexes, news_vecs) := extend_all f load_news_from_file in
      Ok (dict_zip news_indexes news_vecs)
  end.

Definition run_user : res (gmap Z vec) :=
  match user with
  | None => Raise ValueError
  | Some f =>
      let '(user_indexes, user_vecs) := extend_all f load_user_from_file in
      Ok (dict_zip user_indexes user_vecs)
  end.

(** The three running lists [(preds, labels, imp_indexes)] of
    [run_slow_eval] after its loop. *)
Definition slow_rows : list Q * list Q * list Z :=
  foldl (λ '(preds, labels, imp_indexes) b,
           let '(step_pred, step_labels, step_imp_index) := eval b in
           (preds ++ step_pred, labels ++ step_labels,
            imp_indexes ++ step_imp_index))
        ([], [], []) load_data_from_file.

Definition run_slow_eval : res (list Z * list (list Q) * list (list Q)) :=
  let '(preds, labels, imp_indexes) := slow_rows in
  group_labels labels preds imp_indexes.

(** The prediction of one impression in [run_fast_eval]. *)
Definition fast_pred (news_vecs user_vecs : gmap Z vec)
    (impr_index : Z) (news_index : list Z) : res (list Q) :=
  rows ← mapM (getitem news_vecs) news_index;
  m ← np_stack rows;
  u ← getitem user_vecs impr_index;
  np_dot m u.

(** The loop of [run_fast_eval] over the impression stream. *)
Fixpoint fast_loop (news_vecs user_vecs : gmap Z vec) (stream : list impression)
    (group_impr_indexes : list Z) (group_labels group_preds : list (list Q))
  : res (list Z * list (list Q) * list (list Q)) :=
  match stream with
  | [] => Ok (group_impr_indexes, group_labels, group_preds)
  | (impr_index, news_index, user_index, label) :: stream' =>
      pred ← fast_pred news_vecs user_vecs impr_index news_index;
      fast_loop news_vecs user_vecs stream'
        (group_impr_indexes ++ [impr_index])
        (group_labels ++ [label])
        (group_preds ++ [pred])
  end.

Definition run_fast_eval : res (list Z * list (list Q) * list (list Q)) :=
  news_vecs ← run_news;
  user_vecs ← run_user;
  fast_loop news_vecs user_vecs load_impression_from_file [] [] [].

(** [run_eval]; [cal_metric] is the external metric engine. *)
Definition run_eval {M : Type} (support_quick_scoring : bool)
    (cal_metric : list (list Q) → list (list Q) → list string → M)
    (metrics : list string) : res M :=
  '(_, group_labels, group_preds) ←
     (if support_quick_scoring then run_fast_eval else run_slow_eval);
  Ok (cal_metric group_labels group_preds metrics).

End eval.

(** *** Notions used to state the properties of the evaluation *)

(** The (index, vector) pairs an encoder stream emits, in emission order. *)
Definition emitted {B : Type} (f : B → list Z * list vec) (stream : list B)
  : list (Z * vec) :=
  stream ≫= (λ b, zip (f b).1 (f b).2).

(** The last vector emitted together with index [i], if any. *)
Definition last_emitted (i : Z) (pairs : list (Z * vec)) : option vec :=
  last (filter (λ kv, kv.1 = i) pairs).*2.

(** Every batch carries one vector per index. *)
Definition aligned {B : Type} (f : B → list Z * list vec) (stream : list B) : Prop :=
  Forall (λ b, length (f b).1 = length (f b).2) stream.

Definition impr_index_of (r : impression) : Z := r.1.1.1.
Definition news_index_of (r : impression) : list Z := r.1.1.2.
Definition label_of (r : impression) : list Q := r.2.


(** The rows [(label, prediction, key)] of one group. *)
Definition group_rows (g : Z * list Q * list Q) : list (Q * Q * Z) :=
  zip (zip g.1.2 g.2) (replicate (length g.1.2) g.1.1).







End Eval.


(** ** Training: [fit] and [custom_fit] *)

Module Training.

(** [eval_res]: the mapping metric name -> value returned by [run_eval]. *)
Abbreviation metrics := (gmap string Q).

(** The hyperparameters read by [fit] and [custom_fit].  An optional flag
    is [None] when the attribute is absent ([hasattr] is false); the fields
    of an enabled feature are taken to be present. *)
Record HParams : Type := {
  epochs : Z;
  show_step : Z;
  learning_rate : Q;
  use_early_stopping : option bool;
  early_stopping_metric : string;
  early_stopping_patience : Z;
  early_stopping_delta : Q;
  early_stopping_start_from_epoch : Z;
  use_fine_step : option bool;
  fine_step_from_epoch : Z;
  fine_step_factor : Q;
  deactivate_eval : option bool
}.

(** [hasattr(self.hparams, name) and self.hparams.name] *)
Definition flag (o : option bool) : bool := default false o.

(** The arithmetic of the step losses.  [self.train] returns the loss of a
    step in a numeric type of its own; the epoch loops start from
    [epoch_loss = 0], add each step loss with [+=] and divide by the step
    count with [/], all in that type. *)
Class LossArith (Loss : Type) : Type := {
  loss_zero : Loss;
  loss_add : Loss → Loss → Loss;
  loss_div : Loss → Z → Loss
}.

(** Exact arithmetic. *)
#[global] Instance exact_loss : LossArith Q := {|
  loss_zero := 0%Q;
  loss_add := Qplus;
  loss_div := λ x n, (x / inject_Z n)%Q
|}.

(** [float(n)] for a step count (below 2^63). *)
Definition float_of_Z (n : Z) : float :=
  if n <? 0 then PrimFloat.opp (PrimFloat.of_uint63 (Uint63.of_Z (- n)))
  else PrimFloat.of_uint63 (Uint63.of_Z n).

(** Python floats: IEEE binary64 with rounding to nearest. *)
#[global] Instance binary64_loss : LossArith float := {|
  loss_zero := PrimFloat.zero;
  loss_add := PrimFloat.add;
  loss_div := λ x n, PrimFloat.div x (float_of_Z n)
|}.

(** What the run prints or shows. *)
Inductive event {Loss : Type} : Type :=
| Progress (step : Z) (total_loss data_loss : Loss)
    (* "step ... , total_loss: ..., data_loss: ..." *)
| EpochInfo (epoch : Z) (train_loss : Loss) (eval_res test_res : option metrics)
    (* "at epoch ...\ntrain info: ...\neval info: ...[\ntest info: ...]" *)
| EpochTime (epoch : Z)
    (* "at epoch ... , train time: ... eval time: ..." *)
| DecreasingLR
    (* "\nDecreasing learning rate for new plateau" *)
| GoingToFineTuning
    (* "Going to fine tuning after early stopping" *)
| StoppedEarly.
    (* "Stopped after early stopping callback" *)
Arguments event : clear implicits.

Definition is_fine_step {Loss : Type} (ev : event Loss) : bool :=
  match ev with
  | DecreasingLR | GoingToFineTuning => true
  | _ => false
  end.

Definition Qlt_bool (x y : Q) : bool := negb (Qle_bool y x).

(** [min(d)] of a deque: a [ValueError] on the empty one. *)
Definition py_min (d : list Q) : res Q :=
  match d with
  | [] => Raise ValueError
  | x :: d' => Ok (foldl Qmin x d')
  end.

(** [d.popleft()] followed by reading [d]: an [IndexError] on the empty one. *)
Definition popleft (d : list Q) : res (list Q) :=
  match d with
  | [] => Raise IndexError
  | _ :: d' => Ok d'
  end.

Section training.
Context {W Batch File Loss : Type} `{!LossArith Loss}.

(** [self.train(batch)] under the optimizer's current learning rate: the
    updated weights and the step loss. *)
Variable train : Q → W → Batch → W * Loss.
(** [self.run_eval(news_file, behaviors_file)] on the current weights. *)
Variable run_eval : File → W → res metrics.
(** The batches [self.train_iterator.load_data_from_file] yields in a given
    epoch. *)
Variable load_data_from_file : Z → list Batch.

Variable hparams : HParams.
Variable valid_file : File.
Variable test_file : option File.

(** The object a call is made on: the model weights, the optimizer's
    learning rate and the attribute [self.last_eval_res] (empty when the
    attribute does not exist yet). *)
Record Model : Type := {
  m_weights : W;
  m_lr : Q;
  m_last_eval_res : list Q
}.

(** The mutable state of a run: the object's fields and what the call has
    printed so far. *)
Record State : Type := {
  weights : W;
  lr : Q;
  last_eval_res : list Q;
  out : list (event Loss)
}.

(** The state on entry of a call. *)
Definition enter (m : Model) : State :=
  {| weights := m_weights m; lr := m_lr m;
     last_eval_res := m_last_eval_res m; out := [] |}.

Definition print (ev : event Loss) (s : State) : State :=
  {| weights := weights s; lr := lr s; last_eval_res := last_eval_res s;
     out := out s ++ [ev] |}.

Definition set_lr (r : Q) (s : State) : State :=
  {| weights := weights s; lr := r; last_eval_res := last_eval_res s;
     out := out s |}.

Definition set_weights (w : W) (s : State) : State :=
  {| weights := w; lr := lr s; last_eval_res := last_eval_res s;
     out := out s |}.

Definition set_last_eval_res (d : list Q) (s : State) : State :=
  {| weights := weights s; lr := lr s; last_eval_res := d; out := out s |}.

(** How one iteration of the epoch loop ends: fall through to the next
    epoch, [return self] from inside the loop, or an exception. *)
Inductive ctl : Type :=
| Next (s : State)
| Return (s : State)
| Abort (e : exn).

(** How a call ends.  Python returns [self] both at the end of the loop and
    from the early-stopping callback; the two are told apart here. *)
Inductive outcome : Type :=
| Finished (s : State)
| Stopped (s : State)
| Raised (e : exn).

(** The loop [for batch_data_input in tqdm_util] with its counters [step]
    and [epoch_loss]. *)
Fixpoint train_loop (batches : list Batch) (s : State) (step : Z)
    (epoch_loss : Loss) : res (State * Z * Loss) :=
  match batches with
  | [] => Ok (s, step, epoch_loss)
  | batch_data_input :: batches' =>
      let '(w, step_data_loss) := train (lr s) (weights s) batch_data_input in
      let s := set_weights w s in
      let epoch_loss := loss_add epoch_loss step_data_loss in
      let step := step + 1 in
      if bool_decide (show_step hparams = 0) then Raise ZeroDivisionError
      else
        let s :=
          if bool_decide (step `mod` show_step hparams = 0)
          then print (Progress step (loss_div epoch_loss step) step_data_loss) s
          else s in
        train_loop batches' s step epoch_loss
  end.

(** [epoch_loss / step] for [train_info]. *)
Definition average (epoch_loss : Loss) (step : Z) : res Loss :=
  if bool_decide (step = 0) then Raise ZeroDivisionError
  else Ok (loss_div epoch_loss step).

(** [self.run_eval(test_news_file, test_behaviors_file)] when a test file
    is given. *)
Definition eval_test (w : W) : res (option metrics) :=
  match test_file with
  | Some f => Some <$> run_eval f w
  | None => Ok None
  end.

(** One iteration of the epoch loop of [fit]. *)
Definition fit_epoch (epoch : Z) (s : State) : res State :=
  '(s, step, epoch_loss) ← train_loop (load_data_from_file epoch) s 0 loss_zero;
  train_loss ← average epoch_loss step;
  eval_res ← run_eval valid_file (weights s);
  test_res ← eval_test (weights s);
  Ok (print (EpochTime epoch)
        (print (EpochInfo epoch train_loss (Some eval_res) test_res) s)).

Fixpoint fit_loop (es : list Z) (s : State) : res State :=
  match es with
  | [] => Ok s
  | epoch :: es' => s' ← fit_epoch epoch s; fit_loop es' s'
  end.

(** [fit]: [for epoch in range(1, self.hparams.epochs + 1)]. *)
Definition fit (m : Model) : res State :=
  fit_loop (seqZ 1 (epochs hparams)) (enter m).

(** The guard
    [epoch >= start_from_epoch and eval_early_stopping < min(last_eval_res) + delta];
    [and] does not evaluate its right operand when the left one is false. *)
Definition plateau (epoch : Z) (eval_early_stopping : Q) (d : list Q) : res bool :=
  if bool_decide (early_stopping_start_from_epoch hparams ≤ epoch) then
    m ← py_min d;
    Ok (Qlt_bool eval_early_stopping (m + early_stopping_delta hparams)%Q)
  else Ok false.

(** [if len(d) >= patience: d.popleft()] then [d.append(eval_early_stopping)]. *)
Definition update_history (eval_early_stopping : Q) (d : list Q) : res (list Q) :=
  d' ← (if bool_decide (early_stopping_patience hparams ≤ Z.of_nat (length d))
        then popleft d else Ok d);
  Ok (d' ++ [eval_early_stopping]).

(** The value both fine-step triggers assign to
    [self.model.optimizer.learning_rate]. *)
Definition fine_lr : Q := (learning_rate hparams * fine_step_factor hparams)%Q.

(** The block under [# Early stopping callback].  [eval_res] is [None]
    when the local variable was never assigned ([deactivate_eval]). *)
Definition early_stopping_callback (epoch : Z) (eval_res : option metrics)
    (s : State) : ctl :=
  if flag (use_early_stopping hparams) then
    match eval_res with
    | None => Abort UnboundLocalError
    | Some r =>
        match getitem r (early_stopping_metric hparams) with
        | Raise e => Abort e
        | Ok eval_early_stopping =>
            match plateau epoch eval_early_stopping (last_eval_res s) with
            | Raise e => Abort e
            | Ok p =>
                let after_guard :=
                  if p then
                    if flag (use_fine_step hparams) then
                      if bool_decide (fine_step_from_epoch hparams ≤ epoch)
                      then Return (print StoppedEarly s)
                      else Next (set_lr fine_lr (print GoingToFineTuning s))
                    else Return (print StoppedEarly s)
                  else Next s in
                match after_guard with
                | Next s1 =>
                    match update_history eval_early_stopping (last_eval_res s1) with
                    | Raise e => Abort e
                    | Ok d => Next (set_last_eval_res d s1)
                    end
                | halted => halted
                end
            end
        end
    end
  else Next s.

(** The unconditional trigger at the top of an epoch of [custom_fit]. *)
Definition fine_step_at (epoch : Z) (s : State) : State :=
  if flag (use_fine_step hparams) && bool_decide (epoch = fine_step_from_epoch hparams)
  then set_lr fine_lr (print DecreasingLR s)
  else s.

(** [eval_res] of an epoch of [custom_fit]. *)
Definition eval_valid (w : W) : res (option metrics) :=
  if flag (deactivate_eval hparams) then Ok None
  else Some <$> run_eval valid_file w.

(** One iteration of the epoch loop of [custom_fit]. *)
Definition custom_epoch (epoch : Z) (s : State) : ctl :=
  let s := fine_step_at epoch s in
  match
    ('(s, step, epoch_loss) ← train_loop (load_data_from_file epoch) s 0 loss_zero;
     train_loss ← average epoch_loss step;
     eval_res ← eval_valid (weights s);
     test_res ← eval_test (weights s);
     Ok (eval_res,
         print (EpochTime epoch)
           (print (EpochInfo epoch train_loss eval_res test_res) s)))
  with
  | Raise e => Abort e
  | Ok (eval_res, s) => early_stopping_callback epoch eval_res s
  end.

Fixpoint custom_loop (es : list Z) (s : State) : outcome :=
  match es with
  | [] => Finished s
  | epoch :: es' =>
      match custom_epoch epoch s with
      | Next s' => custom_loop es' s'
      | Return s' => Stopped s'
      | Abort e => Raised e
      end
  end.

(** The state [custom_fit] starts its loop in: a run with early stopping
    begins with a fresh deque. *)
Definition custom_start (m : Model) : State :=
  if flag (use_early_stopping hparams)
  then set_last_eval_res [] (enter m) else enter m.

Definition custom_fit (m : Model) : outcome :=
  custom_loop (seqZ 1 (epochs hparams)) (custom_start m).

(** The states in which [custom_fit], called on [m], begins an epoch. *)
Inductive at_epoch (m : Model) : Z → State → Prop :=
| at_first : at_epoch m 1 (custom_start m)
| at_next epoch s s' :
    at_epoch m epoch s →
    epoch ≤ epochs hparams →
    custom_epoch epoch s = Next s' →
    at_epoch m (epoch + 1) s'.

(** The monitored metric values among the printed epoch summaries. *)
Definition monitored (evs : list (event Loss)) : list Q :=
  omap (λ ev, match ev with
              | EpochInfo _ _ (Some r) _ => r !! early_stopping_metric hparams
              | _ => None
              end) evs.

(** The number of fine-step triggers among the printed lines. *)
Definition fine_steps (evs : list (event Loss)) : nat :=
  length (filter (λ ev, is_fine_step ev = true) evs).

(** The weights after one training step per batch, in stream order. *)
Definition trained (r : Q) (w : W) (batches : list Batch) : W :=
  foldl (λ w b, (train r w b).1) w batches.

(** The loss of each of these steps. *)
Fixpoint step_losses (r : Q) (w : W) (batches : list Batch) : list Loss :=
  match batches with
  | [] => []
  | b :: batches' => (train r w b).2 :: step_losses r (train r w b).1 batches'
  end.

End training.

Definition is_progress {Loss : Type} (ev : event Loss) : bool :=
  match ev with Progress _ _ _ => true | _ => false end.

(** Every value exceeds its predecessor, by at least [delta]. *)
Definition gaining (delta : Q) (vs : list Q) : Prop :=
  ∀ (i : nat) (a b : Q),
    vs !! i = Some a → vs !! S i = Some b → (a < b)%Q ∧ (a + delta <= b)%Q.

End Training.

(** ** Concrete runs used to exercise the theorems *)

Module Scenario.
Import Training.

(** A model whose weights count the training steps made so far; every step
    reports loss 1. *)
Definition train_count (r : Q) (w : Z) (b : unit) : Z * Q := (w + 1, 1%Q).

(** An evaluation whose metric "auc" is 1/2 + w/10: it rises by 1/10 with
    every training step. *)
Definition eval_rising (f : unit) (w : Z) : res metrics :=
  Ok {[ "auc"%string := ((1 # 2) + inject_Z w / 10)%Q ]}.

(** One batch per epoch. *)
Definition one_batch (epoch : Z) : list unit := [()].

(** A training step that leaves the weights alone and reports the loss its
    batch carries. *)
Definition train_given (r : Q) (w : Z) (b : Q) : Z * Q := (w, b).

Definition three_batches (epoch : Z) : list Q := [9 # 10; 7 # 10; 5 # 10]%Q.

(** The same with Python floats: the literals stand for the nearest
    binary64 values, as they do in Python. *)
Definition train_given64 (r : Q) (w : Z) (b : float) : Z * float := (w, b).

Definition three_batches64 (epoch : Z) : list float :=
  [0.9%float; 0.7%float; 0.5%float].

Definition hp (n : Z) (patience : Z) (delta : Q) (start : Z)
    (fine : option bool) (fine_from : Z) : HParams :=
  {| epochs := n;
     show_step := 2;
     learning_rate := 1 # 10;
     use_early_stopping := Some true;
     early_stopping_metric := "auc";
     early_stopping_patience := patience;
     early_stopping_delta := delta;
     early_stopping_start_from_epoch := start;
     use_fine_step := fine;
     fine_step_from_epoch := fine_from;
     fine_step_factor := 1 # 2;
     deactivate_eval := None |}.

Definition fresh : @Model Z :=
  {| m_weights := 0; m_lr := 1 # 10; m_last_eval_res := [] |}.

(** A state whose deque holds the single value 0.6. *)
Definition after_one : @State Z Q :=
  {| weights := 1; lr := 1 # 10; last_eval_res := [6 # 10]%Q; out := [] |}.

End Scenario.

(** ** A small dataset for the evaluation *)

Module Scenario_eval.
Import Eval.

(** News 10 is encoded as (1, 0), every other news as (0, 1). *)
Definition news_enc (n : Z) : vec :=
  if decide (n = 10) then [1%Q; 0%Q] else [0%Q; 1%Q].

(** Impression 5 is encoded as (2, 3), every other impression as (1, 1). *)
Definition user_enc (i : Z) : vec :=
  if decide (i = 5) then [2%Q; 3%Q] else [1%Q; 1%Q].

(** One batch of the scorer on the three candidates of impressions 5
    (news 10, 11) and 2 (news 11): predictions, labels, impression
    indices. *)
Definition data_stream : list (list Q * list Q * list Z) :=
  [([dot (news_enc 10) (user_enc 5); dot (news_enc 11) (user_enc 5);
     dot (news_enc 11) (user_enc 2)],
    [1%Q; 0%Q; 1%Q], [5; 5; 2])].

End Scenario_eval.

(** ** Construction: [_get_loss] and [_get_opt] *)

Module Setup.

(** [str.lower] and [str.capitalize], on ASCII names: a byte outside
    [A-Z] / [a-z] is left as it is. *)
Definition lower_ascii (c : Ascii.ascii) : Ascii.ascii :=
  let n := Ascii.nat_of_ascii c in
  if (65 <=? n)%nat && (n <=? 90)%nat then Ascii.ascii_of_nat (n + 32) else c.

Definition upper_ascii (c : Ascii.ascii) : Ascii.ascii :=
  let n := Ascii.nat_of_ascii c in
  if (97 <=? n)%nat && (n <=? 122)%nat then Ascii.ascii_of_nat (n - 32) else c.

Fixpoint py_lower (s : string) : string :=
  match s with
  | EmptyString => EmptyString
  | String c s' => String (lower_ascii c) (py_lower s')
  end.

Definition py_capitalize (s : string) : string :=
  match s with
  | EmptyString => EmptyString
  | String c s' => String (upper_ascii c) (py_lower s')
  end.

(** [_get_loss]: the Keras loss name for [hparams.loss]. *)
Definition _get_loss (loss : string) : res string :=
  if String.eqb loss "cross_entropy_loss" then Ok "categorical_crossentropy"%string
  else if String.eqb loss "log_loss" then Ok "binary_crossentropy"%string
  else Raise ValueError.

Definition opt_dict : gmap string string :=
  {[ "rmsprop"%string := "RMSprop"%string;
     "sgd"%string := "SGD"%string;
     "adamw"%string := "AdamW"%string ]}.

(** The attribute name [_get_opt] looks up in [keras.optimizers]. *)
Definition optimizer_class_name (optimizer : string) : string :=
  let optimizer_name := py_lower optimizer in
  let optimizer_name :=
    match opt_dict !! optimizer_name with
    | Some v => v
    | None => optimizer_name
    end in
  py_capitalize optimizer_name.

Section get_opt.
Context {Opt : Type}.

(** [getattr(keras.optimizers, name)]: the optimizer class of that name,
    [None] when there is none (an [AttributeError]). *)
Variable keras_optimizers : string → option (Q → Opt).

(** [_get_opt]; [None] stands for the [AttributeError] of [getattr]. *)
Definition _get_opt (learning_rate : Q) (optimizer : string) : option Opt :=
  match keras_optimizers (optimizer_class_name optimizer) with
  | Some OptimizerClass => Some (OptimizerClass learning_rate)
  | None => None
  end.

End get_opt.

End Setup.

(** ** What a run shows, read off its printed lines *)

Module Output.
Import Training.

(** The steps at which a progress description was shown. *)
Definition progress_steps {Loss : Type} (evs : list (event Loss)) : list Z :=
  omap (λ ev, match ev with Progress step _ _ => Some step | _ => None end) evs.

(** The epochs for which a summary was printed. *)
Definition summary_epochs {Loss : Type} (evs : list (event Loss)) : list Z :=
  omap (λ ev, match ev with EpochInfo epoch _ _ _ => Some epoch | _ => None end) evs.

(** The number of times the unconditional fine step announced itself. *)
Definition is_decreasing {Loss : Type} (ev : event Loss) : bool :=
  match ev with DecreasingLR => true | _ => false end.

Definition decreasing_count {Loss : Type} (evs : list (event Loss)) : nat :=
  length (filter (λ ev, is_decreasing ev = true) evs).

(** The result of [fit] read as an outcome of [custom_fit]. *)
Definition as_outcome {W Loss : Type} (r : res (@State W Loss)) : @outcome W Loss :=
  match r with
  | Ok s => Finished s
  | Raise e => Raised e
  end.

End Output.

(** ** Further concrete runs *)

Module Scenario2.
Import Training.

(** Hyperparameters with early stopping and fine-stepping absent. *)
Definition hp_plain (n : Z) : HParams :=
  {| epochs := n;
     show_step := 2;
     learning_rate := 1 # 10;
     use_early_stopping := None;
     early_stopping_metric := "auc";
     early_stopping_patience := 1;
     early_stopping_delta := 0;
     early_stopping_start_from_epoch := 1;
     use_fine_step := None;
     fine_step_from_epoch := 0;
     fine_step_factor := 1 # 2;
     deactivate_eval := None |}.

(** Early stopping on, validation switched off. *)
Definition hp_no_eval : HParams :=
  {| epochs := 3;
     show_step := 2;
     learning_rate := 1 # 10;
     use_early_stopping := Some true;
     early_stopping_metric := "auc";
     early_stopping_patience := 1;
     early_stopping_delta := 0;
     early_stopping_start_from_epoch := 2;
     use_fine_step := None;
     fine_step_from_epoch := 0;
     fine_step_factor := 1 # 2;
     deactivate_eval := Some true |}.

(** An evaluation that reports "acc" only. *)
Definition eval_acc (f : unit) (w : Z) : res metrics :=
  Ok {[ "acc"%string := (1 # 2)%Q ]}.

(** A training stream without batches. *)
Definition no_batch (epoch : Z) : list unit := [].

End Scenario2.

(** * Theorems *)

(** ** Facts about the error monad *)

Lemma mapM_res_Ok {A B : Type} (f : A → res B) (g : A → B) (l : list A) :
  (∀ x, x ∈ l → f x = Ok (g x)) → mapM f l = Ok (g <$> l).
Proof.
  induction l as [|x l IH]; intros Hf; [done|].
  cbn. rewrite (Hf x) by left. cbn.
  rewrite IH by (intros y Hy; apply Hf; by right). done.
Qed.

Lemma mapM_res_inv {A B : Type} (f : A → res B) (l : list A) (k : list B) :
  mapM f l = Ok k → Forall2 (λ x y, f x = Ok y) l k.
Proof.
  revert k. induction l as [|x l IH]; intros k Hk; cbn in Hk.
  - injection Hk as <-. constructor.
  - destruct (f x) as [y|e] eqn:Hx; cbn in Hk; [|done].
    destruct (mapM f l) as [k'|e] eqn:Hl; cbn in Hk; [|done].
    injection Hk as <-. constructor; auto.
Qed.

(** ** Grouping *)

Module GroupingFacts.
Import Grouping.

Lemma sorted_le_NoDup_lt (l : list Z) :
  StronglySorted Z.le l → NoDup l → StronglySorted Z.lt l.
Proof.
  induction 1 as [|x l Hl IH Hx]; intros Hnd; [constructor|].
  apply NoDup_cons in Hnd as [Hnx Hnd].
  constructor; [auto|].
  rewrite Forall_forall in Hx |- *. intros y Hy.
  assert (x ≠ y) by (intros ->; done).
  specialize (Hx y Hy). lia.
Qed.

Lemma all_keys_elem (ks : list Z) (k : Z) : k ∈ all_keys_of ks ↔ k ∈ ks.
Proof.
  unfold all_keys_of.
  rewrite merge_sort_Permutation, elem_of_elements, elem_of_list_to_set. done.
Qed.

Lemma all_keys_NoDup (ks : list Z) : NoDup (all_keys_of ks).
Proof.
  unfold all_keys_of. rewrite merge_sort_Permutation. apply NoDup_elements.
Qed.

Lemma all_keys_sorted (ks : list Z) : StronglySorted Z.lt (all_keys_of ks).
Proof.
  apply sorted_le_NoDup_lt; [|apply all_keys_NoDup].
  unfold all_keys_of. apply StronglySorted_merge_sort; apply _.
Qed.

Lemma empty_groups_lookup {A : Type} (ks : list Z) (k : Z) :
  empty_groups (A:=A) ks !! k = if decide (k ∈ ks) then Some [] else None.
Proof.
  unfold empty_groups.
  assert (∀ d : gmap Z (list A),
    foldl (λ d k, <[k := []]> d) d ks !! k
    = if decide (k ∈ ks) then Some [] else d !! k) as Hgen.
  { induction ks as [|k0 ks IH]; intros d; cbn.
    - rewrite decide_False by set_solver. done.
    - rewrite IH. destruct (decide (k ∈ ks)) as [Hin|Hnin].
      + rewrite decide_True by set_solver. done.
      + destruct (decide (k = k0)) as [->|Hne].
        * rewrite decide_True by set_solver. by rewrite lookup_insert_eq.
        * rewrite decide_False by set_solver. by rewrite lookup_insert_ne. }
  rewrite Hgen. by destruct (decide (k ∈ ks)).
Qed.

Section facts.
Context {L P : Type}.
Implicit Types (rows : list (L * P * Z)) (k : Z).

Lemma bucket_cons rows (r : L * P * Z) k :
  bucket (r :: rows) k = if decide (r.2 = k) then r :: bucket rows k else bucket rows k.
Proof. unfold bucket. rewrite filter_cons. by destruct (decide (r.2 = k)). Qed.

Lemma group_loop_spec rows :
  ∀ (gl : gmap Z (list L)) (gp : gmap Z (list P)),
  (∀ r, r ∈ rows → is_Some (gl !! r.2) ∧ is_Some (gp !! r.2)) →
  ∃ gl' gp', group_loop rows gl gp = Ok (gl', gp') ∧
    ∀ k, gl' !! k = (λ l, l ++ (bucket rows k).*1.*1) <$> gl !! k ∧
         gp' !! k = (λ l, l ++ (bucket rows k).*1.*2) <$> gp !! k.
Proof.
  induction rows as [|[[label p] k0] rows IH]; intros gl gp Hdom.
  - exists gl, gp. split; [done|]. intros k. cbn.
    split; [destruct (gl !! k)|destruct (gp !! k)]; cbn; by rewrite ?app_nil_r.
  - destruct (Hdom (label, p, k0)) as [[l Hl] [q Hq]]; [left|]. cbn in Hl, Hq.
    destruct (IH (<[k0 := l ++ [label]]> gl) (<[k0 := q ++ [p]]> gp))
      as (gl' & gp' & Hrun & Hlook).
    { intros r Hr. destruct (Hdom r) as [H1 H2]; [by right|].
      rewrite !lookup_insert_is_Some. destruct (decide (k0 = r.2)); auto. }
    exists gl', gp'. split.
    { cbn. unfold append_at, getitem. rewrite Hl, Hq. cbn. exact Hrun. }
    intros k. destruct (Hlook k) as [-> ->].
    rewrite bucket_cons. cbn.
    destruct (decide (k0 = k)) as [->|Hne].
    + rewrite !lookup_insert_eq, Hl, Hq. cbn. by rewrite <- !app_assoc.
    + by rewrite !lookup_insert_ne.
Qed.

Lemma bucket_partition rows (ks : list Z) :
  NoDup ks → ks ≫= bucket rows ≡ₚ filter (λ r, r.2 ∈ ks) rows.
Proof.
  induction 1 as [|k ks Hk Hnd IH].
  - cbn. induction rows as [|r rows IHr]; [done|].
    rewrite filter_cons_False by set_solver. done.
  - rewrite bind_cons, IH. clear IH. unfold bucket.
    induction rows as [|r rows IHr]; [done|].
    rewrite !filter_cons.
    destruct (decide (r.2 = k)) as [Heq|Hne].
    + rewrite decide_False by (rewrite Heq; done).
      rewrite decide_True by (rewrite Heq; left). cbn. by rewrite IHr.
    + destruct (decide (r.2 ∈ ks)) as [Hin|Hnin].
      * rewrite decide_True by (by right).
        rewrite <- Permutation_middle. by rewrite IHr.
      * rewrite decide_False by set_solver. done.
Qed.

Lemma bucket_cover rows (ks : list Z) :
  NoDup ks → (∀ r, r ∈ rows → r.2 ∈ ks) → ks ≫= bucket rows ≡ₚ rows.
Proof.
  intros Hnd Hin. rewrite bucket_partition by done.
  induction rows as [|r rows IH]; [done|].
  rewrite filter_cons_True by (apply Hin; left).
  rewrite IH; [done|]. intros r' Hr'. apply Hin. by right.
Qed.

Lemma group_labels_Ok (labels : list L) (preds : list P) (group_keys : list Z) :
  let rows := zip (zip labels preds) group_keys in
  group_labels labels preds group_keys
  = Ok (all_keys_of group_keys,
        (λ k, (bucket rows k).*1.*1) <$> all_keys_of group_keys,
        (λ k, (bucket rows k).*1.*2) <$> all_keys_of group_keys).
Proof.
  intros rows.
  assert (∀ r, r ∈ rows → r.2 ∈ all_keys_of group_keys) as Hin.
  { intros [r1 r2] Hr. apply all_keys_elem. by eapply elem_of_zip_r. }
  destruct (group_loop_spec rows (empty_groups (all_keys_of group_keys))
              (empty_groups (all_keys_of group_keys))) as (gl & gp & Hrun & Hlook).
  { intros r Hr. rewrite !empty_groups_lookup.
    rewrite !decide_True by auto. split; eauto. }
  unfold group_labels. fold rows. rewrite Hrun. cbn. unfold collect.
  rewrite (mapM_res_Ok _ (λ k, (bucket rows k).*1.*1)). 2:{
    intros k Hk. unfold getitem. destruct (Hlook k) as [-> _].
    rewrite empty_groups_lookup, decide_True by done. done. }
  cbn.
  rewrite (mapM_res_Ok _ (λ k, (bucket rows k).*1.*2)). 2:{
    intros k Hk. unfold getitem. destruct (Hlook k) as [_ ->].
    rewrite empty_groups_lookup, decide_True by done. done. }
  done.
Qed.

Lemma fmap_bind_join {A B : Type} (f : Z → list A) (g : A → B) (ks : list Z) :
  g <$> (ks ≫= f) = mjoin ((λ k, g <$> f k) <$> ks).
Proof.
  induction ks as [|k ks IH]; [done|].
  rewrite bind_cons, fmap_app, IH. done.
Qed.

(** C2.  For parallel lists of equal length, [group_labels] returns
    (1) the distinct input keys in strictly ascending order, each once;
    (2) for each key the labels and predictions of the rows carrying that
    key, in encounter order; (3) buckets whose lengths add up to the input
    length and whose concatenation in key order is a permutation of the
    input. *)
Theorem group_labels_spec (labels : list L) (preds : list P) (group_keys : list Z) :
  length labels = length group_keys →
  length preds = length group_keys →
  let rows := zip (zip labels preds) group_keys in
  ∃ all_keys all_labels all_preds,
    group_labels labels preds group_keys = Ok (all_keys, all_labels, all_preds) ∧
    (StronglySorted Z.lt all_keys ∧ NoDup all_keys ∧
     ∀ k, k ∈ all_keys ↔ k ∈ group_keys) ∧
    (all_labels = (λ k, (bucket rows k).*1.*1) <$> all_keys ∧
     all_preds = (λ k, (bucket rows k).*1.*2) <$> all_keys) ∧
    (sum_list (length <$> all_labels) = length labels ∧
     sum_list (length <$> all_preds) = length preds ∧
     all_keys ≫= bucket rows ≡ₚ rows ∧
     mjoin all_labels ≡ₚ labels ∧
     mjoin all_preds ≡ₚ preds).
Proof.
  intros Hl Hp rows.
  assert (rows.*2 = group_keys) as Hkeys.
  { unfold rows. apply snd_zip. rewrite length_zip_with. lia. }
  assert (rows.*1.*1 = labels) as Hlabels.
  { unfold rows. rewrite fst_zip by (rewrite length_zip_with; lia).
    apply fst_zip. lia. }
  assert (rows.*1.*2 = preds) as Hpreds.
  { unfold rows. rewrite fst_zip by (rewrite length_zip_with; lia).
    apply snd_zip. lia. }
  assert (∀ r, r ∈ rows → r.2 ∈ all_keys_of group_keys) as Hin.
  { intros r Hr. apply all_keys_elem. rewrite <- Hkeys.
    apply list_elem_of_fmap. eauto. }
  pose proof (bucket_cover rows _ (all_keys_NoDup group_keys) Hin) as Hperm.
  assert (mjoin ((λ k, (bucket rows k).*1.*1) <$> all_keys_of group_keys)
            ≡ₚ labels) as Hpl.
  { trans ((all_keys_of group_keys ≫= bucket rows).*1.*1);
      [|by rewrite Hperm, Hlabels].
    rewrite <- list_fmap_compose, fmap_bind_join.
    apply reflexive_eq. f_equal. apply list_fmap_ext. intros _ k _.
    by rewrite list_fmap_compose. }
  assert (mjoin ((λ k, (bucket rows k).*1.*2) <$> all_keys_of group_keys)
            ≡ₚ preds) as Hpp.
  { trans ((all_keys_of group_keys ≫= bucket rows).*1.*2);
      [|by rewrite Hperm, Hpreds].
    rewrite <- list_fmap_compose, fmap_bind_join.
    apply reflexive_eq. f_equal. apply list_fmap_ext. intros _ k _.
    by rewrite list_fmap_compose. }
  exists (all_keys_of group_keys),
    ((λ k, (bucket rows k).*1.*1) <$> all_keys_of group_keys),
    ((λ k, (bucket rows k).*1.*2) <$> all_keys_of group_keys).
  split; [|split; [|split]].
  - apply group_labels_Ok.
  - split; [apply all_keys_sorted|]. split; [apply all_keys_NoDup|].
    apply all_keys_elem.
  - done.
  - rewrite <- !length_join. rewrite Hpl, Hpp. done.
Qed.

End facts.

(** Three rows over two impressions. *)
Lemma group_labels_spec_witness :
  length [1; 0; 1] = length [7; 3; 7] ∧
  ∃ ks ls ps,
    group_labels [1; 0; 1] [10; 20; 30] [7; 3; 7] = Ok (ks, ls, ps) ∧
    StronglySorted Z.lt ks.
Proof.
  split; [reflexivity|].
  destruct (group_labels_spec [1; 0; 1] [10; 20; 30] [7; 3; 7] eq_refl eq_refl)
    as (ks & ls & ps & Hrun & (Hsorted & _) & _).
  eauto.
Defined.

Example group_labels_run :
  group_labels [1; 0; 1] [10; 20; 30] [7; 3; 7]
  = Ok ([3; 7], [[0]; [1; 1]], [[20]; [10; 30]]).
Proof. vm_compute. reflexivity. Qed.

End GroupingFacts.

(** ** Evaluation *)

Module EvalFacts.
Import Grouping Eval GroupingFacts.

(** *** The vector caches *)

Lemma extend_all_snoc {B : Type} (f : B → list Z * list vec) (stream : list B) (b : B) :
  extend_all f (stream ++ [b])
  = ((extend_all f stream).1 ++ (f b).1, (extend_all f stream).2 ++ (f b).2).
Proof. unfold extend_all. by rewrite foldl_app. Qed.

Lemma extend_all_zip {B : Type} (f : B → list Z * list vec) (stream : list B) :
  aligned f stream →
  length (extend_all f stream).1 = length (extend_all f stream).2 ∧
  zip (extend_all f stream).1 (extend_all f stream).2 = emitted f stream.
Proof.
  induction stream as [|b stream IH] using rev_ind; intros Hal; [done|].
  apply Forall_app in Hal as [Hal Hb]. apply Forall_inv in Hb.
  destruct (IH Hal) as [Hlen Hzip].
  rewrite extend_all_snoc. cbn. split.
  - rewrite !length_app. lia.
  - rewrite zip_with_app by done. rewrite Hzip.
    unfold emitted. rewrite bind_app. cbn. by rewrite app_nil_r.
Qed.

Lemma dict_fold_lookup (pairs : list (Z * vec)) (d : gmap Z vec) (i : Z) :
  foldl (λ d kv, <[kv.1 := kv.2]> d) d pairs !! i
  = match last_emitted i pairs with Some v => Some v | None => d !! i end.
Proof.
  revert d. induction pairs as [|[k v] pairs IH]; intros d; [done|].
  cbn [foldl]. rewrite IH. unfold last_emitted.
  rewrite filter_cons. cbn [fst snd].
  destruct (decide (k = i)) as [->|Hne].
  - rewrite fmap_cons, last_cons. cbn [snd].
    destruct (last (filter _ pairs).*2); [done|]. by rewrite lookup_insert_eq.
  - destruct (last (filter _ pairs).*2); [done|]. by rewrite lookup_insert_ne.
Qed.

Lemma dict_zip_lookup (ks : list Z) (vs : list vec) (i : Z) :
  dict_zip ks vs !! i = last_emitted i (zip ks vs).
Proof.
  unfold dict_zip. rewrite dict_fold_lookup, lookup_empty.
  by destruct (last_emitted i (zip ks vs)).
Qed.

Lemma cache_lookup {B : Type} (f : B → list Z * list vec) (stream : list B) (i : Z) :
  aligned f stream →
  dict_zip (extend_all f stream).1 (extend_all f stream).2 !! i
  = last_emitted i (emitted f stream).
Proof.
  intros Hal. rewrite dict_zip_lookup.
  by destruct (extend_all_zip f stream Hal) as [_ ->].
Qed.

Lemma last_emitted_Some (i : Z) (v : vec) (pairs : list (Z * vec)) :
  last_emitted i pairs = Some v → (i, v) ∈ pairs.
Proof.
  unfold last_emitted. rewrite fmap_last.
  destruct (last (filter _ pairs)) as [[k w]|] eqn:Hlast; [|done].
  intros [= <-]. apply last_Some_elem_of in Hlast.
  apply list_elem_of_filter in Hlast as [Hk Hin]. cbn in Hk. by subst.
Qed.

Lemma last_emitted_is_Some (i : Z) (pairs : list (Z * vec)) :
  is_Some (last_emitted i pairs) ↔ i ∈ pairs.*1.
Proof.
  split.
  - intros [v Hv%last_emitted_Some].
    by apply (list_elem_of_fmap_2 fst) in Hv.
  - intros ([k v] & -> & Hin)%list_elem_of_fmap. cbn [fst].
    unfold last_emitted. rewrite fmap_last.
    destruct (last (filter _ pairs)) as [kv|] eqn:Hlast; [by eexists|].
    apply last_None in Hlast.
    assert ((k, v) ∈ filter (λ kv : Z * vec, kv.1 = k) pairs) as Hf
      by (by apply list_elem_of_filter).
    rewrite Hlast in Hf. by apply elem_of_nil in Hf.
Qed.

(** C8, as the code behaves.  When every batch carries one vector per
    index, the cache built by [run_news] (resp. [run_user]) maps each index
    to the last vector the stream emitted for it: the last insertion wins. *)
Theorem cache_last_wins {NB UB : Type}
    (fn : NB → list Z * list vec) (fu : UB → list Z * list vec)
    (news_stream : list NB) (user_stream : list UB) :
  (aligned fn news_stream →
   ∃ d, run_news (Some fn) news_stream = Ok d ∧
        ∀ i, d !! i = last_emitted i (emitted fn news_stream)) ∧
  (aligned fu user_stream →
   ∃ d, run_user (Some fu) user_stream = Ok d ∧
        ∀ i, d !! i = last_emitted i (emitted fu user_stream)).
Proof.
  split; intros Hal; unfold run_news, run_user.
  - destruct (extend_all fn news_stream) as [ks vs] eqn:Hext.
    eexists. split; [done|]. intros i.
    pose proof (cache_lookup fn news_stream i Hal) as Hc.
    by rewrite Hext in Hc.
  - destruct (extend_all fu user_stream) as [ks vs] eqn:Hext.
    eexists. split; [done|]. intros i.
    pose proof (cache_lookup fu user_stream i Hal) as Hc.
    by rewrite Hext in Hc.
Qed.

(** Index 1 is emitted twice, by two batches, with different vectors. *)
Lemma cache_last_wins_witness :
  aligned id [([1], [[1%Q]]); ([1], [[2%Q]])] ∧
  ∃ d, run_news (Some id) [([1], [[1%Q]]); ([1], [[2%Q]])] = Ok d ∧
       d !! 1 = Some [2%Q].
Proof.
  assert (aligned id [([1], [[1%Q]]); ([1], [[2%Q]])]) as Hal.
  { repeat constructor. }
  split; [exact Hal|].
  destruct (cache_last_wins id (@id (list Z * list vec)%type)
              [([1], [[1%Q]]); ([1], [[2%Q]])] []) as [Hn _].
  destruct (Hn Hal) as (d & Hrun & Hd).
  exists d. split; [exact Hrun|]. rewrite Hd. reflexivity.
Defined.

(** C8, as stated, does not hold: no stream with one vector per index makes
    [run_news] or [run_user] associate an index with a vector other than
    the last one emitted for it. *)
Lemma cache_never_keeps_earlier_vector :
  ¬ ∃ (stream : list (list Z * list vec)) (i : Z) (v : vec) (d : gmap Z vec),
      aligned id stream ∧
      last_emitted i (emitted id stream) = Some v ∧
      (run_news (Some id) stream = Ok d ∨ run_user (Some id) stream = Ok d) ∧
      d !! i ≠ Some v.
Proof.
  intros (stream & i & v & d & Hal & Hlast & Hrun & Hne).
  apply Hne. rewrite <- Hlast.
  pose proof (cache_lookup id stream i Hal) as Hc.
  unfold run_news, run_user in Hrun.
  destruct (extend_all id stream) as [ks vs].
  destruct Hrun as [Hrun|Hrun]; injection Hrun as <-; exact Hc.
Qed.

(** *** Fast evaluation *)

Lemma mapM_res_Forall2 {A B : Type} (f : A → res B) (l : list A) (k : list B) :
  Forall2 (λ x y, f x = Ok y) l k → mapM f l = Ok k.
Proof.
  induction 1 as [|x y l k Hx _ IH]; [done|].
  cbn. rewrite Hx. cbn. rewrite IH. done.
Qed.

Lemma getitem_Ok (d : gmap Z vec) (k : Z) (v : vec) :
  getitem d k = Ok v ↔ d !! k = Some v.
Proof. unfold getitem. destruct (d !! k); split; congruence. Qed.

Lemma np_stack_Ok (rows m : list vec) :
  np_stack rows = Ok m ↔
  m = rows ∧ rows ≠ [] ∧
  ∀ r r', head rows = Some r → r' ∈ rows → length r' = length r.
Proof.
  unfold np_stack. destruct rows as [|r rows]; [naive_solver|].
  destruct (forallb _ rows) eqn:Hall.
  - rewrite forallb_forall in Hall. setoid_rewrite Nat.eqb_eq in Hall.
    split; [|naive_solver]. intros [= <-]. split_and!; [done..|].
    intros r0 r' [= <-] [->|Hin]%elem_of_cons; [done|].
    apply Hall. by apply list_elem_of_In.
  - split; [done|]. intros (_ & _ & Hlen).
    apply not_true_iff_false in Hall. destruct Hall.
    apply forallb_forall. intros r' Hin. apply Nat.eqb_eq.
    apply (Hlen r r'); [done|]. right. by apply list_elem_of_In.
Qed.

Lemma np_dot_Ok (m : list vec) (u : vec) (p : list Q) :
  np_dot m u = Ok p ↔
  Forall (λ r, length r = length u) m ∧ p = (λ r, dot r u) <$> m.
Proof.
  unfold np_dot. destruct (forallb _ m) eqn:Hall.
  - rewrite forallb_forall in Hall. setoid_rewrite Nat.eqb_eq in Hall.
    split; [|naive_solver]. intros [= <-]. split; [|done].
    apply Forall_forall. intros r Hr. apply Hall. by apply list_elem_of_In.
  - split; [done|]. intros [Hlen _].
    apply not_true_iff_false in Hall. destruct Hall.
    apply forallb_forall. intros r Hin. apply Nat.eqb_eq.
    rewrite Forall_forall in Hlen. apply Hlen. by apply list_elem_of_In.
Qed.

Lemma fast_pred_Ok (news_vecs user_vecs : gmap Z vec) (impr_index : Z)
    (news_index : list Z) (pred : list Q) :
  fast_pred news_vecs user_vecs impr_index news_index = Ok pred ↔
  ∃ rows u,
    Forall2 (λ i row, news_vecs !! i = Some row) news_index rows ∧
    rows ≠ [] ∧
    user_vecs !! impr_index = Some u ∧
    Forall (λ row, length row = length u) rows ∧
    pred = (λ row, dot row u) <$> rows.
Proof.
  unfold fast_pred. split.
  - destruct (mapM _ news_index) as [rows|] eqn:Hrows; [|done]. cbn.
    apply mapM_res_inv in Hrows.
    destruct (np_stack rows) as [m|] eqn:Hm; [|done]. cbn.
    apply np_stack_Ok in Hm as (-> & Hne & _).
    destruct (getitem user_vecs impr_index) as [u|] eqn:Hu; [|done]. cbn.
    apply getitem_Ok in Hu. intros (Hlen & ->)%np_dot_Ok.
    exists rows, u. split_and!; [|done..].
    eapply Forall2_impl; [exact Hrows|]. intros i row. apply getitem_Ok.
  - intros (rows & u & Hrows & Hne & Hu & Hlen & ->).
    rewrite (mapM_res_Forall2 _ _ rows). 2:{
      eapply Forall2_impl; [exact Hrows|]. intros i row. apply getitem_Ok. }
    cbn. assert (np_stack rows = Ok rows) as ->.
    { apply np_stack_Ok. split_and!; [done..|].
      intros r r' Hhd Hin. rewrite Forall_forall in Hlen.
      rewrite (Hlen r') by done. symmetry. apply Hlen.
      destruct rows; [done|]. injection Hhd as ->. left. }
    cbn. apply getitem_Ok in Hu as ->. cbn. by apply np_dot_Ok.
Qed.

Lemma fast_loop_Ok (news_vecs user_vecs : gmap Z vec) (stream : list impression) :
  ∀ ks0 ls0 ps0 r,
  fast_loop news_vecs user_vecs stream ks0 ls0 ps0 = Ok r ↔
  ∃ preds,
    Forall2 (λ rec p, fast_pred news_vecs user_vecs
                        (impr_index_of rec) (news_index_of rec) = Ok p)
            stream preds ∧
    r = (ks0 ++ (impr_index_of <$> stream), ls0 ++ (label_of <$> stream),
         ps0 ++ preds).
Proof.
  induction stream as [|[[[impr_index news_index] user_index] label] stream IH];
    intros ks0 ls0 ps0 r; cbn [fast_loop].
  - split.
    + intros [= <-]. exists []. split; [constructor|]. cbn. by rewrite !app_nil_r.
    + intros (preds & ->%Forall2_nil_inv_l & ->). cbn. by rewrite !app_nil_r.
  - destruct (fast_pred _ _ impr_index news_index) as [pred|e] eqn:Hpred; cbn.
    + rewrite IH. split.
      * intros (preds & Hall & ->). exists (pred :: preds).
        split; [by constructor|]. cbn. by rewrite <- !app_assoc.
      * intros (preds & Hall & ->).
        apply Forall2_cons_inv_l in Hall as (p & preds' & Hp & Hall & ->).
        unfold impr_index_of, news_index_of in Hp. cbn [fst snd] in Hp.
        rewrite Hpred in Hp. injection Hp as <-.
        exists preds'. split; [done|]. cbn. by rewrite <- !app_assoc.
    + split; [done|]. intros (preds & Hall & _).
      apply Forall2_cons_inv_l in Hall as (p & preds' & Hp & _).
      unfold impr_index_of, news_index_of in Hp. cbn [fst snd] in Hp.
      congruence.
Qed.

Lemma run_fast_eval_Ok {NB UB : Type}
    (news : option (NB → list Z * list vec)) (user : option (UB → list Z * list vec))
    (news_stream : list NB) (user_stream : list UB) (stream : list impression)
    (r : list Z * list (list Q) * list (list Q)) :
  run_fast_eval news user news_stream user_stream stream = Ok r ↔
  ∃ news_vecs user_vecs preds,
    run_news news news_stream = Ok news_vecs ∧
    run_user user user_stream = Ok user_vecs ∧
    Forall2 (λ rec p, fast_pred news_vecs user_vecs
                        (impr_index_of rec) (news_index_of rec) = Ok p)
            stream preds ∧
    r = (impr_index_of <$> stream, label_of <$> stream, preds).
Proof.
  unfold run_fast_eval.
  destruct (run_news news news_stream) as [nv|] eqn:Hn; cbn; [|naive_solver].
  destruct (run_user user user_stream) as [uv|] eqn:Hu; cbn; [|naive_solver].
  rewrite fast_loop_Ok. cbn. naive_solver.
Qed.

(** C3.  In [run_fast_eval] the prediction of a record is the dot product of
    each cached candidate news vector with the cached user vector of the
    impression, and the result holds exactly one entry per record of the
    impression stream, in stream order, with the record's impression index
    and label; the scenario of the specification yields prediction [2, 3]
    and label [1, 0] for its single group. *)
Theorem run_fast_eval_spec {NB UB : Type}
    (news : option (NB → list Z * list vec)) (user : option (UB → list Z * list vec))
    (news_stream : list NB) (user_stream : list UB) (stream : list impression) :
  (∀ news_vecs user_vecs impr_index news_index pred,
     fast_pred news_vecs user_vecs impr_index news_index = Ok pred ↔
     ∃ rows u,
       Forall2 (λ i row, news_vecs !! i = Some row) news_index rows ∧
       rows ≠ [] ∧
       user_vecs !! impr_index = Some u ∧
       Forall (λ row, length row = length u) rows ∧
       pred = (λ row, dot row u) <$> rows) ∧
  (∀ r,
     run_fast_eval news user news_stream user_stream stream = Ok r ↔
     ∃ news_vecs user_vecs preds,
       run_news news news_stream = Ok news_vecs ∧
       run_user user user_stream = Ok user_vecs ∧
       Forall2 (λ rec p, fast_pred news_vecs user_vecs
                           (impr_index_of rec) (news_index_of rec) = Ok p)
               stream preds ∧
       r = (impr_index_of <$> stream, label_of <$> stream, preds)) ∧
  fast_loop {[10 := [1%Q; 0%Q]; 11 := [0%Q; 1%Q]]} {[0 := [2%Q; 3%Q]]}
    [(0, [10; 11], 0, [1%Q; 0%Q])] [] [] []
  = Ok ([0], [[1%Q; 0%Q]], [[2%Q; 3%Q]]) ∧
  run_fast_eval (Some id) (Some id)
    [([10; 11], [[1%Q; 0%Q]; [0%Q; 1%Q]])] [([0], [[2%Q; 3%Q]])]
    [(0, [10; 11], 0, [1%Q; 0%Q])]
  = Ok ([0], [[1%Q; 0%Q]], [[2%Q; 3%Q]]).
Proof.
  split_and!.
  - apply fast_pred_Ok.
  - apply run_fast_eval_Ok.
  - vm_compute. reflexivity.
  - vm_compute. reflexivity.
Qed.

(** *** Fast against slow evaluation *)

Lemma group_rows_key (g : Z * list Q * list Q) (r : Q * Q * Z) :
  r ∈ group_rows g → r.2 = g.1.1.
Proof.
  destruct r as [r1 k]. intros Hr%elem_of_zip_r.
  by apply elem_of_replicate in Hr as [-> _].
Qed.

Lemma bucket_group_rows (g : Z * list Q * list Q) (k : Z) :
  bucket (group_rows g) k = if decide (g.1.1 = k) then group_rows g else [].
Proof.
  unfold bucket.
  pose proof (group_rows_key g) as Hkey. revert Hkey.
  generalize (group_rows g) as rows.
  induction rows as [|r rows IH]; intros Hkey; [by destruct (decide _)|].
  rewrite filter_cons, (Hkey r) by left.
  rewrite IH by (intros r' Hr'; apply Hkey; by right).
  by destruct (decide (g.1.1 = k)).
Qed.

Lemma bucket_of_group (gs : list (Z * list Q * list Q)) (g : Z * list Q * list Q) :
  NoDup gs.*1.*1 → g ∈ gs → bucket (gs ≫= group_rows) g.1.1 = group_rows g.
Proof.
  induction gs as [|g0 gs IH]; intros Hnd Hin; [by apply elem_of_nil in Hin|].
  rewrite !fmap_cons in Hnd. apply NoDup_cons in Hnd as [Hfresh Hnd].
  rewrite bind_cons. unfold bucket in *. rewrite filter_app.
  fold (bucket (group_rows g0) g.1.1). rewrite bucket_group_rows.
  apply elem_of_cons in Hin as [->|Hin].
  - rewrite decide_True by done.
    assert (filter (λ r, r.2 = g0.1.1) (gs ≫= group_rows) = []) as ->;
      [|by rewrite app_nil_r].
    clear IH Hnd. induction gs as [|g1 gs IH]; [done|].
    rewrite bind_cons, filter_app.
    fold (bucket (group_rows g1) g0.1.1). rewrite bucket_group_rows.
    rewrite decide_False by (intros Heq; apply Hfresh; rewrite <- Heq; left).
    apply IH. intros Hin. apply Hfresh. by right.
  - rewrite decide_False.
    + by apply IH.
    + intros Heq. apply Hfresh. rewrite Heq.
      apply list_elem_of_fmap_2, list_elem_of_fmap_2, Hin.
Qed.

Lemma rows_flatten (ks : list Z) (ls ps : list (list Q)) :
  length ks = length ls →
  Forall2 (λ l p, length l = length p) ls ps →
  zip (zip (mjoin ls) (mjoin ps))
      (mjoin (zip_with (λ k l, replicate (length l) k) ks ls))
  = zip (zip ks ls) ps ≫= group_rows.
Proof.
  intros Hlen Hall. revert ks Hlen.
  induction Hall as [|l p ls ps Hlp _ IH]; intros [|k ks] Hlen; try done.
  cbn in Hlen. cbn [zip_with mjoin list_join]. rewrite bind_cons.
  rewrite <- IH by lia. unfold group_rows at 1. cbn [fst snd].
  rewrite (zip_with_app pair l _ p) by done.
  rewrite zip_with_app; [done|].
  rewrite length_zip_with, length_replicate. lia.
Qed.

Lemma keys_flatten (ks : list Z) (ls : list (list Q)) (k : Z) :
  length ks = length ls →
  Forall (λ l, l ≠ []) ls →
  k ∈ mjoin (zip_with (λ k l, replicate (length l) k) ks ls) ↔ k ∈ ks.
Proof.
  intros Hlen Hall. revert ks Hlen.
  induction Hall as [|l ls Hl _ IH]; intros [|k0 ks] Hlen; try done.
  cbn [zip_with mjoin list_join]. rewrite elem_of_app, IH by (cbn in Hlen; lia).
  rewrite elem_of_replicate, elem_of_cons.
  destruct l; [done|]. cbn. naive_solver lia.
Qed.

Lemma group_rows_labels (g : Z * list Q * list Q) :
  length g.1.2 = length g.2 →
  (λ r, (g.1.1, r.*1.*1, r.*1.*2)) (group_rows g) = g.
Proof.
  intros Hlen. destruct g as [[k l] p]. cbn in *. unfold group_rows. cbn.
  rewrite !fst_zip, snd_zip; try done; try lia.
  all: rewrite ?length_zip_with, ?length_replicate; lia.
Qed.


Lemma zip3_lengths {A B C : Type} (xs : list A) (ys : list B) (zs : list C) :
  length xs = length ys → length ys = length zs →
  (zip (zip xs ys) zs).*1.*1 = xs ∧
  (zip (zip xs ys) zs).*1.*2 = ys ∧
  (zip (zip xs ys) zs).*2 = zs.
Proof.
  intros H1 H2.
  assert ((zip (zip xs ys) zs).*1 = zip xs ys) as ->
    by (apply fst_zip; rewrite length_zip_with; lia).
  split_and!;
    [apply fst_zip|apply snd_zip|apply snd_zip; rewrite length_zip_with]; lia.
Qed.










(** An impression without candidates: fast evaluation fails in [np.stack],
    slow evaluation, which sees no row of it, returns. *)
Example empty_impression_fails_fast_only :
  run_fast_eval (Some id) (Some id)
    [([10], [[1%Q; 0%Q]])] [([5], [[2%Q; 3%Q]])] [(5, [], 0, [])]
  = Raise ValueError ∧
  run_slow_eval (@id (list Q * list Q * list Z)%type) [] = Ok ([], [], []).
Proof. split; vm_compute; reflexivity. Qed.

Example slow_eval_sorts_groups :
  run_slow_eval id [([2%Q; 3%Q; 1%Q], [1%Q; 0%Q; 1%Q], [5; 5; 2])]
  = Ok ([2; 5], [[1%Q]; [1%Q; 0%Q]], [[1%Q]; [2%Q; 3%Q]]).
Proof. vm_compute. reflexivity. Qed.

End EvalFacts.

(** ** Training *)

Module TrainingFacts.
Import Training.

Lemma Qlt_bool_iff (x y : Q) : Qlt_bool x y = true ↔ (x < y)%Q.
Proof.
  unfold Qlt_bool. rewrite negb_true_iff, <- not_true_iff_false, Qle_bool_iff.
  split; [apply Qnot_le_lt|apply Qlt_not_le].
Qed.

Lemma Qmin_cases (x y : Q) :
  (Qmin x y = x ∧ (x <= y)%Q) ∨ (Qmin x y = y ∧ (y <= x)%Q).
Proof.
  unfold Qmin, GenericMinMax.gmin.
  destruct (x ?= y)%Q eqn:Hc.
  - left. split; [done|]. apply Qeq_alt in Hc. rewrite Hc. apply Qle_refl.
  - left. split; [done|]. apply Qlt_alt in Hc. by apply Qlt_le_weak.
  - right. split; [done|]. apply Qgt_alt in Hc. by apply Qlt_le_weak.
Qed.

Lemma foldl_Qmin (d : list Q) (x : Q) :
  foldl Qmin x d ∈ x :: d ∧ ∀ y, y ∈ x :: d → (foldl Qmin x d <= y)%Q.
Proof.
  revert x. induction d as [|z d IH]; intros x; cbn.
  - split; [left|]. intros y ->%list_elem_of_singleton. apply Qle_refl.
  - destruct (IH (Qmin x z)) as [Hin Hle].
    destruct (Qmin_cases x z) as [[Heq Hxz]|[Heq Hzx]]; rewrite Heq in *.
    + split.
      * apply elem_of_cons in Hin as [->|Hin]; [left|right; by right].
      * intros y [->|[->|Hy]%elem_of_cons]%elem_of_cons.
        -- apply Hle. left.
        -- eapply Qle_trans; [apply Hle; left|done].
        -- apply Hle. by right.
    + split.
      * by right.
      * intros y [->|[->|Hy]%elem_of_cons]%elem_of_cons.
        -- eapply Qle_trans; [apply Hle; left|done].
        -- apply Hle. left.
        -- apply Hle. by right.
Qed.

Lemma py_min_Ok (d : list Q) (m : Q) :
  py_min d = Ok m → m ∈ d ∧ ∀ y, y ∈ d → (m <= y)%Q.
Proof.
  destruct d as [|x d]; [done|]. intros [= <-]. apply foldl_Qmin.
Qed.

Lemma py_min_nonempty (d : list Q) : d ≠ [] → ∃ m, py_min d = Ok m.
Proof. destruct d; [done|]. cbn. eauto. Qed.

Section facts.
Context {W Batch File Loss : Type} `{!LossArith Loss}.
Variable train : Q → W → Batch → W * Loss.
Variable run_eval : File → W → res metrics.
Variable load_data_from_file : Z → list Batch.
Variable hparams : HParams.
Variable valid_file : File.
Variable test_file : option File.

Local Abbreviation state := (@State W Loss).
Local Abbreviation event := (Training.event Loss).
Local Abbreviation train_loop := (Training.train_loop train hparams).
Local Abbreviation trained := (Training.trained train).
Local Abbreviation step_losses := (Training.step_losses train).
Local Abbreviation fit_epoch :=
  (Training.fit_epoch train run_eval load_data_from_file hparams valid_file test_file).
Local Abbreviation eval_test := (Training.eval_test run_eval test_file).
Local Abbreviation eval_valid := (Training.eval_valid run_eval hparams valid_file).
Local Abbreviation callback := (Training.early_stopping_callback (Loss:=Loss) hparams).
Local Abbreviation plateau := (Training.plateau hparams).
Local Abbreviation update_history := (Training.update_history hparams).
Local Abbreviation fine_lr := (Training.fine_lr hparams).
Local Abbreviation fine_step_at := (Training.fine_step_at (Loss:=Loss) hparams).
Local Abbreviation monitored := (Training.monitored (Loss:=Loss) hparams).
Local Abbreviation custom_epoch :=
  (Training.custom_epoch train run_eval load_data_from_file hparams valid_file test_file).
Local Abbreviation custom_loop :=
  (Training.custom_loop train run_eval load_data_from_file hparams valid_file test_file).
Local Abbreviation custom_fit :=
  (Training.custom_fit train run_eval load_data_from_file hparams valid_file test_file).
Local Abbreviation at_epoch :=
  (Training.at_epoch train run_eval load_data_from_file hparams valid_file test_file).
Local Abbreviation custom_start := (Training.custom_start (Loss:=Loss) hparams).

Implicit Types (s : state) (d : list Q) (epoch : Z).

(** *** The training pass *)

Lemma train_loop_cases (batches : list Batch) :
  ∀ s (step : Z) (epoch_loss : Loss),
  (batches ≠ [] ∧ show_step hparams = 0 ∧
   train_loop batches s step epoch_loss = Raise ZeroDivisionError) ∨
  ((batches = [] ∨ show_step hparams ≠ 0) ∧
   ∃ s' progress,
     train_loop batches s step epoch_loss
     = Ok (s', step + Z.of_nat (length batches),
           foldl loss_add epoch_loss (step_losses (lr s) (weights s) batches)) ∧
     weights s' = trained (lr s) (weights s) batches ∧
     lr s' = lr s ∧
     last_eval_res s' = last_eval_res s ∧
     out s' = out s ++ progress ∧
     Forall (λ ev, is_progress ev = true) progress).
Proof.
  induction batches as [|b batches IH]; intros s step epoch_loss.
  - right. split; [by left|]. exists s, []. cbn.
    rewrite Z.add_0_r, app_nil_r. done.
  - cbn [Training.train_loop].
    destruct (train (lr s) (weights s) b) as [w loss] eqn:Htrain.
    destruct (decide (show_step hparams = 0)) as [Hz|Hnz].
    { left. by rewrite bool_decide_eq_true_2. }
    right. split; [by right|]. rewrite bool_decide_eq_false_2 by done.
    match goal with |- context [Training.train_loop _ _ batches ?s1 _ _] =>
      destruct (IH s1 (step + 1) (loss_add epoch_loss loss))
        as [(_ & Hz & _)|(_ & s' & progress & Hrun & Hw & Hlr & Hd & Hout & Hp)];
      [done|] end.
    rewrite Hrun. cbn [Training.step_losses Training.trained foldl length].
    rewrite Htrain. cbn [fst snd].
    replace (step + Z.of_nat (S (length batches)))
      with (step + 1 + Z.of_nat (length batches)) by lia.
    case_bool_decide; cbn in Hw, Hlr, Hd, Hout |- *.
    + exists s', (Progress (step + 1) (loss_div (loss_add epoch_loss loss) (step + 1)) loss
                  :: progress).
      split_and!; [done..| |by constructor].
      by rewrite Hout, <- app_assoc.
    + exists s', progress. split_and!; done.
Qed.

Lemma step_losses_length (r : Q) (w : W) (batches : list Batch) :
  length (step_losses r w batches) = length batches.
Proof. revert w. induction batches; intros w; cbn; auto. Qed.

(** The loss of step [i] is that of the training step on batch [i], taken
    from the weights the steps before it have left. *)
Lemma step_losses_lookup (r : Q) (batches : list Batch) :
  ∀ (w : W) (i : nat) (b : Batch),
  batches !! i = Some b →
  step_losses r w batches !! i
  = Some (train r (trained r w (take i batches)) b).2.
Proof.
  induction batches as [|b0 batches IH]; intros w i b Hi; [done|].
  destruct i as [|i]; cbn in Hi |- *.
  - by injection Hi as ->.
  - by apply IH.
Qed.

(** An epoch of [fit] that trains and evaluates: what it does and what its
    summary reports. *)
Lemma fit_epoch_run (epoch : Z) (s : state) (r : metrics)
    (t : option metrics) :
  let batches := load_data_from_file epoch in
  let losses := step_losses (lr s) (weights s) batches in
  let w' := trained (lr s) (weights s) batches in
  let average :=
    loss_div (foldl loss_add loss_zero losses) (Z.of_nat (length batches)) in
  show_step hparams ≠ 0 →
  batches ≠ [] →
  run_eval valid_file w' = Ok r →
  eval_test w' = Ok t →
  length losses = length batches ∧
  (∀ (i : nat) (b : Batch),
     batches !! i = Some b →
     losses !! i
     = Some (train (lr s) (trained (lr s) (weights s) (take i batches)) b).2) ∧
  (∃ s' (progress : list event),
     fit_epoch epoch s = Ok s' ∧
     weights s' = w' ∧
     lr s' = lr s ∧
     last_eval_res s' = last_eval_res s ∧
     Forall (λ ev, is_progress ev = true) progress ∧
     out s' = out s ++ progress
                ++ [EpochInfo epoch average (Some r) t; EpochTime epoch]) ∧
  (∀ a b c : Loss,
     losses = [a; b; c] →
     average = loss_div (loss_add (loss_add (loss_add loss_zero a) b) c) 3).
Proof.
  intros batches losses w' average Hshow Hne Hr Ht.
  destruct (train_loop_cases batches s 0 loss_zero)
    as [(_ & Hz & _)|(_ & s1 & progress & Hrun & Hw & Hlr & Hd & Hout & Hp)];
    [done|].
  rewrite Z.add_0_l in Hrun.
  pose proof (step_losses_length (lr s) (weights s) batches) as Hlen.
  split_and!.
  - exact Hlen.
  - intros i b Hi. by apply step_losses_lookup.
  - exists (print (EpochTime epoch)
              (print (EpochInfo epoch average (Some r) t) s1)), progress.
    split_and!; [|done..|].
    + unfold Training.fit_epoch. fold batches. rewrite Hrun. cbn.
      unfold Training.average. rewrite bool_decide_eq_false_2.
      2:{ destruct batches; [done|]. cbn. lia. }
      cbn. rewrite Hw. fold w'. rewrite Hr. cbn. by rewrite Ht.
    + cbn. by rewrite Hout, <- !app_assoc.
  - intros a b c Hlosses. unfold average. fold losses in Hlen.
    rewrite Hlosses in *. by rewrite <- Hlen.
Qed.

(** *** The epoch of [custom_fit] *)

Lemma callback_cases (epoch : Z) (eval_res : option metrics) (s : state) :
  match callback epoch eval_res s with
  | Next s' =>
      (flag (use_early_stopping hparams) = false ∧ s' = s) ∨
      (flag (use_early_stopping hparams) = true ∧
       ∃ r cur p d,
         eval_res = Some r ∧
         r !! early_stopping_metric hparams = Some cur ∧
         plateau epoch cur (last_eval_res s) = Ok p ∧
         update_history cur (last_eval_res s) = Ok d ∧
         ((p = false ∧ s' = set_last_eval_res d s) ∨
          (p = true ∧ flag (use_fine_step hparams) = true ∧
           epoch < fine_step_from_epoch hparams ∧
           s' = set_last_eval_res d
                  (set_lr fine_lr (print GoingToFineTuning s)))))
  | Return s' =>
      flag (use_early_stopping hparams) = true ∧
      ∃ r cur,
        eval_res = Some r ∧
        r !! early_stopping_metric hparams = Some cur ∧
        plateau epoch cur (last_eval_res s) = Ok true ∧
        (flag (use_fine_step hparams) = false ∨
         fine_step_from_epoch hparams ≤ epoch) ∧
        s' = print StoppedEarly s
  | Abort _ => True
  end.
Proof.
  unfold Training.early_stopping_callback.
  destruct (flag (use_early_stopping hparams)); [|by left].
  destruct eval_res as [r|]; [|done].
  unfold getitem.
  destruct (r !! early_stopping_metric hparams) as [cur|] eqn:Hcur; [|done].
  destruct (plateau epoch cur (last_eval_res s)) as [[|]|] eqn:Hp; [| |done].
  - destruct (flag (use_fine_step hparams)).
    + case_bool_decide.
      * split; [done|]. exists r, cur. split_and!; auto.
      * cbn [last_eval_res set_lr print].
        destruct (update_history cur (last_eval_res s)) as [d|] eqn:Hd; [|done].
        right. split; [done|]. exists r, cur, true, d.
        split_and!; try done. right. split_and!; try done. lia.
    + split; [done|]. exists r, cur. split_and!; auto.
  - destruct (update_history cur (last_eval_res s)) as [d|] eqn:Hd; [|done].
    right. split; [done|]. exists r, cur, false, d. split_and!; auto.
Qed.

Lemma custom_epoch_cases (epoch : Z) (s : state) :
  (∃ e, custom_epoch epoch s = Abort e) ∨
  ∃ s2 eval_res train_loss test_res progress,
    custom_epoch epoch s = callback epoch eval_res s2 ∧
    lr s2 = lr (fine_step_at epoch s) ∧
    last_eval_res s2 = last_eval_res s ∧
    out s2 = out (fine_step_at epoch s) ++ progress
               ++ [EpochInfo epoch train_loss eval_res test_res; EpochTime epoch] ∧
    Forall (λ ev, is_progress ev = true) progress.
Proof.
  unfold Training.custom_epoch.
  destruct (train_loop_cases (load_data_from_file epoch) (fine_step_at epoch s) 0 loss_zero)
    as [(_ & _ & ->)|(_ & s1 & progress & -> & Hw & Hlr & Hd & Hout & Hp)];
    [left; by eexists|].
  cbn.
  destruct (Training.average _ _) as [train_loss|]; [|left; by eexists]. cbn.
  destruct (eval_valid (weights s1)) as [eval_res|]; [|left; by eexists]. cbn.
  destruct (eval_test (weights s1)) as [test_res|]; [|left; by eexists]. cbn.
  right. eexists _, eval_res, train_loss, test_res, progress.
  split_and!; [done|done| | |done].
  - cbn. rewrite Hd. unfold Training.fine_step_at.
    by destruct (_ && _).
  - cbn. rewrite Hout. by rewrite <- !app_assoc.
Qed.

Lemma monitored_app (evs1 evs2 : list event) :
  monitored (evs1 ++ evs2) = monitored evs1 ++ monitored evs2.
Proof. apply omap_app. Qed.

Lemma fine_steps_app (evs1 evs2 : list event) :
  fine_steps (evs1 ++ evs2) = (fine_steps evs1 + fine_steps evs2)%nat.
Proof. unfold fine_steps. by rewrite filter_app, length_app. Qed.

Lemma progress_silent (progress : list event) :
  Forall (λ ev, is_progress ev = true) progress →
  monitored progress = [] ∧ fine_steps progress = 0%nat.
Proof.
  induction 1 as [|ev progress Hev _ [IH1 IH2]]; [done|].
  by destruct ev.
Qed.

Lemma fine_step_at_effect (epoch : Z) (s : state) :
  last_eval_res (fine_step_at epoch s) = last_eval_res s ∧
  monitored (out (fine_step_at epoch s)) = monitored (out s) ∧
  ((lr (fine_step_at epoch s) = lr s ∧
    fine_steps (out (fine_step_at epoch s)) = fine_steps (out s)) ∨
   (lr (fine_step_at epoch s) = fine_lr ∧
    fine_steps (out (fine_step_at epoch s)) = S (fine_steps (out s)))).
Proof.
  unfold Training.fine_step_at. destruct (_ && _); [|by auto].
  cbn [out last_eval_res lr Training.set_lr Training.print].
  rewrite monitored_app, fine_steps_app.
  change (monitored [DecreasingLR]) with (@nil Q).
  change (fine_steps [DecreasingLR]) with 1%nat.
  rewrite app_nil_r. split_and!; [done..|]. right. split; [done|]. lia.
Qed.

Lemma summary_fine_steps (epoch : Z) (tl : Loss) (er tr : option metrics) :
  fine_steps [EpochInfo epoch tl er tr; EpochTime epoch] = 0%nat.
Proof. reflexivity. Qed.

Lemma summary_monitored (epoch : Z) (tl : Loss) (r : metrics) (tr : option metrics)
    (cur : Q) :
  r !! early_stopping_metric hparams = Some cur →
  monitored [EpochInfo epoch tl (Some r) tr; EpochTime epoch] = [cur].
Proof. intros Hcur. unfold Training.monitored. cbn. by rewrite Hcur. Qed.

Lemma epoch_out_effect (epoch : Z) (s s2 : state) (progress : list event)
    (tl : Loss) (er tr : option metrics) :
  out s2 = out (fine_step_at epoch s) ++ progress
             ++ [EpochInfo epoch tl er tr; EpochTime epoch] →
  Forall (λ ev, is_progress ev = true) progress →
  lr s2 = lr (fine_step_at epoch s) →
  fine_steps (out s2) = fine_steps (out (fine_step_at epoch s)) ∧
  ((lr s2 = lr s ∧ fine_steps (out s2) = fine_steps (out s)) ∨
   (lr s2 = fine_lr ∧ fine_steps (out s2) = S (fine_steps (out s)))) ∧
  ∀ r cur, er = Some r → r !! early_stopping_metric hparams = Some cur →
           monitored (out s2) = monitored (out s) ++ [cur].
Proof.
  intros Hout Hp Hlr.
  destruct (progress_silent progress Hp) as [Hpm Hpf].
  destruct (fine_step_at_effect epoch s) as (_ & Hfm & Hfl).
  assert (fine_steps (out s2) = fine_steps (out (fine_step_at epoch s))) as Hf2.
  { rewrite Hout, !fine_steps_app, Hpf, summary_fine_steps. lia. }
  split_and!; [done| |].
  - rewrite Hlr, Hf2. destruct Hfl as [[-> ->]|[-> ->]]; auto.
  - intros r cur -> Hcur.
    by rewrite Hout, !monitored_app, Hpm, Hfm, (summary_monitored _ _ _ _ cur).
Qed.

(** What an epoch that falls through to the next one has done. *)
Lemma custom_epoch_Next (epoch : Z) (s s' : state) :
  custom_epoch epoch s = Next s' →
  ((lr s' = lr s ∧ fine_steps (out s') = fine_steps (out s)) ∨
   (lr s' = fine_lr ∧ (fine_steps (out s) < fine_steps (out s'))%nat)) ∧
  (flag (use_early_stopping hparams) = false →
   last_eval_res s' = last_eval_res s) ∧
  (flag (use_early_stopping hparams) = true →
   ∃ cur p,
     monitored (out s') = monitored (out s) ++ [cur] ∧
     plateau epoch cur (last_eval_res s) = Ok p ∧
     update_history cur (last_eval_res s) = Ok (last_eval_res s')).
Proof.
  intros Hstep.
  destruct (custom_epoch_cases epoch s)
    as [[e He]|(s2 & eval_res & tl & tr & progress & Hcb & Hlr & Hd & Hout & Hp)];
    [congruence|].
  rewrite Hcb in Hstep. pose proof (callback_cases epoch eval_res s2) as Hc.
  rewrite Hstep in Hc.
  destruct (epoch_out_effect epoch s s2 progress tl eval_res tr Hout Hp Hlr)
    as (Hf2 & Hfl & Hmon).
  destruct Hc as [[Hoff ->]|(Hon & r & cur & p & d & -> & Hcur & Hpl & Hup & Hcase)].
  - split_and!; [|by rewrite Hd|congruence].
    destruct Hfl as [[-> ->]|[-> ->]]; [by left|right; split; [done|lia]].
  - specialize (Hmon r cur eq_refl Hcur). rewrite Hd in Hpl, Hup.
    destruct Hcase as [[-> ->]|(-> & Hfine & Hlt & ->)];
      cbn [out last_eval_res lr Training.set_lr Training.print
           Training.set_last_eval_res].
    + split_and!; [|congruence|intros _; by exists cur, false].
      destruct Hfl as [[-> ->]|[-> ->]]; [by left|right; split; [done|lia]].
    + split_and!; [|congruence|intros _; exists cur, true].
      * right. split; [done|]. rewrite fine_steps_app.
        change (fine_steps [GoingToFineTuning]) with 1%nat.
        destruct Hfl as [[_ ->]|[_ ->]]; lia.
      * rewrite monitored_app, Hmon.
        change (monitored [GoingToFineTuning]) with (@nil Q).
        by rewrite app_nil_r.
Qed.

(** What the epoch in which the callback returns has done. *)
Lemma custom_epoch_Return (epoch : Z) (s s' : state) :
  custom_epoch epoch s = Return s' →
  flag (use_early_stopping hparams) = true ∧
  last_eval_res s' = last_eval_res s ∧
  ((lr s' = lr s ∧ fine_steps (out s') = fine_steps (out s)) ∨
   (lr s' = fine_lr ∧ (fine_steps (out s) < fine_steps (out s'))%nat)) ∧
  (flag (use_fine_step hparams) = false ∨ fine_step_from_epoch hparams ≤ epoch) ∧
  ∃ cur,
    monitored (out s') = monitored (out s) ++ [cur] ∧
    plateau epoch cur (last_eval_res s) = Ok true.
Proof.
  intros Hstep.
  destruct (custom_epoch_cases epoch s)
    as [[e He]|(s2 & eval_res & tl & tr & progress & Hcb & Hlr & Hd & Hout & Hp)];
    [congruence|].
  rewrite Hcb in Hstep. pose proof (callback_cases epoch eval_res s2) as Hc.
  rewrite Hstep in Hc.
  destruct (epoch_out_effect epoch s s2 progress tl eval_res tr Hout Hp Hlr)
    as (Hf2 & Hfl & Hmon).
  destruct Hc as (Hon & r & cur & -> & Hcur & Hpl & Hfine & ->).
  specialize (Hmon r cur eq_refl Hcur).
  cbn [out last_eval_res lr Training.print].
  split_and!; [done|done| |done|].
  - rewrite fine_steps_app. change (fine_steps [StoppedEarly]) with 0%nat.
    rewrite Nat.add_0_r.
    destruct Hfl as [[-> ->]|[-> ->]]; [by left|right; split; [done|lia]].
  - exists cur. rewrite <- Hd. split; [|done].
    rewrite monitored_app, Hmon. change (monitored [StoppedEarly]) with (@nil Q).
    by rewrite app_nil_r.
Qed.

(** *** The stopping policy *)

Lemma update_history_Ok (cur : Q) (d d' : list Q) :
  update_history cur d = Ok d' →
  d' = (if bool_decide (early_stopping_patience hparams ≤ Z.of_nat (length d))
        then tail d else d) ++ [cur] ∧
  (early_stopping_patience hparams ≤ Z.of_nat (length d) → d ≠ []).
Proof.
  unfold Training.update_history. case_bool_decide.
  - destruct d; [done|]. cbn. intros [= <-]. done.
  - cbn. intros [= <-]. split; [done|lia].
Qed.

Lemma update_history_nonempty (cur : Q) (d : list Q) :
  d ≠ [] →
  update_history cur d
  = Ok ((if bool_decide (early_stopping_patience hparams ≤ Z.of_nat (length d))
         then tail d else d) ++ [cur]).
Proof.
  intros Hne. unfold Training.update_history.
  case_bool_decide; [|done]. by destruct d.
Qed.

Lemma plateau_Ok (epoch : Z) (cur m : Q) (d : list Q) :
  early_stopping_start_from_epoch hparams ≤ epoch →
  py_min d = Ok m →
  plateau epoch cur d = Ok (Qlt_bool cur (m + early_stopping_delta hparams)).
Proof.
  intros Hstart Hm. unfold Training.plateau.
  rewrite bool_decide_eq_true_2 by done. by rewrite Hm.
Qed.

Lemma plateau_true (epoch : Z) (cur : Q) (d : list Q) :
  plateau epoch cur d = Ok true →
  early_stopping_start_from_epoch hparams ≤ epoch ∧
  ∃ m, py_min d = Ok m ∧ (cur < m + early_stopping_delta hparams)%Q.
Proof.
  unfold Training.plateau. case_bool_decide; [|done].
  destruct (py_min d) as [m|]; [|done]. cbn. intros [= Hlt].
  split; [done|]. exists m. split; [done|]. by apply Qlt_bool_iff.
Qed.

(** The three ways the callback ends once its guard can be evaluated. *)
Lemma callback_guarded (epoch : Z) (r : metrics) (cur m : Q) (s : state) :
  flag (use_early_stopping hparams) = true →
  r !! early_stopping_metric hparams = Some cur →
  early_stopping_start_from_epoch hparams ≤ epoch →
  py_min (last_eval_res s) = Ok m →
  let below := (cur < m + early_stopping_delta hparams)%Q in
  let d' := (if bool_decide (early_stopping_patience hparams
                             ≤ Z.of_nat (length (last_eval_res s)))
             then tail (last_eval_res s) else last_eval_res s) ++ [cur] in
  (∃ p, plateau epoch cur (last_eval_res s) = Ok p ∧ (p = true ↔ below)) ∧
  (below →
   flag (use_fine_step hparams) = false ∨ fine_step_from_epoch hparams ≤ epoch →
   callback epoch (Some r) s = Return (print StoppedEarly s)) ∧
  (below →
   flag (use_fine_step hparams) = true → epoch < fine_step_from_epoch hparams →
   callback epoch (Some r) s
   = Next (set_last_eval_res d' (set_lr fine_lr (print GoingToFineTuning s)))) ∧
  (¬ below → callback epoch (Some r) s = Next (set_last_eval_res d' s)).
Proof.
  intros Hon Hcur Hstart Hm below d'.
  pose proof (plateau_Ok epoch cur m _ Hstart Hm) as Hpl.
  assert (last_eval_res s ≠ []) as Hne by (by destruct (last_eval_res s)).
  pose proof (update_history_nonempty cur _ Hne) as Hup. fold d' in Hup.
  split; [eexists; split; [exact Hpl|apply Qlt_bool_iff]|].
  unfold Training.early_stopping_callback, getitem.
  rewrite Hon, Hcur, Hpl.
  split_and!.
  - intros Hb%Qlt_bool_iff Hfine. rewrite Hb.
    destruct (flag (use_fine_step hparams)); [|done].
    destruct Hfine as [|Hfine]; [done|]. by rewrite bool_decide_eq_true_2.
  - intros Hb%Qlt_bool_iff Hfine Hlt. rewrite Hb, Hfine.
    rewrite bool_decide_eq_false_2 by lia.
    cbn [last_eval_res Training.set_lr Training.print]. by rewrite Hup.
  - intros Hb. unfold below in Hb.
    rewrite <- Qlt_bool_iff in Hb. apply not_true_is_false in Hb.
    rewrite Hb. by rewrite Hup.
Qed.

(** *** Invariants of a run of [custom_fit] *)

Lemma history_window (cur : Q) (vs d' : list Q) :
  let p := Z.to_nat (early_stopping_patience hparams) in
  update_history cur (drop (length vs - p) vs) = Ok d' →
  d' = drop (length (vs ++ [cur]) - p) (vs ++ [cur]).
Proof.
  intros p [-> Hne]%update_history_Ok.
  rewrite length_app. cbn [length].
  rewrite length_drop in *. case_bool_decide as Hfull.
  - specialize (Hne Hfull).
    assert (p ≠ 0%nat) as Hp.
    { intros Hp. apply Hne. rewrite Hp, Nat.sub_0_r. apply drop_all. }
    assert (p ≤ length vs)%nat by lia.
    assert (∀ l : list Q, tail l = drop 1 l) as -> by (by intros []).
    rewrite drop_drop, drop_app_le by lia. do 2 f_equal. lia.
  - assert (length vs < p)%nat by lia.
    replace (length vs - p)%nat with 0%nat by lia.
    replace (length vs + 1 - p)%nat with 0%nat by lia. done.
Qed.

Lemma at_epoch_inv (m : Model) (epoch : Z) (s : state) :
  at_epoch m epoch s →
  1 ≤ epoch ∧
  lr s = (if decide (fine_steps (out s) = 0%nat) then m_lr m else fine_lr) ∧
  (flag (use_early_stopping hparams) = true →
   length (monitored (out s)) = Z.to_nat (epoch - 1) ∧
   last_eval_res s
   = drop (length (monitored (out s))
           - Z.to_nat (early_stopping_patience hparams))
          (monitored (out s))).
Proof.
  induction 1 as [|epoch s s' _ (Hge & Hlr & Hhist) Hle Hstep].
  - split; [done|]. unfold Training.custom_start.
    destruct (flag (use_early_stopping hparams)); cbn; split; done.
  - destruct (custom_epoch_Next epoch s s' Hstep) as (Hrate & _ & Hon).
    split; [lia|]. split.
    + destruct Hrate as [[-> ->]|[-> Hlt]]; [done|].
      rewrite decide_False by lia. done.
    + intros Hes. destruct (Hhist Hes) as [Hlen Hd].
      destruct (Hon Hes) as (cur & p & -> & _ & Hup).
      split; [rewrite length_app; cbn; lia|].
      rewrite Hd in Hup. by apply history_window.
Qed.

(** How a call of [custom_fit] ends. *)
Lemma custom_loop_outcome (m : Model) (n : nat) :
  ∀ epoch s,
  at_epoch m epoch s →
  epoch + Z.of_nat n - 1 ≤ epochs hparams →
  match custom_loop (seqZ epoch (Z.of_nat n)) s with
  | Finished s' => at_epoch m (epoch + Z.of_nat n) s'
  | Stopped s' =>
      ∃ epoch0 s0, at_epoch m epoch0 s0 ∧ custom_epoch epoch0 s0 = Return s'
  | Raised _ => True
  end.
Proof.
  induction n as [|n IH]; intros epoch s Hat Hle.
  - cbn. by rewrite Z.add_0_r.
  - rewrite seqZ_cons by lia. cbn [Training.custom_loop].
    destruct (custom_epoch epoch s) as [s'| s'|e] eqn:Hstep; [| |done].
    + replace (Z.pred (Z.of_nat (S n))) with (Z.of_nat n) by lia.
      assert (at_epoch m (Z.succ epoch) s') as Hat'.
      { apply (at_next _ _ _ _ _ _ _ epoch s s'); [done|lia|done]. }
      specialize (IH (Z.succ epoch) s' Hat' ltac:(lia)).
      destruct (custom_loop _ s'); [|done..].
      replace (epoch + Z.of_nat (S n)) with (Z.succ epoch + Z.of_nat n) by lia.
      done.
    + by exists epoch, s.
Qed.

Lemma custom_fit_outcome (m : Model) :
  match custom_fit m with
  | Finished s' => ∃ epoch, at_epoch m epoch s'
  | Stopped s' =>
      ∃ epoch0 s0, at_epoch m epoch0 s0 ∧ custom_epoch epoch0 s0 = Return s'
  | Raised _ => True
  end.
Proof.
  unfold Training.custom_fit.
  destruct (decide (epochs hparams ≤ 0)) as [Hle|Hgt].
  - rewrite seqZ_nil by done. cbn. exists 1. constructor.
  - pose proof (custom_loop_outcome m (Z.to_nat (epochs hparams)) 1
                  (custom_start m) (at_first _ _ _ _ _ _ m) ltac:(lia)) as Hout.
    rewrite Z2Nat.id in Hout by lia.
    destruct (custom_loop _ _); [|done..]. eauto.
Qed.



(** The weights an epoch leaves: those of its training pass, run under the
    learning rate in force after the unconditional fine step. *)
Lemma custom_epoch_trained (epoch : Z) (s s' : state) :
  custom_epoch epoch s = Next s' ∨ custom_epoch epoch s = Return s' →
  let s1 := fine_step_at epoch s in
  weights s' = trained (lr s1) (weights s1) (load_data_from_file epoch).
Proof.
  intros Hstep s1. unfold Training.custom_epoch in Hstep. fold s1 in Hstep.
  destruct (train_loop_cases (load_data_from_file epoch) s1 0 loss_zero)
    as [(_ & _ & Hrun)|(_ & s2 & progress & Hrun & Hw & _)];
    rewrite Hrun in Hstep; [by destruct Hstep|].
  cbn in Hstep.
  destruct (Training.average _ _) as [tl|]; [|by destruct Hstep]. cbn in Hstep.
  destruct (eval_valid (weights s2)) as [er|]; [|by destruct Hstep].
  cbn in Hstep.
  destruct (eval_test (weights s2)) as [tr|]; [|by destruct Hstep].
  cbn in Hstep. rewrite <- Hw.
  match type of Hstep with
  | Training.early_stopping_callback _ _ _ ?s3 = _ ∨ _ =>
      pose proof (callback_cases epoch er s3) as Hc
  end.
  destruct Hstep as [Hstep|Hstep]; rewrite Hstep in Hc.
  - destruct Hc as [[_ ->]|(_ & r & cur & p & d & _ & _ & _ & _ &
      [[_ ->]|(_ & _ & _ & ->)])]; done.
  - by destruct Hc as (_ & r & cur & _ & _ & _ & _ & ->).
Qed.


Lemma callback_empty_history (epoch : Z) (r : metrics) (cur : Q) (s : state) :
  flag (use_early_stopping hparams) = true →
  r !! early_stopping_metric hparams = Some cur →
  last_eval_res s = [] →
  early_stopping_start_from_epoch hparams ≤ epoch →
  callback epoch (Some r) s = Abort ValueError.
Proof.
  intros Hon Hcur Hd Hstart.
  unfold Training.early_stopping_callback, getitem, Training.plateau.
  rewrite Hon, Hcur, Hd. by rewrite bool_decide_eq_true_2.
Qed.

(** C9.  With early stopping enabled: the callback, entered with an empty
    history at an epoch at or past [early_stopping_start_from_epoch], raises
    the [ValueError] of [min] on an empty sequence; before that epoch the
    guard is false without evaluating [min]; an epoch of a run begins with
    an empty history exactly when it is the first one; hence a run whose
    first epoch trains and evaluates successfully and whose
    [early_stopping_start_from_epoch] is at most 1 ends with that error. *)
Theorem empty_history_min_fails :
  flag (use_early_stopping hparams) = true →
  (∀ epoch r cur s,
     r !! early_stopping_metric hparams = Some cur →
     last_eval_res s = [] →
     early_stopping_start_from_epoch hparams ≤ epoch →
     callback epoch (Some r) s = Abort ValueError) ∧
  (∀ epoch cur d,
     epoch < early_stopping_start_from_epoch hparams →
     plateau epoch cur d = Ok false) ∧
  (∀ m epoch s, at_epoch m epoch s → (last_eval_res s = [] ↔ epoch = 1)) ∧
  (∀ m r cur,
     early_stopping_start_from_epoch hparams ≤ 1 →
     1 ≤ epochs hparams →
     show_step hparams ≠ 0 →
     load_data_from_file 1 ≠ [] →
     flag (deactivate_eval hparams) = false →
     let s1 := fine_step_at 1 (custom_start m) in
     let w1 := trained (lr s1) (weights s1) (load_data_from_file 1) in
     run_eval valid_file w1 = Ok r →
     (∃ t, eval_test w1 = Ok t) →
     r !! early_stopping_metric hparams = Some cur →
     custom_fit m = Raised ValueError).
Proof.
  intros Hon. split_and!.
  - intros epoch r cur s. by apply callback_empty_history.
  - intros epoch cur d Hlt. unfold Training.plateau.
    by rewrite bool_decide_eq_false_2 by lia.
  - intros m epoch s Hat. destruct Hat as [|epoch s s' Hat Hle Hstep].
    + unfold Training.custom_start. rewrite Hon. done.
    + destruct (at_epoch_inv m epoch s Hat) as (Hge & _).
      destruct (custom_epoch_Next epoch s s' Hstep) as (_ & _ & Hup).
      destruct (Hup Hon) as (cur & p & _ & _ & [-> _]%update_history_Ok).
      split; [|lia]. intros Hnil. by apply app_nil in Hnil as [_ ?].
  - intros m r cur Hstart Hep Hshow Hne Heval s1 w1 Hr [t Ht] Hcur.
    unfold Training.custom_fit. rewrite seqZ_cons by lia.
    cbn [Training.custom_loop]. unfold Training.custom_epoch. fold s1.
    destruct (train_loop_cases (load_data_from_file 1) s1 0 loss_zero)
      as [(_ & Hz & _)|(_ & s2 & progress & -> & Hw & Hlr & Hd & Hout & Hp)];
      [done|].
    cbn. unfold Training.average. rewrite bool_decide_eq_false_2.
    2:{ destruct (load_data_from_file 1); [done|]. cbn. lia. }
    cbn. unfold Training.eval_valid. rewrite Heval, Hw. fold w1.
    rewrite Hr, Ht. cbn.
    rewrite (callback_empty_history 1 r cur); [done..| |done].
    cbn. rewrite Hd. unfold s1.
    destruct (fine_step_at_effect 1 (custom_start m)) as (-> & _).
    unfold Training.custom_start. by rewrite Hon.
Qed.

(** C6.  With early stopping enabled: when an epoch begins, the history
    holds the last [patience] monitored values printed so far, oldest first
    (so its length never exceeds a non-negative [patience], and after
    [patience + 1] completed epochs exactly the first value is gone); the
    same bound holds for the state a call ends in; an epoch that goes on
    drops the oldest entry when the length has reached [patience] and then
    appends the epoch's value; the epoch in which the callback returns
    leaves the history as it was. *)
Theorem stopping_history_fifo :
  flag (use_early_stopping hparams) = true →
  (∀ m epoch s,
     at_epoch m epoch s →
     let vs := monitored (out s) in
     length vs = Z.to_nat (epoch - 1) ∧
     last_eval_res s
     = drop (length vs - Z.to_nat (early_stopping_patience hparams)) vs ∧
     (0 ≤ early_stopping_patience hparams →
      Z.of_nat (length (last_eval_res s)) ≤ early_stopping_patience hparams)) ∧
  (∀ m s,
     custom_fit m = Finished s ∨ custom_fit m = Stopped s →
     0 ≤ early_stopping_patience hparams →
     Z.of_nat (length (last_eval_res s)) ≤ early_stopping_patience hparams) ∧
  (∀ epoch s s',
     custom_epoch epoch s = Next s' →
     ∃ cur,
       monitored (out s') = monitored (out s) ++ [cur] ∧
       last_eval_res s'
       = (if bool_decide (early_stopping_patience hparams
                          ≤ Z.of_nat (length (last_eval_res s)))
          then tail (last_eval_res s) else last_eval_res s) ++ [cur]) ∧
  (∀ epoch s s',
     custom_epoch epoch s = Return s' → last_eval_res s' = last_eval_res s) ∧
  (∀ m s,
     0 < early_stopping_patience hparams →
     at_epoch m (early_stopping_patience hparams + 2) s →
     ∃ v vs,
       monitored (out s) = v :: vs ∧
       Z.of_nat (length vs) = early_stopping_patience hparams ∧
       last_eval_res s = vs).
Proof.
  intros Hon.
  assert (∀ m epoch s,
     at_epoch m epoch s →
     let vs := monitored (out s) in
     length vs = Z.to_nat (epoch - 1) ∧
     last_eval_res s
     = drop (length vs - Z.to_nat (early_stopping_patience hparams)) vs ∧
     (0 ≤ early_stopping_patience hparams →
      Z.of_nat (length (last_eval_res s)) ≤ early_stopping_patience hparams))
    as Hinv.
  { intros m epoch s Hat vs.
    destruct (at_epoch_inv m epoch s Hat) as (_ & _ & Hhist).
    destruct (Hhist Hon) as [Hlen Hd]. fold vs in Hlen, Hd.
    split_and!; [done..|]. intros Hp. rewrite Hd, length_drop. lia. }
  split_and!.
  - exact Hinv.
  - intros m s Hend Hp. pose proof (custom_fit_outcome m) as Hout.
    destruct Hend as [Hend|Hend]; rewrite Hend in Hout.
    + destruct Hout as [epoch Hat]. by apply (Hinv m epoch s Hat).
    + destruct Hout as (epoch & s0 & Hat & Hret).
      apply custom_epoch_Return in Hret as (_ & -> & _).
      by apply (Hinv m epoch s0 Hat).
  - intros epoch s s' Hstep.
    destruct (custom_epoch_Next epoch s s' Hstep) as (_ & _ & Hup).
    destruct (Hup Hon) as (cur & p & Hmon & _ & [Hd _]%update_history_Ok).
    by exists cur.
  - intros epoch s s' Hstep. by apply custom_epoch_Return in Hstep as (_ & -> & _).
  - intros m s Hp Hat. destruct (Hinv m _ s Hat) as (Hlen & Hd & _).
    destruct (monitored (out s)) as [|v vs] eqn:Hvs; cbn in Hlen; [lia|].
    exists v, vs. split_and!; [done|lia|].
    rewrite Hd. cbn [length].
    replace (S (length vs) - Z.to_nat (early_stopping_patience hparams))%nat
      with 1%nat by lia.
    done.
Qed.

(** C10.  Each of the two fine-step triggers assigns the learning rate the
    value [learning_rate * fine_step_factor], whatever the current rate is.
    The unconditional trigger fires at the top of epoch
    [fine_step_from_epoch], so that this epoch already trains under the new
    rate; the plateau-driven trigger fires in the callback of a guarded epoch
    before [fine_step_from_epoch] whose value is below [min + delta].  A
    callback that goes on either leaves the rate alone or has fired.  So at
    every epoch of a run, and in the state a call ends in, the learning rate
    is the initial one when no trigger has fired and
    [learning_rate * fine_step_factor] when one or more have. *)
Theorem fine_step_idempotent :
  (∀ epoch s,
     flag (use_fine_step hparams) = true →
     epoch = fine_step_from_epoch hparams →
     lr (fine_step_at epoch s)
     = (learning_rate hparams * fine_step_factor hparams)%Q ∧
     out (fine_step_at epoch s) = out s ++ [DecreasingLR]) ∧
  (∀ epoch s s',
     flag (use_fine_step hparams) = true →
     epoch = fine_step_from_epoch hparams →
     custom_epoch epoch s = Next s' ∨ custom_epoch epoch s = Return s' →
     lr s' = (learning_rate hparams * fine_step_factor hparams)%Q ∧
     weights s'
     = trained (learning_rate hparams * fine_step_factor hparams)%Q (weights s)
         (load_data_from_file epoch)) ∧
  (∀ epoch r cur m s,
     flag (use_early_stopping hparams) = true →
     flag (use_fine_step hparams) = true →
     r !! early_stopping_metric hparams = Some cur →
     early_stopping_start_from_epoch hparams ≤ epoch →
     epoch < fine_step_from_epoch hparams →
     py_min (last_eval_res s) = Ok m →
     (cur < m + early_stopping_delta hparams)%Q →
     ∃ s',
       callback epoch (Some r) s = Next s' ∧
       lr s' = (learning_rate hparams * fine_step_factor hparams)%Q ∧
       weights s' = weights s ∧
       out s' = out s ++ [GoingToFineTuning]) ∧
  (∀ epoch eval_res s s',
     callback epoch eval_res s = Next s' →
     (fine_steps (out s') = fine_steps (out s) ∧ lr s' = lr s) ∨
     (out s' = out s ++ [GoingToFineTuning] ∧
      lr s' = (learning_rate hparams * fine_step_factor hparams)%Q)) ∧
  (∀ m epoch s,
     at_epoch m epoch s →
     lr s = if decide (fine_steps (out s) = 0%nat) then m_lr m
            else (learning_rate hparams * fine_step_factor hparams)%Q) ∧
  (∀ m s,
     custom_fit m = Finished s ∨ custom_fit m = Stopped s →
     lr s = if decide (fine_steps (out s) = 0%nat) then m_lr m
            else (learning_rate hparams * fine_step_factor hparams)%Q).
Proof.
  assert (∀ epoch s,
     flag (use_fine_step hparams) = true →
     epoch = fine_step_from_epoch hparams →
     fine_step_at epoch s = set_lr fine_lr (print DecreasingLR s)) as Hfire.
  { intros epoch s Hfine ->. unfold Training.fine_step_at.
    by rewrite Hfine, bool_decide_eq_true_2 by done. }
  split_and!.
  - intros epoch s Hfine Heq. by rewrite (Hfire epoch s Hfine Heq).
  - intros epoch s s' Hfine Heq Hstep.
    pose proof (custom_epoch_trained epoch s s' Hstep) as Hw. cbn zeta in Hw.
    rewrite (Hfire epoch s Hfine Heq) in Hw. cbn in Hw. split; [|exact Hw].
    assert (lr (fine_step_at epoch s) = fine_lr) as Hlr1
      by (by rewrite (Hfire epoch s Hfine Heq)).
    destruct (custom_epoch_cases epoch s)
      as [[e He]|(s2 & er & tl & tr & progress & Hcb & Hlr & _)];
      [destruct Hstep; congruence|].
    rewrite Hcb in Hstep. pose proof (callback_cases epoch er s2) as Hc.
    destruct Hstep as [Hstep|Hstep]; rewrite Hstep in Hc.
    + destruct Hc as [[_ ->]|(_ & r & cur & p & d & _ & _ & _ & _ &
        [[_ ->]|(_ & _ & _ & ->)])]; cbn; [by rewrite Hlr, Hlr1..|done].
    + destruct Hc as (_ & r & cur & _ & _ & _ & _ & ->). cbn.
      by rewrite Hlr, Hlr1.
  - intros epoch r cur m s Hon Hfine Hcur Hstart Hlt Hm Hbelow.
    destruct (callback_guarded epoch r cur m s Hon Hcur Hstart Hm)
      as (_ & _ & Hgo & _).
    eexists. split; [by apply Hgo|]. done.
  - intros epoch eval_res s s' Hstep.
    pose proof (callback_cases epoch eval_res s) as Hc. rewrite Hstep in Hc.
    destruct Hc as [[_ ->]|(_ & r & cur & p & d & _ & _ & _ & _ & Hcase)];
      [by left|].
    destruct Hcase as [[_ ->]|(_ & _ & _ & ->)]; [by left|by right].
  - intros m epoch s Hat. by apply at_epoch_inv in Hat as (_ & -> & _).
  - intros m s Hend. pose proof (custom_fit_outcome m) as Hout.
    destruct Hend as [Hend|Hend]; rewrite Hend in Hout.
    + destruct Hout as [epoch Hat]. by apply at_epoch_inv in Hat as (_ & -> & _).
    + destruct Hout as (epoch & s0 & Hat & Hret).
      apply at_epoch_inv in Hat as (_ & Hlr & _).
      apply custom_epoch_Return in Hret as (_ & _ & [[-> ->]|[-> Hlt]] & _);
        [done|].
      by rewrite decide_False by lia.
Qed.

Lemma gaining_tail (delta x : Q) (vs : list Q) :
  gaining delta (x :: vs) → gaining delta vs.
Proof. intros Hg i a b Ha Hb. by apply (Hg (S i)). Qed.

Lemma gaining_last (delta cur x : Q) (vs : list Q) :
  gaining delta (vs ++ [cur]) → x ∈ vs → (x + delta <= cur)%Q.
Proof.
  revert x. induction vs as [|x0 vs IH]; intros x Hg Hx;
    [by apply elem_of_nil in Hx|].
  apply elem_of_cons in Hx as [->|Hx].
  - destruct vs as [|x1 vs].
    + by apply (Hg 0%nat x0 cur).
    + destruct (Hg 0%nat x0 x1 eq_refl eq_refl) as [Hlt _].
      assert (x1 + delta <= cur)%Q as Hle
        by (apply IH; [by eapply gaining_tail|left]).
      lra.
  - apply IH; [by eapply gaining_tail|done].
Qed.

(** C5, as the code behaves.  A call whose printed monitored values rise
    at every epoch, each time by at least [early_stopping_delta], is not
    ended by the early-stopping callback. *)
Theorem gaining_never_stops (m : Model) (s : state) :
  gaining (early_stopping_delta hparams) (monitored (out s)) →
  custom_fit m ≠ Stopped s.
Proof.
  intros Hg Hend. pose proof (custom_fit_outcome m) as Hout.
  rewrite Hend in Hout. destruct Hout as (epoch & s0 & Hat & Hret).
  apply custom_epoch_Return in Hret as (Hon & _ & _ & _ & cur & Hmon & Hpl).
  apply plateau_true in Hpl as (_ & m0 & Hmin & Hlt).
  apply py_min_Ok in Hmin as [Hin _].
  apply at_epoch_inv in Hat as (_ & _ & Hhist).
  destruct (Hhist Hon) as [_ Hd]. rewrite Hd in Hin.
  rewrite Hmon in Hg.
  assert (m0 ∈ monitored (out s0)) as Hin'.
  { apply list_elem_of_lookup in Hin as [i Hi].
    rewrite lookup_drop in Hi. by eapply list_elem_of_lookup_2. }
  pose proof (gaining_last _ _ _ _ Hg Hin'). lra.
Qed.

End facts.


(** A state whose rate has already been lowered to 0.05 enters the callback
    of epoch 2 on a plateau, with fine-stepping due from epoch 4: the rate
    is set to 0.1 * 0.5 again, not halved once more. *)
Lemma fine_step_idempotent_witness :
  ∃ s',
    early_stopping_callback (Scenario.hp 5 1 (1 # 5) 2 (Some true) 4) 2
      (Some {[ "auc"%string := (7 # 10)%Q ]})
      (set_lr (1 # 20) Scenario.after_one)
    = Next s' ∧
    lr s' = ((1 # 10) * (1 # 2))%Q ∧
    out s' = [GoingToFineTuning].
Proof.
  destruct (proj1 (proj2 (proj2
              (fine_step_idempotent Scenario.train_count Scenario.eval_rising
                 Scenario.one_batch (Scenario.hp 5 1 (1 # 5) 2 (Some true) 4)
                 tt None)))
              2 {[ "auc"%string := (7 # 10)%Q ]} (7 # 10)%Q (6 # 10)%Q
              (set_lr (1 # 20) Scenario.after_one)
              eq_refl eq_refl)
    as (s' & Hcb & Hlr & _ & Hout).
  - by vm_compute.
  - cbn. lia.
  - cbn. lia.
  - reflexivity.
  - by vm_compute.
  - exists s'. split_and!; [exact Hcb|exact Hlr|exact Hout].
Defined.

(** C7, as the code behaves.  In an epoch of [fit] with at least one batch, a
    non-zero [show_step] and successful evaluations, the training pass makes
    one training step per batch, in stream order, each from the weights its
    predecessor left; the epoch ends with these weights, and the summary it
    prints reports as train loss the step losses added up from [0] in stream
    order and divided by the number of steps, in the arithmetic of the
    losses.  For three steps with losses [a], [b], [c] this is
    [(((0 + a) + b) + c) / 3]: with losses 0.9, 0.7, 0.5 it is 0.7 in exact
    arithmetic and 0.7000000000000001 in the arithmetic of Python floats. *)
Theorem fit_epoch_average {W Batch File Loss : Type} `{!LossArith Loss}
    (train : Q → W → Batch → W * Loss) (run_eval : File → W → res metrics)
    (load_data_from_file : Z → list Batch) (hparams : HParams)
    (valid_file : File) (test_file : option File)
    (epoch : Z) (s : @State W Loss) (r : metrics) (t : option metrics) :
  let batches := load_data_from_file epoch in
  let losses := step_losses train (lr s) (weights s) batches in
  let w' := trained train (lr s) (weights s) batches in
  let average :=
    loss_div (foldl loss_add loss_zero losses) (Z.of_nat (length batches)) in
  show_step hparams ≠ 0 →
  batches ≠ [] →
  run_eval valid_file w' = Ok r →
  eval_test run_eval test_file w' = Ok t →
  length losses = length batches ∧
  (∀ (i : nat) (b : Batch),
     batches !! i = Some b →
     losses !! i
     = Some (train (lr s) (trained train (lr s) (weights s) (take i batches)) b).2) ∧
  (∃ s' (progress : list (event Loss)),
     fit_epoch train run_eval load_data_from_file hparams valid_file test_file
       epoch s = Ok s' ∧
     weights s' = w' ∧
     lr s' = lr s ∧
     last_eval_res s' = last_eval_res s ∧
     Forall (λ ev, is_progress ev = true) progress ∧
     out s' = out s ++ progress
                ++ [EpochInfo epoch average (Some r) t; EpochTime epoch]) ∧
  (∀ a b c : Loss,
     losses = [a; b; c] →
     average = loss_div (loss_add (loss_add (loss_add loss_zero a) b) c) 3) ∧
  (loss_div (loss_add (loss_add (loss_add loss_zero (9 # 10)) (7 # 10)) (5 # 10)) 3
   == 7 # 10)%Q ∧
  loss_div (loss_add (loss_add (loss_add loss_zero 0.9%float) 0.7%float) 0.5%float) 3
  = 0.7000000000000001%float.
Proof.
  intros batches losses w' average Hshow Hne Hr Ht.
  destruct (fit_epoch_run train run_eval load_data_from_file hparams valid_file
              test_file epoch s r t Hshow Hne Hr Ht)
    as (Hlen & Hsteps & Hrun & Havg).
  split_and!; [exact Hlen|exact Hsteps|exact Hrun|exact Havg|by vm_compute|].
  vm_compute. reflexivity.
Qed.

(** Three batches with losses 0.9, 0.7, 0.5 and [show_step = 2], in exact
    arithmetic: the summary reports 0.7. *)
Lemma fit_epoch_average_witness :
  ∃ s' progress tl,
    fit_epoch Scenario.train_given Scenario.eval_rising Scenario.three_batches
      (Scenario.hp 1 1 (1 # 5) 2 None 0) tt None 1 (enter Scenario.fresh)
    = Ok s' ∧
    out s' = progress
               ++ [EpochInfo 1 tl (Some {[ "auc"%string := ((1 # 2) + 0 / 10)%Q ]})
                     None;
                   EpochTime 1] ∧
    tl = ((((0 + (9 # 10)) + (7 # 10)) + (5 # 10)) / inject_Z 3)%Q ∧
    (tl == 7 # 10)%Q.
Proof.
  destruct (fit_epoch_average Scenario.train_given Scenario.eval_rising
              Scenario.three_batches (Scenario.hp 1 1 (1 # 5) 2 None 0) tt None
              1 (enter Scenario.fresh)
              {[ "auc"%string := ((1 # 2) + 0 / 10)%Q ]} None)
    as (_ & _ & (s' & progress & Hfit & _ & _ & _ & _ & Hout) & Havg & _).
  - done.
  - done.
  - reflexivity.
  - reflexivity.
  - exists s', progress. eexists. split; [exact Hfit|].
    split; [exact Hout|]. split; [exact (Havg _ _ _ eq_refl)|].
    rewrite (Havg _ _ _ eq_refl). by vm_compute.
Defined.

(** C7, as stated, fails for Python floats: with step losses 0.9, 0.7, 0.5
    the summary of [fit] reports 0.7000000000000001, which is not the float
    0.7. *)
Lemma binary64_average_is_not_0_7 :
  ∃ s tl,
    fit Scenario.train_given64 Scenario.eval_rising Scenario.three_batches64
      (Scenario.hp 1 1 (1 # 5) 2 None 0) tt None Scenario.fresh = Ok s ∧
    out s = [Progress 2 0.8%float 0.7%float;
             EpochInfo 1 tl (Some {[ "auc"%string := (10 # 20)%Q ]}) None;
             EpochTime 1] ∧
    tl = 0.7000000000000001%float ∧
    PrimFloat.eqb tl 0.7%float = false ∧
    tl ≠ 0.7%float.
Proof.
  destruct (fit _ _ _ _ _ _ _) as [s|e] eqn:Hfit; vm_compute in Hfit; [|done].
  injection Hfit as <-. eexists _, _. split; [done|]. split; [reflexivity|].
  split; [reflexivity|]. split; [by vm_compute|].
  intros Heq. apply (f_equal (λ x, PrimFloat.eqb x 0.7%float)) in Heq.
  vm_compute in Heq. discriminate Heq.
Qed.

Example fit_three_batches :
  ∃ s tl,
    fit Scenario.train_given Scenario.eval_rising Scenario.three_batches
      (Scenario.hp 1 1 (1 # 5) 2 None 0) tt None Scenario.fresh = Ok s ∧
    out s = [Progress 2 (160 # 200) (7 # 10);
             EpochInfo 1 tl (Some {[ "auc"%string := (10 # 20)%Q ]}) None;
             EpochTime 1] ∧
    (tl == 7 # 10)%Q.
Proof.
  destruct (fit _ _ _ _ _ _ _) as [s|e] eqn:Hfit; vm_compute in Hfit; [|done].
  injection Hfit as <-. eexists _, _. split; [done|]. split; [reflexivity|].
  reflexivity.
Qed.

(** C5, as stated, fails: the metric rises at every epoch (0.6, then 0.7),
    yet with [delta = 0.2] the callback stops the run at epoch 2. *)
Lemma rising_metric_stopped :
  ∃ s a b,
    custom_fit Scenario.train_count Scenario.eval_rising Scenario.one_batch
      (Scenario.hp 3 1 (1 # 5) 2 None 0) tt None Scenario.fresh = Stopped s ∧
    monitored (Scenario.hp 3 1 (1 # 5) 2 None 0) (out s) = [a; b] ∧
    (a == 6 # 10)%Q ∧ (b == 7 # 10)%Q ∧ (a < b)%Q.
Proof.
  destruct (custom_fit _ _ _ _ _ _ _) as [s|s|e] eqn:Hfit;
    vm_compute in Hfit; [done| |done].
  injection Hfit as <-. eexists _, _, _. split; [done|].
  split; [vm_compute; reflexivity|]. by vm_compute.
Qed.

(** With [delta = 0.05] the same run gains at least [delta] per epoch. *)
Lemma gaining_never_stops_witness :
  ∃ s,
    custom_fit Scenario.train_count Scenario.eval_rising Scenario.one_batch
      (Scenario.hp 3 1 (1 # 20) 2 None 0) tt None Scenario.fresh = Finished s ∧
    gaining (1 # 20) (monitored (Scenario.hp 3 1 (1 # 20) 2 None 0) (out s)) ∧
    custom_fit Scenario.train_count Scenario.eval_rising Scenario.one_batch
      (Scenario.hp 3 1 (1 # 20) 2 None 0) tt None Scenario.fresh ≠ Stopped s.
Proof.
  eexists. split; [vm_compute; reflexivity|].
  match goal with |- gaining ?d ?vs ∧ _ => assert (gaining d vs) as Hg end.
  { intros i a b Ha Hb. vm_compute in Ha, Hb.
    destruct i as [|[|[|i]]]; try done; injection Ha as <-; injection Hb as <-;
      by vm_compute. }
  split; [exact Hg|].
  exact (gaining_never_stops Scenario.train_count Scenario.eval_rising
           Scenario.one_batch (Scenario.hp 3 1 (1 # 20) 2 None 0) tt None
           Scenario.fresh _ Hg).
Defined.

(** With [early_stopping_start_from_epoch = 1] the first epoch ends in the
    [ValueError]. *)
Lemma empty_history_min_fails_witness :
  flag (use_early_stopping (Scenario.hp 3 1 (1 # 5) 1 None 0)) = true ∧
  custom_fit Scenario.train_count Scenario.eval_rising Scenario.one_batch
    (Scenario.hp 3 1 (1 # 5) 1 None 0) tt None Scenario.fresh
  = Raised ValueError.
Proof.
  split; [reflexivity|].
  refine (proj2 (proj2 (proj2
    (empty_history_min_fails Scenario.train_count Scenario.eval_rising
       Scenario.one_batch (Scenario.hp 3 1 (1 # 5) 1 None 0) tt None eq_refl)))
    Scenario.fresh {[ "auc"%string := ((1 # 2) + inject_Z 1 / 10)%Q ]}
    ((1 # 2) + inject_Z 1 / 10)%Q _ _ _ _ eq_refl eq_refl _ eq_refl).
  - cbn. lia.
  - cbn. lia.
  - done.
  - done.
  - by exists None.
Defined.

(** Four epochs with [patience = 2] and a guard that never holds. *)
Lemma stopping_history_fifo_witness :
  flag (use_early_stopping (Scenario.hp 4 2 (-1) 2 None 0)) = true ∧
  ∃ s,
    custom_fit Scenario.train_count Scenario.eval_rising Scenario.one_batch
      (Scenario.hp 4 2 (-1) 2 None 0) tt None Scenario.fresh = Finished s ∧
    Z.of_nat (length (last_eval_res s)) ≤ 2.
Proof.
  split; [reflexivity|].
  eexists. split; [vm_compute; reflexivity|].
  refine (proj1 (proj2
    (stopping_history_fifo Scenario.train_count Scenario.eval_rising
       Scenario.one_batch (Scenario.hp 4 2 (-1) 2 None 0) tt None eq_refl))
    Scenario.fresh _ _ _).
  - left. vm_compute. reflexivity.
  - cbn. lia.
Defined.

Example history_keeps_last_two :
  ∃ s v1 v2 v3 v4,
    custom_fit Scenario.train_count Scenario.eval_rising Scenario.one_batch
      (Scenario.hp 4 2 (-1) 2 None 0) tt None Scenario.fresh = Finished s ∧
    monitored (Scenario.hp 4 2 (-1) 2 None 0) (out s) = [v1; v2; v3; v4] ∧
    last_eval_res s = [v3; v4].
Proof.
  destruct (custom_fit _ _ _ _ _ _ _) as [s|s|e] eqn:Hfit;
    vm_compute in Hfit; [|done..].
  injection Hfit as <-. eexists _, _, _, _, _. split; [done|].
  split; vm_compute; reflexivity.
Qed.

(** Both triggers fire (the plateau one at epoch 2, the unconditional one at
    epoch 3); the rate ends at 0.1 * 0.5, not 0.1 * 0.5 * 0.5. *)
Example two_triggers_one_rate :
  ∃ s,
    custom_fit Scenario.train_count Scenario.eval_rising Scenario.one_batch
      (Scenario.hp 4 1 (1 # 5) 2 (Some true) 3) tt None Scenario.fresh
    = Stopped s ∧
    fine_steps (out s) = 2%nat ∧
    lr s = ((1 # 10) * (1 # 2))%Q.
Proof.
  destruct (custom_fit _ _ _ _ _ _ _) as [s|s|e] eqn:Hfit;
    vm_compute in Hfit; [done| |done].
  injection Hfit as <-. eexists. split; [done|]. split; reflexivity.
Qed.

End TrainingFacts.

(** ** Further properties of grouping *)

Module GroupingExtras.
Import Grouping GroupingFacts.

Lemma snd_zip_take {A B : Type} (l : list A) (k : list B) :
  (zip l k).*2 = take (length l) k.
Proof.
  revert k. induction l as [|x l IH]; intros [|y k]; cbn; [done..|].
  by rewrite IH.
Qed.

Lemma bucket_nil_iff {L P : Type} (rows : list (L * P * Z)) (k : Z) :
  bucket rows k = [] ↔ k ∉ rows.*2.
Proof.
  unfold bucket. induction rows as [|r rows IH]; [set_solver|].
  rewrite filter_cons, fmap_cons, not_elem_of_cons.
  destruct (decide (r.2 = k)) as [Heq|Hne]; [naive_solver|].
  rewrite IH. naive_solver.
Qed.

Lemma sorted_lt_NoDup (l : list Z) : StronglySorted Z.lt l → NoDup l.
Proof.
  induction 1 as [|x l _ IH Hx]; constructor; [|done].
  intros Hin. rewrite Forall_forall in Hx. specialize (Hx x Hin). lia.
Qed.

Section extras.
Context {L P : Type}.

(** X1.  [group_labels] returns for lists of any lengths: [zip] cuts the
    three inputs to the shortest one, while the keys are taken from the
    whole key list.  The three results are parallel, the buckets hold as
    many elements as the shortest input, and a key all of whose rows were
    cut away keeps an empty bucket. *)
Theorem group_labels_any_lengths (labels : list L) (preds : list P)
    (group_keys : list Z) :
  let n := (length labels `min` length preds)%nat in
  ∃ ks ls ps,
    group_labels labels preds group_keys = Ok (ks, ls, ps) ∧
    length ls = length ks ∧
    length ps = length ks ∧
    StronglySorted Z.lt ks ∧
    (∀ k, k ∈ ks ↔ k ∈ group_keys) ∧
    sum_list (length <$> ls) = (n `min` length group_keys)%nat ∧
    sum_list (length <$> ps) = (n `min` length group_keys)%nat ∧
    Forall2 (λ k l, l = [] ↔ k ∉ take n group_keys) ks ls ∧
    Forall2 (λ k p, p = [] ↔ k ∉ take n group_keys) ks ps.
Proof.
  intros n. set (rows := zip (zip labels preds) group_keys).
  assert (length rows = (n `min` length group_keys)%nat) as Hlen.
  { unfold rows, n. by rewrite !length_zip_with. }
  assert (rows.*2 = take n group_keys) as Hkeys.
  { unfold rows, n. by rewrite snd_zip_take, length_zip_with. }
  assert (∀ r, r ∈ rows → r.2 ∈ all_keys_of group_keys) as Hin.
  { intros [r1 r2] Hr. apply all_keys_elem. by eapply elem_of_zip_r. }
  pose proof (bucket_cover rows _ (all_keys_NoDup group_keys) Hin) as Hperm.
  eexists _, _, _. split; [apply group_labels_Ok|]. fold rows.
  split_and!.
  - by rewrite length_fmap.
  - by rewrite length_fmap.
  - apply all_keys_sorted.
  - apply all_keys_elem.
  - rewrite <- length_join, <- Hlen, <- Hperm.
    rewrite <- (length_fmap (λ r : L * P * Z, r.1.1)), fmap_bind_join.
    do 2 f_equal. apply list_fmap_ext. intros _ k _.
    by rewrite <- list_fmap_compose.
  - rewrite <- length_join, <- Hlen, <- Hperm.
    rewrite <- (length_fmap (λ r : L * P * Z, r.1.2)), fmap_bind_join.
    do 2 f_equal. apply list_fmap_ext. intros _ k _.
    by rewrite <- list_fmap_compose.
  - apply Forall2_fmap_r, Forall_Forall2_diag, Forall_forall. intros k _.
    cbn. rewrite <- Hkeys, <- bucket_nil_iff.
    split; [|by intros ->]. by intros ?%fmap_nil_inv%fmap_nil_inv.
  - apply Forall2_fmap_r, Forall_Forall2_diag, Forall_forall. intros k _.
    cbn. rewrite <- Hkeys, <- bucket_nil_iff.
    split; [|by intros ->]. by intros ?%fmap_nil_inv%fmap_nil_inv.
Qed.

End extras.

Example group_labels_short_labels :
  group_labels [1] [10; 20] [7; 3; 7] = Ok ([3; 7], [[]; [1]], [[]; [10]]).
Proof. vm_compute. reflexivity. Qed.

End GroupingExtras.

(** ** Further properties of the evaluation *)

Module EvalExtras.
Import Grouping Eval GroupingFacts EvalFacts GroupingExtras.

(** *** Grouping undoes flattening *)

(** X2.  For ascending distinct keys and non-empty buckets with one label
    per prediction, grouping the flattened rows gives the groups back. *)
Theorem group_labels_of_flattening (ks : list Z) (ls ps : list (list Q)) :
  StronglySorted Z.lt ks →
  length ks = length ls →
  Forall2 (λ l p, length l = length p) ls ps →
  Forall (λ l, l ≠ []) ls →
  group_labels (mjoin ls) (mjoin ps)
    (mjoin (zip_with (λ k l, replicate (length l) k) ks ls))
  = Ok (ks, ls, ps).
Proof.
  intros Hsorted Hlen1 Hlp Hne.
  assert (length ls = length ps) as Hlen2 by (by eapply Forall2_length).
  pose proof (sorted_lt_NoDup ks Hsorted) as Hnd.
  set (gs := zip (zip ks ls) ps).
  destruct (zip3_lengths ks ls ps Hlen1 Hlen2) as (Hk & Hl & Hp).
  fold gs in Hk, Hl, Hp.
  set (imps := mjoin (zip_with (λ k l, replicate (length l) k) ks ls)).
  rewrite group_labels_Ok. cbv zeta.
  set (rows := zip (zip (mjoin ls) (mjoin ps)) imps).
  assert (rows = gs ≫= group_rows) as Hrows by (by apply rows_flatten).
  assert (all_keys_of imps = ks) as ->.
  { apply (StronglySorted_unique_strong Z.lt);
      [|apply all_keys_sorted|done|].
    - intros x y _ _ Hxy Hyx. lia.
    - apply NoDup_Permutation; [apply all_keys_NoDup|done|].
      intros k. rewrite all_keys_elem. by apply keys_flatten. }
  assert (∀ g, g ∈ gs →
            (g.1.1, (bucket rows g.1.1).*1.*1, (bucket rows g.1.1).*1.*2) = g)
    as Hsel.
  { intros g Hg. rewrite Hrows, bucket_of_group by (by rewrite ?Hk).
    apply group_rows_labels.
    destruct g as [[k l] p]. cbn.
    apply list_elem_of_lookup in Hg as [i Hi]. unfold gs in Hi.
    apply lookup_zip_with_Some in Hi as ([k1 l1] & p1 & [= -> -> ->] & Hi & Hpi).
    apply lookup_zip_with_Some in Hi as (k2 & l2 & [= -> ->] & _ & Hli).
    exact (Forall2_lookup_lr _ _ _ _ _ _ Hlp Hli Hpi). }
  do 2 f_equal; [f_equal|].
  - rewrite <- Hl, <- Hk.
    rewrite <- !list_fmap_compose. apply list_fmap_ext.
    intros _ g Hg%list_elem_of_lookup_2. cbn.
    pose proof (Hsel g Hg) as Hg'. destruct g as [[k l] p].
    cbn [fst snd] in *. congruence.
  - rewrite <- Hp, <- Hk.
    rewrite <- !list_fmap_compose. apply list_fmap_ext.
    intros _ g Hg%list_elem_of_lookup_2. cbn.
    pose proof (Hsel g Hg) as Hg'. destruct g as [[k l] p].
    cbn [fst snd] in *. congruence.
Qed.

Lemma group_labels_of_flattening_witness :
  StronglySorted Z.lt [2; 5] ∧
  group_labels [1%Q; 1%Q; 0%Q] [4%Q; 2%Q; 3%Q] [2; 5; 5]
  = Ok ([2; 5], [[1%Q]; [1%Q; 0%Q]], [[4%Q]; [2%Q; 3%Q]]).
Proof.
  assert (StronglySorted Z.lt [2; 5]) as Hs.
  { repeat constructor. }
  split; [exact Hs|].
  apply (group_labels_of_flattening [2; 5] [[1%Q]; [1%Q; 0%Q]]
           [[4%Q]; [2%Q; 3%Q]] Hs eq_refl).
  - repeat constructor.
  - repeat constructor; discriminate.
Defined.

(** *** The vector caches *)

Lemma emitted_indexes {B : Type} (f : B → list Z * list vec) (stream : list B) :
  aligned f stream → (emitted f stream).*1 = stream ≫= (λ b, (f b).1).
Proof.
  induction 1 as [|b stream Hb _ IH]; [done|].
  unfold emitted in *. rewrite !bind_cons, fmap_app, IH.
  f_equal. apply fst_zip. lia.
Qed.

(** X3.  When every batch carries one vector per index, the cache built by
    [run_news] (resp. [run_user]) has an entry for exactly the indices the
    stream emitted, and every cached vector was emitted by some batch
    together with its index. *)
Theorem cache_contents {NB UB : Type}
    (fn : NB → list Z * list vec) (fu : UB → list Z * list vec)
    (news_stream : list NB) (user_stream : list UB) :
  (aligned fn news_stream →
   ∃ d, run_news (Some fn) news_stream = Ok d ∧
        (∀ i, is_Some (d !! i) ↔ i ∈ news_stream ≫= (λ b, (fn b).1)) ∧
        (∀ i v, d !! i = Some v →
                ∃ b, b ∈ news_stream ∧ (i, v) ∈ zip (fn b).1 (fn b).2)) ∧
  (aligned fu user_stream →
   ∃ d, run_user (Some fu) user_stream = Ok d ∧
        (∀ i, is_Some (d !! i) ↔ i ∈ user_stream ≫= (λ b, (fu b).1)) ∧
        (∀ i v, d !! i = Some v →
                ∃ b, b ∈ user_stream ∧ (i, v) ∈ zip (fu b).1 (fu b).2)).
Proof.
  assert (∀ (B : Type) (f : B → list Z * list vec) (stream : list B),
    aligned f stream →
    let d := dict_zip (extend_all f stream).1 (extend_all f stream).2 in
    (∀ i, is_Some (d !! i) ↔ i ∈ stream ≫= (λ b, (f b).1)) ∧
    (∀ i v, d !! i = Some v →
            ∃ b, b ∈ stream ∧ (i, v) ∈ zip (f b).1 (f b).2)) as Hgen.
  { intros B f stream Hal d. split.
    - intros i. unfold d. rewrite cache_lookup by done.
      by rewrite last_emitted_is_Some, emitted_indexes.
    - intros i v. unfold d. rewrite cache_lookup by done.
      intros Hin%last_emitted_Some. unfold emitted in Hin.
      apply list_elem_of_bind in Hin as (b & Hin & Hb). eauto. }
  split; intros Hal; unfold run_news, run_user.
  - specialize (Hgen _ fn news_stream Hal).
    destruct (extend_all fn news_stream) as [ixs vs]. eauto.
  - specialize (Hgen _ fu user_stream Hal).
    destruct (extend_all fu user_stream) as [ixs vs]. eauto.
Qed.

Lemma cache_contents_witness :
  aligned id [([1; 2], [[1%Q]; [2%Q]]); ([1], [[3%Q]])] ∧
  ∃ d, run_news (Some id) [([1; 2], [[1%Q]; [2%Q]]); ([1], [[3%Q]])] = Ok d ∧
       is_Some (d !! 2) ∧ d !! 7 = None.
Proof.
  assert (aligned id [([1; 2], [[1%Q]; [2%Q]]); ([1], [[3%Q]])]) as Hal.
  { repeat constructor. }
  split; [exact Hal|].
  destruct (cache_contents id (@id (list Z * list vec)%type)
              [([1; 2], [[1%Q]; [2%Q]]); ([1], [[3%Q]])] []) as [Hn _].
  destruct (Hn Hal) as (d & Hrun & Hdom & _).
  exists d. split_and!; [exact Hrun| |].
  - apply Hdom. vm_compute. set_solver.
  - apply eq_None_not_Some. rewrite Hdom. vm_compute. set_solver.
Defined.

(** *** How fast evaluation fails *)

Lemma mapM_getitem_cases (d : gmap Z vec) (keys : list Z) :
  (mapM (getitem d) keys = Raise KeyError ∧ ∃ i, i ∈ keys ∧ d !! i = None) ∨
  (∃ rows, mapM (getitem d) keys = Ok rows ∧
           Forall2 (λ i row, d !! i = Some row) keys rows).
Proof.
  induction keys as [|k keys IH]; [right; exists []; by split|].
  change (mapM (getitem d) (k :: keys))
    with (getitem d k ≫= λ y, mapM (getitem d) keys ≫= λ r, Ok (y :: r)).
  destruct (getitem d k) as [v|e] eqn:Hk; cbn [mbind res_bind].
  - apply getitem_Ok in Hk.
    destruct IH as [[-> (i & Hi & Hnone)]|(rows & -> & Hall)].
    + left. split; [done|]. exists i. split; [by right|done].
    + right. exists (v :: rows). split; [done|]. by constructor.
  - unfold getitem in Hk. destruct (d !! k) eqn:Hdk; [done|].
    injection Hk as <-. left. split; [done|]. exists k. split; [left|done].
Qed.

Lemma cached_rows_unique (d : gmap Z vec) (keys : list Z) (rows rows' : list vec) :
  Forall2 (λ i row, d !! i = Some row) keys rows →
  Forall2 (λ i row, d !! i = Some row) keys rows' →
  rows = rows'.
Proof.
  intros H. revert rows'. induction H as [|k r keys rows Hk _ IH];
    intros rows' H'; inv H'; [done|].
  f_equal; first [congruence | by apply IH].
Qed.

Lemma cached_rows_all (d : gmap Z vec) (keys : list Z) (rows : list vec) (i : Z) :
  Forall2 (λ i row, d !! i = Some row) keys rows → i ∈ keys → d !! i ≠ None.
Proof.
  intros H Hi. apply list_elem_of_lookup in Hi as [n Hn].
  destruct (Forall2_lookup_l _ _ _ _ _ H Hn) as (row & _ & ->). done.
Qed.

(** The decision tree of [fast_pred]. *)
Lemma fast_pred_cases (news_vecs user_vecs : gmap Z vec) (impr_index : Z)
    (news_index : list Z) :
  let uniform (rows : list vec) :=
    ∀ r r', head rows = Some r → r' ∈ rows → length r' = length r in
  ((∃ i, i ∈ news_index ∧ news_vecs !! i = None) ∧
   fast_pred news_vecs user_vecs impr_index news_index = Raise KeyError) ∨
  ∃ rows,
    Forall2 (λ i row, news_vecs !! i = Some row) news_index rows ∧
    (((rows = [] ∨ ¬ uniform rows) ∧
      fast_pred news_vecs user_vecs impr_index news_index = Raise ValueError) ∨
     (rows ≠ [] ∧ uniform rows ∧
      ((user_vecs !! impr_index = None ∧
        fast_pred news_vecs user_vecs impr_index news_index = Raise KeyError) ∨
       (∃ u, user_vecs !! impr_index = Some u ∧
          ((¬ Forall (λ row, length row = length u) rows ∧
            fast_pred news_vecs user_vecs impr_index news_index
            = Raise ValueError) ∨
           (Forall (λ row, length row = length u) rows ∧
            fast_pred news_vecs user_vecs impr_index news_index
            = Ok ((λ row, dot row u) <$> rows))))))).
Proof.
  intros uniform. unfold fast_pred.
  destruct (mapM_getitem_cases news_vecs news_index)
    as [[-> Hmiss]|(rows & -> & Hrows)]; [by left|].
  right. exists rows. split; [done|]. cbn.
  destruct (np_stack rows) as [m|e] eqn:Hstack.
  - apply np_stack_Ok in Hstack as (-> & Hne & Huni). cbn.
    right. split_and!; [done..|]. unfold getitem.
    destruct (user_vecs !! impr_index) as [u|]; [|by left]. cbn.
    right. exists u. split; [done|].
    destruct (np_dot rows u) as [p|e] eqn:Hdot.
    + apply np_dot_Ok in Hdot as [Hlen ->]. by right.
    + left. split.
      * intros Hlen. assert (np_dot rows u = Ok ((λ r, dot r u) <$> rows)) as Hok
          by (by apply np_dot_Ok). congruence.
      * unfold np_dot in Hdot. by destruct (forallb _ rows); simplify_eq.
  - cbn. left. split.
    + destruct rows as [|r rows]; [by left|]. right. intros Huni.
      assert (np_stack (r :: rows) = Ok (r :: rows)) as Hok
        by (by apply np_stack_Ok). congruence.
    + unfold np_stack in Hstack. destruct rows; [by simplify_eq|].
      by destruct (forallb _ _); simplify_eq.
Qed.

(** X4.  A record of [run_fast_eval] raises [KeyError] exactly when a
    candidate news index has no cached vector, or all candidates are cached
    and stack (at least one, all of one length) but the impression index
    has no cached user vector. *)
Theorem fast_pred_KeyError (news_vecs user_vecs : gmap Z vec) (impr_index : Z)
    (news_index : list Z) :
  fast_pred news_vecs user_vecs impr_index news_index = Raise KeyError ↔
  (∃ i, i ∈ news_index ∧ news_vecs !! i = None) ∨
  (∃ rows,
     Forall2 (λ i row, news_vecs !! i = Some row) news_index rows ∧
     rows ≠ [] ∧
     (∀ r r', head rows = Some r → r' ∈ rows → length r' = length r) ∧
     user_vecs !! impr_index = None).
Proof.
  destruct (fast_pred_cases news_vecs user_vecs impr_index news_index)
    as [[Hmiss ->]|(rows & Hrows & Hcase)]; [by split; [left|]|].
  assert (¬ ∃ i, i ∈ news_index ∧ news_vecs !! i = None) as Hall.
  { intros (i & Hi & Hnone). by eapply cached_rows_all. }
  destruct Hcase as [[Hbad ->]|(Hne & Huni &
    [[Hu ->]|(u & Hu & [[Hlen ->]|[Hlen ->]])])].
  - split; [done|]. intros [?|(rows' & Hrows' & Hne & Huni & _)]; [done|].
    rewrite (cached_rows_unique _ _ _ _ Hrows' Hrows) in *.
    destruct Hbad; done.
  - split; [|done]. intros _. right. by exists rows.
  - split; [done|]. intros [?|(rows' & _ & _ & _ & ?)]; [done|congruence].
  - split; [done|]. intros [?|(rows' & _ & _ & _ & ?)]; [done|congruence].
Qed.

(** X5.  A record of [run_fast_eval] raises [ValueError] exactly when all
    its candidates are cached and either there is no candidate, or the
    cached vectors differ in length, or the user vector is cached and its
    length differs from theirs; it raises nothing but [KeyError] and
    [ValueError]. *)
Theorem fast_pred_ValueError (news_vecs user_vecs : gmap Z vec) (impr_index : Z)
    (news_index : list Z) :
  (fast_pred news_vecs user_vecs impr_index news_index = Raise ValueError ↔
   ∃ rows,
     Forall2 (λ i row, news_vecs !! i = Some row) news_index rows ∧
     (rows = [] ∨
      ¬ (∀ r r', head rows = Some r → r' ∈ rows → length r' = length r) ∨
      ∃ u, user_vecs !! impr_index = Some u ∧
           ¬ Forall (λ row, length row = length u) rows)) ∧
  (∀ e, fast_pred news_vecs user_vecs impr_index news_index = Raise e →
        e = KeyError ∨ e = ValueError).
Proof.
  destruct (fast_pred_cases news_vecs user_vecs impr_index news_index)
    as [[Hmiss ->]|(rows & Hrows & Hcase)].
  { split; [|intros e [= <-]; by left]. split; [done|].
    intros (rows & Hrows & _). destruct Hmiss as (i & Hi & Hnone).
    by destruct (cached_rows_all _ _ _ _ Hrows Hi). }
  destruct Hcase as [[Hbad ->]|(Hne & Huni &
    [[Hu ->]|(u & Hu & [[Hlen ->]|[Hlen ->]])])].
  - split; [|intros e [= <-]; by right]. split; [|done]. intros _.
    exists rows. split; [done|]. destruct Hbad; auto.
  - split; [|intros e [= <-]; by left]. split; [done|].
    intros (rows' & Hrows' & Hcase).
    rewrite (cached_rows_unique _ _ _ _ Hrows' Hrows) in *.
    destruct Hcase as [?|[?|(u & ? & _)]]; [done|done|congruence].
  - split; [|intros e [= <-]; by right]. split; [|done]. intros _.
    exists rows. split; [done|]. right. right. by exists u.
  - split; [|done]. split; [done|].
    intros (rows' & Hrows' & Hcase).
    rewrite (cached_rows_unique _ _ _ _ Hrows' Hrows) in *.
    destruct Hcase as [?|[?|(u' & Hu' & Hlen')]]; [done|done|].
    rewrite Hu in Hu'. by injection Hu' as <-.
Qed.

(** X6.  [run_fast_eval] fails exactly when the news encoder is missing, or
    the user encoder is missing ([ValueError] in both cases), or some record
    of the impression stream fails; the exception is then that of the first
    failing record, whatever follows it. *)
Theorem run_fast_eval_Raise {NB UB : Type}
    (news : option (NB → list Z * list vec)) (user : option (UB → list Z * list vec))
    (news_stream : list NB) (user_stream : list UB) (stream : list impression)
    (e : exn) :
  run_fast_eval news user news_stream user_stream stream = Raise e ↔
  (news = None ∧ e = ValueError) ∨
  (news ≠ None ∧ user = None ∧ e = ValueError) ∨
  (∃ news_vecs user_vecs pre r post,
     run_news news news_stream = Ok news_vecs ∧
     run_user user user_stream = Ok user_vecs ∧
     stream = pre ++ r :: post ∧
     Forall (λ r', ∃ p, fast_pred news_vecs user_vecs
                          (impr_index_of r') (news_index_of r') = Ok p) pre ∧
     fast_pred news_vecs user_vecs (impr_index_of r) (news_index_of r)
     = Raise e).
Proof.
  unfold run_fast_eval.
  destruct news as [fn|]; cbn [run_news].
  2:{ cbn. split; [intros [= <-]; by left|].
      intros [[_ ->]|[(? & _)|(? & ? & ? & ? & ? & ? & _)]]; done. }
  destruct (extend_all fn news_stream) as [nix nvs]. cbn.
  destruct user as [fu|]; cbn [run_user].
  2:{ cbn. split; [intros [= <-]; right; by left|].
      intros [[? _]|[(_ & _ & ->)|(? & ? & ? & ? & ? & _ & ? & _)]]; done. }
  destruct (extend_all fu user_stream) as [uix uvs]. cbn.
  set (nv := dict_zip nix nvs). set (uv := dict_zip uix uvs).
  assert (∀ ks0 ls0 ps0,
    fast_loop nv uv stream ks0 ls0 ps0 = Raise e ↔
    ∃ pre r post,
      stream = pre ++ r :: post ∧
      Forall (λ r', ∃ p, fast_pred nv uv (impr_index_of r') (news_index_of r')
                         = Ok p) pre ∧
      fast_pred nv uv (impr_index_of r) (news_index_of r) = Raise e) as Hloop.
  { induction stream as [|[[[impr_index news_index] user_index] label] stream IH];
      intros ks0 ls0 ps0.
    - split; [done|]. intros (pre & r & post & Heq & _). by destruct pre.
    - cbn [fast_loop].
      destruct (fast_pred nv uv impr_index news_index) as [pred|e'] eqn:Hpred; cbn.
      + rewrite IH. split.
        * intros (pre & r & post & -> & Hpre & Hr).
          exists ((impr_index, news_index, user_index, label) :: pre), r, post.
          split_and!; [done| |done]. constructor; [|done]. by exists pred.
        * intros (pre & r & post & Heq & Hpre & Hr).
          destruct pre as [|r0 pre]; cbn in Heq; injection Heq as <- ->.
          -- unfold impr_index_of, news_index_of in Hr. cbn [fst snd] in Hr. congruence.
          -- apply Forall_cons in Hpre as [_ Hpre]. by exists pre, r, post.
      + split.
        * intros [= <-]. by exists [], (impr_index, news_index, user_index, label), stream.
        * intros (pre & r & post & Heq & Hpre & Hr).
          destruct pre as [|r0 pre]; cbn in Heq; injection Heq as <- ->.
          -- unfold impr_index_of, news_index_of in Hr. cbn [fst snd] in Hr. congruence.
          -- apply Forall_cons in Hpre as [[p Hp] _].
             unfold impr_index_of, news_index_of in Hp. cbn [fst snd] in Hp. congruence. }
  rewrite Hloop. split.
  - intros (pre & r & post & ? & ? & ?). right. right.
    by exists nv, uv, pre, r, post.
  - intros [[? _]|[(_ & ? & _)|(nv' & uv' & pre & r & post & [= <-] & [= <-] & ?)]];
      [done..|]. by exists pre, r, post.
Qed.

(** X7.  The predictions of [run_fast_eval] never depend on the
    [user_index] of a record: the user vector is looked up under the
    impression index.  Two impression streams that agree on impression
    index, candidates and label give the same result. *)
Theorem run_fast_eval_ignores_user_index {NB UB : Type}
    (news : option (NB → list Z * list vec)) (user : option (UB → list Z * list vec))
    (news_stream : list NB) (user_stream : list UB)
    (stream1 stream2 : list impression) :
  Forall2 (λ r1 r2, impr_index_of r1 = impr_index_of r2 ∧
                    news_index_of r1 = news_index_of r2 ∧
                    label_of r1 = label_of r2) stream1 stream2 →
  run_fast_eval news user news_stream user_stream stream1
  = run_fast_eval news user news_stream user_stream stream2.
Proof.
  intros Hagree. unfold run_fast_eval.
  destruct (run_news news news_stream) as [nv|]; [|done]. cbn.
  destruct (run_user user user_stream) as [uv|]; [|done]. cbn.
  generalize (@nil Z). generalize (@nil (list Q)) at 1 3.
  generalize (@nil (list Q)).
  induction Hagree as [|r1 r2 s1 s2 (Hi & Hn & Hl) _ IH]; intros ps0 ls0 ks0;
    [done|].
  destruct r1 as [[[i1 n1] u1] l1], r2 as [[[i2 n2] u2] l2].
  unfold impr_index_of, news_index_of, label_of in Hi, Hn, Hl.
  cbn in Hi, Hn, Hl. subst.
  cbn [fast_loop]. destruct (fast_pred nv uv i2 n2); cbn; [apply IH|done].
Qed.

Lemma run_fast_eval_ignores_user_index_witness :
  run_fast_eval (Some id) (Some id)
    [([10; 11], [[1%Q; 0%Q]; [0%Q; 1%Q]])] [([0], [[2%Q; 3%Q]])]
    [(0, [10; 11], 0, [1%Q; 0%Q])]
  = run_fast_eval (Some id) (Some id)
      [([10; 11], [[1%Q; 0%Q]; [0%Q; 1%Q]])] [([0], [[2%Q; 3%Q]])]
      [(0, [10; 11], 99, [1%Q; 0%Q])].
Proof.
  apply run_fast_eval_ignores_user_index. repeat constructor.
Defined.

(** *** Slow evaluation *)

Lemma slow_rows_concat {DB : Type} (eval : DB → list Q * list Q * list Z)
    (stream : list DB) :
  slow_rows eval stream
  = (stream ≫= (λ b, (eval b).1.1), stream ≫= (λ b, (eval b).1.2),
     stream ≫= (λ b, (eval b).2)).
Proof.
  induction stream as [|b stream IH] using rev_ind; [done|].
  unfold slow_rows in *. rewrite foldl_app, IH. cbn.
  destruct (eval b) as [[p l] i] eqn:Hb. cbn. rewrite !bind_app. cbn.
  by rewrite Hb, !app_nil_r.
Qed.

(** X8.  Slow evaluation never raises, whatever the batches hold: it
    returns parallel lists with one group per distinct impression index of
    the data stream, keys ascending, and [run_eval] without quick scoring
    returns the metrics of these groups. *)
Theorem run_slow_eval_never_fails {NB UB DB : Type}
    (news : option (NB → list Z * list vec)) (user : option (UB → list Z * list vec))
    (eval : DB → list Q * list Q * list Z)
    (news_stream : list NB) (user_stream : list UB) (data_stream : list DB)
    (stream : list impression) :
  ∃ ks ls ps,
    run_slow_eval eval data_stream = Ok (ks, ls, ps) ∧
    StronglySorted Z.lt ks ∧
    length ls = length ks ∧
    length ps = length ks ∧
    (∀ k, k ∈ ks ↔ ∃ b, b ∈ data_stream ∧ k ∈ (eval b).2) ∧
    ∀ (M : Type) (cal_metric : list (list Q) → list (list Q) → list string → M)
      (metrics : list string),
      run_eval news user eval news_stream user_stream data_stream stream
        false cal_metric metrics
      = Ok (cal_metric ls ps metrics).
Proof.
  unfold run_eval, run_slow_eval. rewrite slow_rows_concat.
  rewrite group_labels_Ok. cbv zeta.
  eexists _, _, _. split; [done|]. split_and!.
  - apply all_keys_sorted.
  - by rewrite length_fmap.
  - by rewrite length_fmap.
  - intros k. rewrite all_keys_elem, list_elem_of_bind. naive_solver.
  - done.
Qed.

(** X9.  Slow evaluation depends on the data stream only through the
    concatenation of its batches' outputs: two streams whose predictions,
    labels and impression indices concatenate to the same lists give the
    same groups, however the rows are cut into batches. *)
Theorem run_slow_eval_batching {DB1 DB2 : Type}
    (eval1 : DB1 → list Q * list Q * list Z)
    (eval2 : DB2 → list Q * list Q * list Z)
    (stream1 : list DB1) (stream2 : list DB2) :
  stream1 ≫= (λ b, (eval1 b).1.1) = stream2 ≫= (λ b, (eval2 b).1.1) →
  stream1 ≫= (λ b, (eval1 b).1.2) = stream2 ≫= (λ b, (eval2 b).1.2) →
  stream1 ≫= (λ b, (eval1 b).2) = stream2 ≫= (λ b, (eval2 b).2) →
  run_slow_eval eval1 stream1 = run_slow_eval eval2 stream2.
Proof.
  intros Hp Hl Hi. unfold run_slow_eval.
  by rewrite !slow_rows_concat, Hp, Hl, Hi.
Qed.

(** Three rows in one batch, and the same rows in two batches. *)
Lemma run_slow_eval_batching_witness :
  run_slow_eval id [([2%Q; 3%Q; 1%Q], [1%Q; 0%Q; 1%Q], [5; 5; 2])]
  = run_slow_eval id [([2%Q], [1%Q], [5]); ([3%Q; 1%Q], [0%Q; 1%Q], [5; 2])].
Proof.
  by apply (run_slow_eval_batching id id
              [([2%Q; 3%Q; 1%Q], [1%Q; 0%Q; 1%Q], [5; 5; 2])]
              [([2%Q], [1%Q], [5]); ([3%Q; 1%Q], [0%Q; 1%Q], [5; 2])]).
Defined.

End EvalExtras.

(** ** Properties of the construction helpers *)

Module SetupFacts.
Import Setup.

Lemma lower_ascii_idemp (c : Ascii.ascii) :
  lower_ascii (lower_ascii c) = lower_ascii c.
Proof. destruct c as [[] [] [] [] [] [] [] []]; reflexivity. Qed.

Lemma py_lower_idemp (s : string) : py_lower (py_lower s) = py_lower s.
Proof.
  induction s as [|c s IH]; [done|]. cbn. by rewrite lower_ascii_idemp, IH.
Qed.

Lemma opt_dict_lookup (k v : string) :
  opt_dict !! k = Some v →
  (k = "rmsprop" ∧ v = "RMSprop") ∨ (k = "sgd" ∧ v = "SGD") ∨
  (k = "adamw" ∧ v = "AdamW").
Proof.
  unfold opt_dict. intros H.
  apply lookup_insert_Some in H as [[<- <-]|[_ H]]; [by left|].
  apply lookup_insert_Some in H as [[<- <-]|[_ H]]; [right; by left|].
  apply lookup_singleton_Some in H as [<- <-]. right. by right.
Qed.

(** X21.  The name [_get_opt] looks up in [keras.optimizers] is always the
    capitalized lower-case optimizer name: [capitalize] lower-cases all but
    the first letter, so the spellings "RMSprop", "SGD" and "AdamW" of the
    table are never looked up, and [_get_opt] returns the class found under
    the capitalized name, applied to the learning rate. *)
Theorem optimizer_class_name_spec (optimizer : string) :
  optimizer_class_name optimizer = py_capitalize (py_lower optimizer) ∧
  optimizer_class_name optimizer ≠ "RMSprop"%string ∧
  optimizer_class_name optimizer ≠ "SGD"%string ∧
  optimizer_class_name optimizer ≠ "AdamW"%string ∧
  ∀ (Opt : Type) (keras_optimizers : string → option (Q → Opt)) (lr : Q),
    _get_opt keras_optimizers lr optimizer
    = (λ cls, cls lr) <$> keras_optimizers (py_capitalize (py_lower optimizer)).
Proof.
  assert (optimizer_class_name optimizer = py_capitalize (py_lower optimizer))
    as Hname.
  { unfold optimizer_class_name.
    destruct (opt_dict !! py_lower optimizer) as [v|] eqn:Hv; [|done].
    apply opt_dict_lookup in Hv as [[Hk ->]|[[Hk ->]|[Hk ->]]];
      rewrite Hk; reflexivity. }
  assert (∀ c s, py_capitalize (py_lower optimizer) = String c s →
                 py_lower s = s) as Htail.
  { intros c s. destruct optimizer as [|c0 s0]; [done|]. cbn.
    intros [= _ <-]. by rewrite !py_lower_idemp. }
  split; [exact Hname|]. rewrite Hname. split_and!.
  - intros H. by apply Htail in H.
  - intros H. by apply Htail in H.
  - intros H. by apply Htail in H.
  - intros Opt keras_optimizers lr. unfold _get_opt. rewrite Hname.
    by destruct (keras_optimizers _).
Qed.

Example get_opt_sgd :
  optimizer_class_name "sgd" = "Sgd"%string ∧
  optimizer_class_name "RMSProp" = "Rmsprop"%string ∧
  optimizer_class_name "adam" = "Adam"%string.
Proof. by vm_compute. Qed.

End SetupFacts.

(** ** Further properties of training *)

Module TrainingExtras.
Import Training Output TrainingFacts.

Lemma summary_epochs_app {Loss : Type} (evs1 evs2 : list (event Loss)) :
  summary_epochs (evs1 ++ evs2) = summary_epochs evs1 ++ summary_epochs evs2.
Proof. apply omap_app. Qed.

Lemma progress_steps_app {Loss : Type} (evs1 evs2 : list (event Loss)) :
  progress_steps (evs1 ++ evs2) = progress_steps evs1 ++ progress_steps evs2.
Proof. apply omap_app. Qed.

Lemma decreasing_count_app {Loss : Type} (evs1 evs2 : list (event Loss)) :
  decreasing_count (evs1 ++ evs2)
  = (decreasing_count evs1 + decreasing_count evs2)%nat.
Proof. unfold decreasing_count. by rewrite filter_app, length_app. Qed.

Lemma progress_quiet {Loss : Type} (progress : list (event Loss)) :
  Forall (λ ev, is_progress ev = true) progress →
  summary_epochs progress = [] ∧ decreasing_count progress = 0%nat ∧
  fine_steps progress = 0%nat ∧
  Forall (λ ev, ev ≠ StoppedEarly) progress.
Proof.
  induction 1 as [|ev progress Hev _ (IH1 & IH2 & IH3 & IH4)]; [done|].
  destruct ev; try done. split_and!; [done..|]. by constructor.
Qed.

Section extras.
Context {W Batch File Loss : Type} `{!LossArith Loss}.
Variable train : Q → W → Batch → W * Loss.
Variable run_eval : File → W → res metrics.
Variable load_data_from_file : Z → list Batch.
Variable hparams : HParams.
Variable valid_file : File.
Variable test_file : option File.

Local Abbreviation state := (@State W Loss).
Local Abbreviation event := (Training.event Loss).
Local Abbreviation train_loop := (Training.train_loop train hparams).
Local Abbreviation trained := (Training.trained train).
Local Abbreviation fit_epoch :=
  (Training.fit_epoch train run_eval load_data_from_file hparams valid_file test_file).
Local Abbreviation fit_loop :=
  (Training.fit_loop train run_eval load_data_from_file hparams valid_file test_file).
Local Abbreviation fit :=
  (Training.fit train run_eval load_data_from_file hparams valid_file test_file).
Local Abbreviation eval_test := (Training.eval_test run_eval test_file).
Local Abbreviation eval_valid := (Training.eval_valid run_eval hparams valid_file).
Local Abbreviation callback := (Training.early_stopping_callback (Loss:=Loss) hparams).
Local Abbreviation fine_lr := (Training.fine_lr hparams).
Local Abbreviation fine_step_at := (Training.fine_step_at (Loss:=Loss) hparams).
Local Abbreviation custom_epoch :=
  (Training.custom_epoch train run_eval load_data_from_file hparams valid_file test_file).
Local Abbreviation custom_loop :=
  (Training.custom_loop train run_eval load_data_from_file hparams valid_file test_file).
Local Abbreviation custom_fit :=
  (Training.custom_fit train run_eval load_data_from_file hparams valid_file test_file).
Local Abbreviation at_epoch :=
  (Training.at_epoch train run_eval load_data_from_file hparams valid_file test_file).
Local Abbreviation custom_start := (Training.custom_start (Loss:=Loss) hparams).

Implicit Types (s : state) (epoch : Z).

(** *** [fit] *)

Lemma fit_epoch_Ok (epoch : Z) (s s' : state) :
  fit_epoch epoch s = Ok s' →
  lr s' = lr s ∧
  last_eval_res s' = last_eval_res s ∧
  weights s' = trained (lr s) (weights s) (load_data_from_file epoch) ∧
  load_data_from_file epoch ≠ [] ∧
  ∃ progress tl r t,
    out s' = out s ++ progress ++ [EpochInfo epoch tl (Some r) t; EpochTime epoch] ∧
    Forall (λ ev, is_progress ev = true) progress.
Proof.
  unfold Training.fit_epoch.
  destruct (train_loop_cases train hparams (load_data_from_file epoch) s 0 loss_zero)
    as [(_ & _ & ->)|(_ & s1 & progress & -> & Hw & Hlr & Hd & Hout & Hp)];
    [done|].
  cbn. unfold Training.average. case_bool_decide as Hstep; [done|]. cbn.
  destruct (run_eval valid_file (weights s1)) as [r|]; [|done]. cbn.
  destruct (eval_test (weights s1)) as [t|]; [|done]. cbn.
  intros [= <-]. cbn. split_and!; [done..| |].
  - intros Hnil. rewrite Hnil in Hstep. by apply Hstep.
  - eexists progress, _, r, t. split; [|done].
    by rewrite Hout, <- !app_assoc.
Qed.

Lemma fit_loop_Ok (es : list Z) :
  ∀ s s',
  fit_loop es s = Ok s' →
  lr s' = lr s ∧
  last_eval_res s' = last_eval_res s ∧
  weights s'
  = foldl (λ w epoch, trained (lr s) w (load_data_from_file epoch)) (weights s) es ∧
  summary_epochs (out s') = summary_epochs (out s) ++ es ∧
  fine_steps (out s') = fine_steps (out s) ∧
  (Forall (λ ev, ev ≠ StoppedEarly) (out s) →
   Forall (λ ev, ev ≠ StoppedEarly) (out s')).
Proof.
  induction es as [|epoch es IH]; intros s s'; cbn [Training.fit_loop].
  - intros [= <-]. by rewrite app_nil_r.
  - destruct (fit_epoch epoch s) as [s1|] eqn:Hep; [|done]. cbn.
    intros Hrest. apply IH in Hrest as (Hlr & Hd & Hw & Hsum & Hfs & Hst).
    apply fit_epoch_Ok in Hep
      as (Hlr1 & Hd1 & Hw1 & _ & progress & tl & r & t & Hout & Hp).
    destruct (progress_quiet progress Hp) as (Hq1 & _ & Hq3 & Hq4).
    rewrite Hlr, Hd, Hw, Hsum, Hfs, Hlr1, Hd1, Hw1, Hout.
    split_and!; [done..| | |].
    + rewrite !summary_epochs_app, Hq1. cbn. by rewrite <- app_assoc.
    + rewrite !fine_steps_app, Hq3, summary_fine_steps. lia.
    + intros Hs. apply Hst. rewrite Hout.
      apply Forall_app. split; [done|]. apply Forall_app. split; [done|].
      by repeat constructor.
Qed.

(** X10.  A call of [fit] that returns has left the learning rate and the
    stopping history alone, has trained epoch after epoch on that epoch's
    batches, has printed one summary per epoch 1, ..., [epochs] in this
    order, and has printed neither a fine-step nor a stopping line. *)
Theorem fit_returns (m : Model) (s : state) :
  fit m = Ok s →
  lr s = m_lr m ∧
  last_eval_res s = m_last_eval_res m ∧
  weights s
  = foldl (λ w epoch, trained (m_lr m) w (load_data_from_file epoch))
      (m_weights m) (seqZ 1 (epochs hparams)) ∧
  summary_epochs (out s) = seqZ 1 (epochs hparams) ∧
  fine_steps (out s) = 0%nat ∧
  Forall (λ ev, ev ≠ StoppedEarly) (out s).
Proof.
  intros (Hlr & Hd & Hw & Hsum & Hfs & Hst)%fit_loop_Ok.
  split_and!; [done..|]. by apply Hst.
Qed.

(** X11.  When the first epoch has no batch, or [show_step] is zero, a call
    with at least one epoch ends in [ZeroDivisionError], both in [fit] and in
    [custom_fit], before any evaluation. *)
Theorem no_batch_or_zero_show_step (m : Model) :
  1 ≤ epochs hparams →
  load_data_from_file 1 = [] ∨ show_step hparams = 0 →
  fit m = Raise ZeroDivisionError ∧ custom_fit m = Raised ZeroDivisionError.
Proof.
  intros Hep Hbad.
  assert (∀ s, train_loop (load_data_from_file 1) s 0 loss_zero
               ≫= (λ '(s, step, epoch_loss), Training.average epoch_loss step)
               = Raise ZeroDivisionError) as Hpass.
  { intros s.
    destruct (train_loop_cases train hparams (load_data_from_file 1) s 0 loss_zero)
      as [(_ & _ & ->)|([Hnil|Hshow] & s1 & progress & -> & _)]; [done| |].
    - rewrite Hnil. cbn. done.
    - destruct Hbad as [Hnil|]; [|done]. rewrite Hnil. cbn. done. }
  split.
  - unfold Training.fit. rewrite seqZ_cons by lia. cbn [Training.fit_loop].
    unfold Training.fit_epoch. specialize (Hpass (enter m)).
    destruct (train_loop _ _ _ _) as [[[s1 step] el]|e]; cbn in Hpass |- *;
      [|congruence].
    by rewrite Hpass.
  - unfold Training.custom_fit. rewrite seqZ_cons by lia.
    cbn [Training.custom_loop]. unfold Training.custom_epoch.
    specialize (Hpass (fine_step_at 1 (custom_start m))).
    destruct (train_loop _ _ _ _) as [[[s1 step] el]|e]; cbn in Hpass |- *;
      [|congruence].
    by rewrite Hpass.
Qed.

(** *** [custom_fit] with its features switched off *)

Lemma custom_epoch_plain (epoch : Z) (s : state) :
  flag (use_early_stopping hparams) = false →
  flag (use_fine_step hparams) = false →
  flag (deactivate_eval hparams) = false →
  custom_epoch epoch s
  = match fit_epoch epoch s with Ok s' => Next s' | Raise e => Abort e end.
Proof.
  intros Hes Hfine Hde.
  unfold Training.custom_epoch, Training.fit_epoch, Training.fine_step_at,
    Training.eval_valid, Training.early_stopping_callback.
  rewrite Hes, Hfine, Hde. cbn [andb].
  destruct (train_loop _ s 0 loss_zero) as [[[s1 step] el]|e]; [|done]. cbn.
  destruct (Training.average el step) as [tl|e]; [|done]. cbn.
  destruct (run_eval valid_file (weights s1)) as [r|e]; [|done]. cbn.
  by destruct (eval_test (weights s1)) as [t|e].
Qed.

(** X12.  With early stopping, fine-stepping and [deactivate_eval] all off
    (or absent), [custom_fit] does exactly what [fit] does: the same final
    state and printed lines, or the same exception. *)
Theorem custom_fit_plain (m : Model) :
  flag (use_early_stopping hparams) = false →
  flag (use_fine_step hparams) = false →
  flag (deactivate_eval hparams) = false →
  custom_fit m = as_outcome (fit m).
Proof.
  intros Hes Hfine Hde.
  unfold Training.custom_fit, Training.fit, Training.custom_start.
  rewrite Hes. generalize (enter (Loss:=Loss) m).
  generalize (seqZ 1 (epochs hparams)).
  intros es. induction es as [|epoch es IH]; intros s; [done|].
  cbn [Training.custom_loop Training.fit_loop].
  rewrite custom_epoch_plain by done.
  destruct (fit_epoch epoch s) as [s'|e]; cbn; [apply IH|done].
Qed.

(** *** The first epoch of [custom_fit] *)

Lemma custom_fit_first :
  ∀ m, 1 ≤ epochs hparams →
  custom_fit m
  = match custom_epoch 1 (custom_start m) with
    | Next s' => custom_loop (seqZ 2 (epochs hparams - 1)) s'
    | Return s' => Stopped s'
    | Abort e => Raised e
    end.
Proof.
  intros m Hep. unfold Training.custom_fit. by rewrite seqZ_cons by lia.
Qed.

Lemma epoch_reaches_callback (epoch : Z) (s : state)
    (er t : option metrics) :
  show_step hparams ≠ 0 →
  load_data_from_file epoch ≠ [] →
  let s1 := fine_step_at epoch s in
  let w1 := trained (lr s1) (weights s1) (load_data_from_file epoch) in
  eval_valid w1 = Ok er →
  eval_test w1 = Ok t →
  ∃ s2, custom_epoch epoch s = callback epoch er s2 ∧
        last_eval_res s2 = last_eval_res s.
Proof.
  intros Hshow Hne s1 w1 Her Ht. unfold Training.custom_epoch. fold s1.
  destruct (train_loop_cases train hparams (load_data_from_file epoch) s1 0 loss_zero)
    as [(_ & Hz & _)|(_ & s2 & progress & -> & Hw & Hlr & Hd & Hout & Hp)];
    [done|].
  cbn. unfold Training.average. rewrite bool_decide_eq_false_2.
  2:{ destruct (load_data_from_file epoch); [done|]. cbn. lia. }
  cbn. rewrite Hw. fold w1. rewrite Her. cbn. rewrite Ht. cbn.
  eexists. split; [done|]. cbn. rewrite Hd. unfold s1.
  by destruct (fine_step_at_effect hparams epoch s) as (-> & _).
Qed.

(** X13.  Early stopping together with [deactivate_eval]: no validation
    result is ever assigned, and the first epoch, once trained, ends in
    [UnboundLocalError] when the callback reads it. *)
Theorem early_stopping_without_eval (m : Model) :
  flag (use_early_stopping hparams) = true →
  flag (deactivate_eval hparams) = true →
  1 ≤ epochs hparams →
  show_step hparams ≠ 0 →
  load_data_from_file 1 ≠ [] →
  let s1 := fine_step_at 1 (custom_start m) in
  let w1 := trained (lr s1) (weights s1) (load_data_from_file 1) in
  (∃ t, eval_test w1 = Ok t) →
  custom_fit m = Raised UnboundLocalError.
Proof.
  intros Hes Hde Hep Hshow Hne s1 w1 [t Ht].
  rewrite custom_fit_first by done.
  destruct (epoch_reaches_callback 1 (custom_start m) None t Hshow Hne)
    as (s2 & -> & _); [|done|].
  { unfold Training.eval_valid. by rewrite Hde. }
  unfold Training.early_stopping_callback. by rewrite Hes.
Qed.

(** X14.  With early stopping on, a validation result that lacks the
    monitored metric ends the first epoch in [KeyError]. *)
Theorem monitored_metric_missing (m : Model) (r : metrics) :
  flag (use_early_stopping hparams) = true →
  flag (deactivate_eval hparams) = false →
  1 ≤ epochs hparams →
  show_step hparams ≠ 0 →
  load_data_from_file 1 ≠ [] →
  let s1 := fine_step_at 1 (custom_start m) in
  let w1 := trained (lr s1) (weights s1) (load_data_from_file 1) in
  run_eval valid_file w1 = Ok r →
  (∃ t, eval_test w1 = Ok t) →
  r !! early_stopping_metric hparams = None →
  custom_fit m = Raised KeyError.
Proof.
  intros Hes Hde Hep Hshow Hne s1 w1 Hr [t Ht] Hmiss.
  rewrite custom_fit_first by done.
  destruct (epoch_reaches_callback 1 (custom_start m) (Some r) t Hshow Hne)
    as (s2 & -> & _); [|done|].
  { unfold Training.eval_valid. rewrite Hde. fold s1 w1. by rewrite Hr. }
  unfold Training.early_stopping_callback, getitem. by rewrite Hes, Hmiss.
Qed.

(** X15.  With early stopping on and a patience of zero or less, the first
    history update pops from the empty deque: a first epoch that is not yet
    guarded ([early_stopping_start_from_epoch] above 1) ends in
    [IndexError]. *)
Theorem patience_not_positive (m : Model) (r : metrics) (cur : Q) :
  flag (use_early_stopping hparams) = true →
  early_stopping_patience hparams ≤ 0 →
  1 < early_stopping_start_from_epoch hparams →
  flag (deactivate_eval hparams) = false →
  1 ≤ epochs hparams →
  show_step hparams ≠ 0 →
  load_data_from_file 1 ≠ [] →
  let s1 := fine_step_at 1 (custom_start m) in
  let w1 := trained (lr s1) (weights s1) (load_data_from_file 1) in
  run_eval valid_file w1 = Ok r →
  (∃ t, eval_test w1 = Ok t) →
  r !! early_stopping_metric hparams = Some cur →
  custom_fit m = Raised IndexError.
Proof.
  intros Hes Hpat Hstart Hde Hep Hshow Hne s1 w1 Hr [t Ht] Hcur.
  rewrite custom_fit_first by done.
  destruct (epoch_reaches_callback 1 (custom_start m) (Some r) t Hshow Hne)
    as (s2 & -> & Hd); [|done|].
  { unfold Training.eval_valid. rewrite Hde. fold s1 w1. by rewrite Hr. }
  assert (last_eval_res s2 = []) as Hnil.
  { rewrite Hd. unfold Training.custom_start. by rewrite Hes. }
  unfold Training.early_stopping_callback, getitem, Training.plateau,
    Training.update_history.
  rewrite Hes, Hcur, Hnil.
  rewrite bool_decide_eq_false_2 by lia. cbn. rewrite Hnil.
  by rewrite bool_decide_eq_true_2 by (cbn; lia).
Qed.

(** *** What every epoch of [custom_fit] prints *)

Lemma fine_step_at_out (epoch : Z) (s : state) :
  out (fine_step_at epoch s)
  = out s ++ (if flag (use_fine_step hparams)
                 && bool_decide (epoch = fine_step_from_epoch hparams)
              then [DecreasingLR] else []) ∧
  (flag (use_fine_step hparams) = false → lr (fine_step_at epoch s) = lr s).
Proof.
  unfold Training.fine_step_at.
  destruct (flag (use_fine_step hparams)); cbn [andb].
  - case_bool_decide; cbn; by rewrite ?app_nil_r.
  - by rewrite app_nil_r.
Qed.

Lemma custom_epoch_prints (epoch : Z) (s s' : state) :
  custom_epoch epoch s = Next s' ∨ custom_epoch epoch s = Return s' →
  summary_epochs (out s') = summary_epochs (out s) ++ [epoch] ∧
  decreasing_count (out s')
  = (decreasing_count (out s)
     + (if flag (use_fine_step hparams)
           && bool_decide (epoch = fine_step_from_epoch hparams)
        then 1 else 0))%nat ∧
  (flag (use_fine_step hparams) = false →
   fine_steps (out s') = fine_steps (out s) ∧ lr s' = lr s).
Proof.
  intros Hstep.
  destruct (custom_epoch_cases train run_eval load_data_from_file hparams
              valid_file test_file epoch s)
    as [[e He]|(s2 & er & tl & tr & progress & Hcb & Hlr & Hd & Hout & Hp)];
    [destruct Hstep; congruence|].
  destruct (progress_quiet progress Hp) as (Hq1 & Hq2 & Hq3 & _).
  destruct (fine_step_at_out epoch s) as [Hfo Hfl].
  assert (summary_epochs (out s2) = summary_epochs (out s) ++ [epoch]) as Hs2.
  { rewrite Hout, Hfo, !summary_epochs_app, Hq1.
    by destruct (_ && _); cbn; rewrite ?app_nil_r. }
  assert (decreasing_count (out s2)
          = (decreasing_count (out s)
             + (if flag (use_fine_step hparams)
                   && bool_decide (epoch = fine_step_from_epoch hparams)
                then 1 else 0))%nat) as Hc2.
  { rewrite Hout, Hfo, !decreasing_count_app, Hq2.
    change (decreasing_count [EpochInfo epoch tl er tr; EpochTime epoch])
      with 0%nat.
    destruct (_ && _);
      [change (decreasing_count [DecreasingLR]) with 1%nat
      |change (decreasing_count []) with 0%nat]; lia. }
  assert (flag (use_fine_step hparams) = false →
          fine_steps (out s2) = fine_steps (out s) ∧ lr s2 = lr s) as Hf2.
  { intros Hoff. rewrite Hlr, Hfl by done. split; [|done].
    rewrite Hout, Hfo, Hoff, !fine_steps_app, Hq3, summary_fine_steps.
    cbn [andb]. change (fine_steps []) with 0%nat. lia. }
  rewrite Hcb in Hstep.
  pose proof (callback_cases hparams epoch er s2) as Hc.
  destruct Hstep as [Hstep|Hstep]; rewrite Hstep in Hc.
  - destruct Hc as [[_ ->]|(_ & r & cur & p & d & _ & _ & _ & _ &
      [[_ ->]|(_ & Hon & _ & ->)])]; cbn [out lr Training.set_last_eval_res
        Training.set_lr Training.print]; [done..|].
    rewrite summary_epochs_app, decreasing_count_app, Hs2, Hc2.
    change (summary_epochs [GoingToFineTuning]) with (@nil Z).
    change (decreasing_count [GoingToFineTuning]) with 0%nat.
    rewrite app_nil_r. split_and!; [done|lia|congruence].
  - destruct Hc as (_ & r & cur & _ & _ & _ & _ & ->).
    cbn [out lr Training.print].
    rewrite summary_epochs_app, decreasing_count_app, fine_steps_app, Hs2, Hc2.
    change (summary_epochs [StoppedEarly]) with (@nil Z).
    change (decreasing_count [StoppedEarly]) with 0%nat.
    change (fine_steps [StoppedEarly]) with 0%nat.
    rewrite app_nil_r. split_and!; [done|lia|].
    intros Hoff. destruct (Hf2 Hoff) as [-> ->]. split; [lia|done].
Qed.

Lemma at_epoch_prints (m : Model) (epoch : Z) (s : state) :
  at_epoch m epoch s →
  1 ≤ epoch ∧
  summary_epochs (out s) = seqZ 1 (epoch - 1) ∧
  decreasing_count (out s)
  = (if flag (use_fine_step hparams)
        && bool_decide (1 ≤ fine_step_from_epoch hparams < epoch)
     then 1%nat else 0%nat) ∧
  (flag (use_fine_step hparams) = false →
   fine_steps (out s) = 0%nat ∧ lr s = m_lr m) ∧
  (flag (use_early_stopping hparams) = false →
   last_eval_res s = m_last_eval_res m).
Proof.
  induction 1 as [|epoch s s' _ (Hge & Hsum & Hdec & Hfine & Hes) Hle Hstep].
  - split; [done|]. unfold Training.custom_start.
    destruct (flag (use_early_stopping hparams)); cbn;
      rewrite bool_decide_eq_false_2 by lia;
      rewrite andb_false_r; done.
  - destruct (custom_epoch_prints epoch s s' (or_introl Hstep))
      as (Hsum' & Hdec' & Hfine').
    destruct (custom_epoch_Next train run_eval load_data_from_file hparams
                valid_file test_file epoch s s' Hstep) as (_ & Hoff & _).
    split_and!.
    + lia.
    + rewrite Hsum', Hsum.
      replace (epoch + 1 - 1) with ((epoch - 1) + 1) by lia.
      rewrite seqZ_app by lia. f_equal.
      replace (1 + (epoch - 1)) with epoch by lia. done.
    + rewrite Hdec', Hdec. destruct (flag (use_fine_step hparams)); cbn [andb];
        [|done].
      repeat case_bool_decide; lia.
    + intros Hf. destruct (Hfine Hf) as [<- <-]. by apply Hfine'.
    + intros He. rewrite <- (Hes He). by apply Hoff.
Qed.

Lemma custom_loop_stopped (m : Model) (n : nat) :
  ∀ epoch s s',
  at_epoch m epoch s →
  epoch + Z.of_nat n - 1 ≤ epochs hparams →
  custom_loop (seqZ epoch (Z.of_nat n)) s = Stopped s' →
  ∃ epoch0 s0,
    at_epoch m epoch0 s0 ∧ epoch0 ≤ epochs hparams ∧
    custom_epoch epoch0 s0 = Return s'.
Proof.
  induction n as [|n IH]; intros epoch s s' Hat Hle; [done|].
  rewrite seqZ_cons by lia. cbn [Training.custom_loop].
  destruct (custom_epoch epoch s) as [s1|s1|e] eqn:Hstep; [| |done].
  - replace (Z.pred (Z.of_nat (S n))) with (Z.of_nat n) by lia.
    apply IH; [|lia].
    apply (at_next _ _ _ _ _ _ _ epoch s s1); [done|lia|done].
  - intros [= <-]. exists epoch, s. split_and!; [done|lia|done].
Qed.

Lemma custom_fit_stopped (m : Model) (s' : state) :
  custom_fit m = Stopped s' →
  ∃ epoch0 s0,
    at_epoch m epoch0 s0 ∧ epoch0 ≤ epochs hparams ∧
    custom_epoch epoch0 s0 = Return s'.
Proof.
  unfold Training.custom_fit.
  destruct (decide (epochs hparams ≤ 0)) as [Hle|Hgt].
  - by rewrite seqZ_nil.
  - rewrite <- (Z2Nat.id (epochs hparams)) at 1 by lia.
    apply custom_loop_stopped; [constructor|lia].
Qed.

Lemma custom_fit_finished (m : Model) (s' : state) :
  custom_fit m = Finished s' →
  at_epoch m (Z.max 0 (epochs hparams) + 1) s'.
Proof.
  unfold Training.custom_fit.
  destruct (decide (epochs hparams ≤ 0)) as [Hle|Hgt].
  - rewrite seqZ_nil by done. cbn. intros [= <-].
    replace (Z.max 0 (epochs hparams) + 1) with 1 by lia. constructor.
  - pose proof (custom_loop_outcome train run_eval load_data_from_file hparams
                  valid_file test_file m (Z.to_nat (epochs hparams)) 1
                  (custom_start m) (at_first _ _ _ _ _ _ m) ltac:(lia)) as Hout.
    rewrite Z2Nat.id in Hout by lia. intros Hfin. rewrite Hfin in Hout.
    by replace (Z.max 0 (epochs hparams) + 1) with (1 + epochs hparams) by lia.
Qed.

(** X16.  When the early-stopping callback ends a call of [custom_fit], the
    summaries of epochs 1, ..., e have been printed for an epoch e that is
    at least 2, at least [early_stopping_start_from_epoch], at most
    [epochs], and, when fine-stepping is on, at least
    [fine_step_from_epoch]: training is never stopped in its first epoch,
    nor before fine-stepping has begun. *)
Theorem stopping_epoch (m : Model) (s : state) :
  custom_fit m = Stopped s →
  ∃ e,
    summary_epochs (out s) = seqZ 1 e ∧
    2 ≤ e ≤ epochs hparams ∧
    early_stopping_start_from_epoch hparams ≤ e ∧
    (flag (use_fine_step hparams) = true → fine_step_from_epoch hparams ≤ e) ∧
    flag (use_early_stopping hparams) = true.
Proof.
  intros (e & s0 & Hat & Hle & Hret)%custom_fit_stopped.
  destruct (custom_epoch_prints e s0 s (or_intror Hret)) as (Hsum & _).
  destruct (at_epoch_prints m e s0 Hat) as (Hge & Hsum0 & _).
  apply custom_epoch_Return in Hret as (Hes & _ & _ & Hfine & cur & _ & Hpl).
  apply plateau_true in Hpl as (Hstart & m0 & Hmin & _).
  apply py_min_Ok in Hmin as [Hin _].
  destruct (at_epoch_inv train run_eval load_data_from_file hparams valid_file
              test_file m e s0 Hat) as (_ & _ & Hhist).
  destruct (Hhist Hes) as [Hlen Hd].
  exists e. split_and!; [| |done|done| |done].
  - rewrite Hsum, Hsum0.
    replace e with ((e - 1) + 1) at 3 by lia.
    rewrite seqZ_app by lia. f_equal.
    replace (1 + (e - 1)) with e by lia. done.
  - destruct (decide (e = 1)) as [->|]; [|lia].
    rewrite Hd in Hin. destruct (Training.monitored hparams (out s0));
      [|done]. by apply elem_of_nil in Hin.
  - intros Hon. destruct Hfine as [Hoff|]; [congruence|done].
Qed.

(** X17.  With early stopping off, [custom_fit] is never ended by the
    callback, and a call that returns has printed one summary per epoch and
    left the attribute [last_eval_res] as it found it. *)
Theorem early_stopping_off (m : Model) :
  flag (use_early_stopping hparams) = false →
  (∀ s, custom_fit m ≠ Stopped s) ∧
  (∀ s, custom_fit m = Finished s →
        last_eval_res s = m_last_eval_res m ∧
        summary_epochs (out s) = seqZ 1 (epochs hparams)).
Proof.
  intros Hoff. split.
  - intros s (e & s0 & _ & _ & Hret)%custom_fit_stopped.
    apply custom_epoch_Return in Hret as (Hon & _). congruence.
  - intros s Hat%custom_fit_finished.
    apply at_epoch_prints in Hat as (_ & Hsum & _ & _ & Hd).
    split; [by apply Hd|]. rewrite Hsum.
    replace (Z.max 0 (epochs hparams) + 1 - 1) with (Z.max 0 (epochs hparams))
      by lia.
    destruct (decide (epochs hparams ≤ 0)).
    + by rewrite !seqZ_nil by lia.
    + f_equal. lia.
Qed.

(** X18.  With fine-stepping off, [custom_fit] never changes the learning
    rate and prints no fine-step line, however the call ends. *)
Theorem fine_step_off (m : Model) (s : state) :
  flag (use_fine_step hparams) = false →
  custom_fit m = Finished s ∨ custom_fit m = Stopped s →
  lr s = m_lr m ∧ fine_steps (out s) = 0%nat.
Proof.
  intros Hoff [Hat%custom_fit_finished|(e & s0 & Hat & _ & Hret)%custom_fit_stopped].
  - apply at_epoch_prints in Hat as (_ & _ & _ & Hf & _).
    by destruct (Hf Hoff).
  - apply at_epoch_prints in Hat as (_ & _ & _ & Hf & _).
    destruct (Hf Hoff) as [Hfs Hlr].
    destruct (custom_epoch_prints e s0 s (or_intror Hret)) as (_ & _ & Hf').
    destruct (Hf' Hoff) as [-> ->]. done.
Qed.

(** X19.  The unconditional fine step announces itself at most once in a
    call; a call that runs all its epochs announces it exactly once when
    fine-stepping is on and [fine_step_from_epoch] lies in 1, ..., [epochs],
    and never otherwise, whether or not early stopping is on. *)
Theorem unconditional_fine_step_once (m : Model) (s : state) :
  (custom_fit m = Finished s →
   decreasing_count (out s)
   = if flag (use_fine_step hparams)
        && bool_decide (1 ≤ fine_step_from_epoch hparams ≤ epochs hparams)
     then 1%nat else 0%nat) ∧
  (custom_fit m = Stopped s → (decreasing_count (out s) ≤ 1)%nat).
Proof.
  split.
  - intros Hat%custom_fit_finished.
    apply at_epoch_prints in Hat as (_ & _ & -> & _).
    destruct (flag (use_fine_step hparams)); cbn [andb]; [|done].
    repeat case_bool_decide; (done || lia).
  - intros (e & s0 & Hat & _ & Hret)%custom_fit_stopped.
    apply at_epoch_prints in Hat as (_ & _ & Hdec & _).
    destruct (custom_epoch_prints e s0 s (or_intror Hret)) as (_ & -> & _).
    rewrite Hdec. destruct (flag (use_fine_step hparams)); cbn [andb]; [|lia].
    repeat case_bool_decide; lia.
Qed.

(** *** Progress descriptions *)

Lemma train_loop_progress (batches : list Batch) :
  show_step hparams ≠ 0 →
  ∀ s (step : Z) (epoch_loss : Loss),
  ∃ s' el,
    train_loop batches s step epoch_loss
    = Ok (s', step + Z.of_nat (length batches), el) ∧
    progress_steps (out s')
    = progress_steps (out s)
      ++ filter (λ k, k `mod` show_step hparams = 0)
           (seqZ (step + 1) (Z.of_nat (length batches))).
Proof.
  intros Hshow. induction batches as [|b batches IH]; intros s step epoch_loss.
  - exists s, epoch_loss. cbn. by rewrite Z.add_0_r, app_nil_r.
  - cbn [Training.train_loop].
    destruct (train (lr s) (weights s) b) as [w loss].
    rewrite bool_decide_eq_false_2 by done.
    match goal with |- context [Training.train_loop _ _ batches ?s1 ?st ?el] =>
      destruct (IH s1 st el) as (s' & el' & -> & Hsteps) end.
    exists s', el'. split; [do 3 f_equal; cbn [length]; lia|].
    rewrite Hsteps. cbn [length].
    rewrite (seqZ_cons (step + 1)) by lia. rewrite filter_cons.
    replace (Z.succ (step + 1)) with (step + 1 + 1) by lia.
    replace (Z.pred (Z.of_nat (S (length batches))))
      with (Z.of_nat (length batches)) by lia.
    case_bool_decide as Hmod.
    + rewrite decide_True by done.
      cbn [out Training.print Training.set_weights].
      rewrite progress_steps_app. cbn. by rewrite <- app_assoc.
    + rewrite decide_False by done. done.
Qed.

(** X20.  With a non-zero [show_step] the training pass over n batches
    completes n steps and shows a progress description exactly at the steps
    among 1, ..., n that are multiples of [show_step], in increasing
    order. *)
Theorem progress_every_show_step (batches : list Batch) (s : state) :
  show_step hparams ≠ 0 →
  ∃ s' el,
    train_loop batches s 0 loss_zero = Ok (s', Z.of_nat (length batches), el) ∧
    progress_steps (out s')
    = progress_steps (out s)
      ++ filter (λ k, k `mod` show_step hparams = 0)
           (seqZ 1 (Z.of_nat (length batches))).
Proof.
  intros Hshow.
  destruct (train_loop_progress batches Hshow s 0 loss_zero) as (s' & el & Hrun & Hp).
  exists s', el. by rewrite Z.add_0_l in Hrun.
Qed.

End extras.

(** Two epochs of three batches each. *)
Lemma fit_returns_witness :
  ∃ s,
    fit Scenario.train_given Scenario.eval_rising Scenario.three_batches
      (Scenario.hp 2 1 (1 # 5) 2 None 0) tt None Scenario.fresh = Ok s ∧
    lr s = (1 # 10)%Q ∧
    summary_epochs (out s) = [1; 2].
Proof.
  eexists. split; [vm_compute; reflexivity|].
  match goal with |- lr ?s = _ ∧ _ =>
    destruct (fit_returns Scenario.train_given Scenario.eval_rising
                Scenario.three_batches (Scenario.hp 2 1 (1 # 5) 2 None 0) tt None
                Scenario.fresh s) as (Hlr & _ & _ & Hsum & _) end.
  { vm_compute. reflexivity. }
  split; [exact Hlr|exact Hsum].
Defined.

Lemma no_batch_or_zero_show_step_witness :
  Scenario2.no_batch 1 = [] ∧
  fit Scenario.train_count Scenario.eval_rising Scenario2.no_batch
    (Scenario.hp 3 1 (1 # 5) 2 None 0) tt None Scenario.fresh
  = Raise ZeroDivisionError ∧
  custom_fit Scenario.train_count Scenario.eval_rising Scenario2.no_batch
    (Scenario.hp 3 1 (1 # 5) 2 None 0) tt None Scenario.fresh
  = Raised ZeroDivisionError.
Proof.
  split; [reflexivity|].
  apply (no_batch_or_zero_show_step Scenario.train_count Scenario.eval_rising
           Scenario2.no_batch (Scenario.hp 3 1 (1 # 5) 2 None 0) tt None
           Scenario.fresh).
  - cbn. lia.
  - by left.
Defined.

Lemma custom_fit_plain_witness :
  flag (use_early_stopping (Scenario2.hp_plain 2)) = false ∧
  custom_fit Scenario.train_count Scenario.eval_rising Scenario.one_batch
    (Scenario2.hp_plain 2) tt None Scenario.fresh
  = as_outcome
      (fit Scenario.train_count Scenario.eval_rising Scenario.one_batch
         (Scenario2.hp_plain 2) tt None Scenario.fresh).
Proof.
  split; [reflexivity|].
  exact (custom_fit_plain Scenario.train_count Scenario.eval_rising
           Scenario.one_batch (Scenario2.hp_plain 2) tt None Scenario.fresh
           eq_refl eq_refl eq_refl).
Defined.

Lemma early_stopping_without_eval_witness :
  flag (deactivate_eval Scenario2.hp_no_eval) = true ∧
  custom_fit Scenario.train_count Scenario.eval_rising Scenario.one_batch
    Scenario2.hp_no_eval tt None Scenario.fresh
  = Raised UnboundLocalError.
Proof.
  split; [reflexivity|].
  apply (early_stopping_without_eval Scenario.train_count Scenario.eval_rising
           Scenario.one_batch Scenario2.hp_no_eval tt None Scenario.fresh
           eq_refl eq_refl).
  - cbn. lia.
  - done.
  - done.
  - by exists None.
Defined.

Lemma monitored_metric_missing_witness :
  custom_fit Scenario.train_count Scenario2.eval_acc Scenario.one_batch
    (Scenario.hp 3 1 (1 # 5) 2 None 0) tt None Scenario.fresh
  = Raised KeyError.
Proof.
  apply (monitored_metric_missing Scenario.train_count Scenario2.eval_acc
           Scenario.one_batch (Scenario.hp 3 1 (1 # 5) 2 None 0) tt None
           Scenario.fresh {[ "acc"%string := (1 # 2)%Q ]} eq_refl eq_refl).
  - cbn. lia.
  - done.
  - done.
  - reflexivity.
  - by exists None.
  - reflexivity.
Defined.

Lemma patience_not_positive_witness :
  early_stopping_patience (Scenario.hp 3 0 (1 # 5) 2 None 0) ≤ 0 ∧
  custom_fit Scenario.train_count Scenario.eval_rising Scenario.one_batch
    (Scenario.hp 3 0 (1 # 5) 2 None 0) tt None Scenario.fresh
  = Raised IndexError.
Proof.
  split; [cbn; lia|].
  apply (patience_not_positive Scenario.train_count Scenario.eval_rising
           Scenario.one_batch (Scenario.hp 3 0 (1 # 5) 2 None 0) tt None
           Scenario.fresh {[ "auc"%string := ((1 # 2) + inject_Z 1 / 10)%Q ]}
           ((1 # 2) + inject_Z 1 / 10)%Q eq_refl).
  - cbn. lia.
  - cbn. lia.
  - reflexivity.
  - cbn. lia.
  - done.
  - done.
  - reflexivity.
  - by exists None.
  - reflexivity.
Defined.

(** The run of [two_triggers_one_rate]: stopped in epoch 3. *)
Lemma stopping_epoch_witness :
  ∃ s e,
    custom_fit Scenario.train_count Scenario.eval_rising Scenario.one_batch
      (Scenario.hp 4 1 (1 # 5) 2 (Some true) 3) tt None Scenario.fresh
    = Stopped s ∧
    summary_epochs (out s) = seqZ 1 e ∧ 3 ≤ e ≤ 4.
Proof.
  eexists. 
  match goal with |- ∃ e, ?run = Stopped ?s ∧ _ =>
    assert (run = Stopped s) as Hrun by (vm_compute; reflexivity) end.
  destruct (stopping_epoch Scenario.train_count Scenario.eval_rising
              Scenario.one_batch (Scenario.hp 4 1 (1 # 5) 2 (Some true) 3) tt None
              Scenario.fresh _ Hrun) as (e & Hsum & [_ Hle] & _ & Hfine & _).
  exists e. split_and!; [exact Hrun|exact Hsum| |exact Hle].
  exact (Hfine eq_refl).
Defined.

Lemma early_stopping_off_witness :
  flag (use_early_stopping (Scenario2.hp_plain 2)) = false ∧
  ∀ s,
    custom_fit Scenario.train_count Scenario.eval_rising Scenario.one_batch
      (Scenario2.hp_plain 2) tt None Scenario.fresh ≠ Stopped s.
Proof.
  split; [reflexivity|].
  exact (proj1 (early_stopping_off Scenario.train_count Scenario.eval_rising
                  Scenario.one_batch (Scenario2.hp_plain 2) tt None
                  Scenario.fresh eq_refl)).
Defined.

Lemma fine_step_off_witness :
  ∃ s,
    custom_fit Scenario.train_count Scenario.eval_rising Scenario.one_batch
      (Scenario.hp 3 1 (1 # 20) 2 None 0) tt None Scenario.fresh = Finished s ∧
    lr s = (1 # 10)%Q ∧ fine_steps (out s) = 0%nat.
Proof.
  eexists. split; [vm_compute; reflexivity|].
  apply (fine_step_off Scenario.train_count Scenario.eval_rising
           Scenario.one_batch (Scenario.hp 3 1 (1 # 20) 2 None 0) tt None
           Scenario.fresh _ eq_refl).
  left. vm_compute. reflexivity.
Defined.

Lemma progress_every_show_step_witness :
  show_step (Scenario.hp 1 1 (1 # 5) 2 None 0) ≠ 0 ∧
  ∃ s' el,
    train_loop Scenario.train_given (Scenario.hp 1 1 (1 # 5) 2 None 0)
      (Scenario.three_batches 1) (enter Scenario.fresh) 0 loss_zero
    = Ok (s', 3, el) ∧
    progress_steps (out s') = [2].
Proof.
  assert (show_step (Scenario.hp 1 1 (1 # 5) 2 None 0) ≠ 0) as Hshow by done.
  split; [exact Hshow|].
  destruct (progress_every_show_step Scenario.train_given
              (Scenario.hp 1 1 (1 # 5) 2 None 0) (Scenario.three_batches 1)
              (enter Scenario.fresh) Hshow) as (s' & el & Hrun & Hsteps).
  exists s', el. split; [exact Hrun|exact Hsteps].
Defined.

End TrainingExtras.
